(** * public_share_bot: a gated file-sharing relay

    A shallow embedding of [public_share_bot.py] and the properties of
    its upload-session aggregation, share registry, pager and delivery
    paths.

    Conventions of the embedding.
    - Python [int]s (user ids, chat ids, message ids, page numbers) are
      [Z]; Python [str]s are [string]s of bytes (UTF-8).
    - [context.user_data] is a per-user record of optional keys, kept in
      a [gmap] keyed by user id; [context.bot_data] holds one entry per
      pending media group; the list object shared between a group entry
      and the scheduled job is a cell of an explicit store.
    - The [files] table is a list of rows, newest first.
    - Every handler is a function [World -> World]; what the handler
      sends is appended to the world's [trace].  In [dispatch] and
      [run] a handler and a job run in one piece, as they do when every
      awaited call is answered at once; the properties of the registry,
      the pager, the gate and the sessions are stated on that loop.
    - The file path ([file_handler] with its decorator, and
      [process_and_collect_files_job]) is also given await by await,
      with the time each collaborator takes to answer: in the loop
      [settle] a timer fires and a job goes on while a handler waits
      for an answer.  The properties of the debounced aggregator are
      stated on this loop.
    - The collaborators (membership check, relay, copy, retraction,
      storage faults, randomness) are the fields of an [Env] record:
      each call is answered by the environment as a function of the
      time of the call and of its arguments.  Sending, editing and
      answering a message are taken to succeed; the calls the source
      guards with [try] (membership, relay, copy, retraction, storage)
      may raise.
    - Time is a rational number of seconds; the job queue runs a job
      when the clock has reached its firing time. *)

From Stdlib Require Import ZArith QArith Lia Lqa Ascii String.
From Stdlib Require Strings.Byte.
From stdpp Require Import gmap strings list pretty.

Local Open Scope string_scope.
Local Open Scope list_scope.
Local Open Scope Z_scope.

(** String literals glued to a variable reduce as far as the literal goes. *)
Local Arguments String.append !s1 s2.

(** ** Python built-ins used by the bot *)

Module Py.

(** [s.split(sep, maxsplit)] for a one-character separator; [None] as
    [maxsplit] is Python's default (no limit).  The result is never
    empty. *)
Fixpoint split (sep : ascii) (maxsplit : option nat) (s : string) : list string :=
  match s with
  | EmptyString => [""]
  | String c s' =>
      let cut := match maxsplit with Some O => false | _ => Ascii.eqb c sep end in
      if cut
      then "" :: split sep (Nat.pred <$> maxsplit) s'
      else match split sep maxsplit s' with
           | p :: ps => String c p :: ps
           | [] => [String c ""]
           end
  end.

(** [sep.join(parts)]. *)
Fixpoint join (sep : string) (parts : list string) : string :=
  match parts with
  | [] => ""
  | [p] => p
  | p :: ps => p +:+ sep +:+ join sep ps
  end.

Definition digit_of (c : ascii) : option N :=
  let n := N_of_ascii c in
  if ((48 <=? n) && (n <=? 57))%N then Some (n - 48)%N else None.

Fixpoint parse_digits (acc : N) (s : string) : option N :=
  match s with
  | EmptyString => Some acc
  | String c s' =>
      match digit_of c with
      | Some d => parse_digits (acc * 10 + d)%N s'
      | None => None
      end
  end.

Definition parse_nat (s : string) : option N :=
  match s with
  | EmptyString => None
  | _ => parse_digits 0 s
  end.

(** [int(s)] on the decimal numerals that [str] prints: an optional
    sign followed by ASCII digits; [None] stands for [ValueError].
    (Python also accepts surrounding blanks and [_] between digits;
    the bot never produces such text.) *)
Definition int (s : string) : option Z :=
  match s with
  | String "-" s' => Z.opp ∘ Z.of_N <$> parse_nat s'
  | String "+" s' => Z.of_N <$> parse_nat s'
  | _ => Z.of_N <$> parse_nat s
  end.

(** [str(n)] for an [int]. *)
Definition str (n : Z) : string := pretty n.

(** [[int(i) for i in parts]]: fails as soon as one element does. *)
Definition ints (parts : list string) : option (list Z) := mapM int parts.

(** Slice bounds as Python normalises them for a list of length [len]. *)
Definition norm_index (len i : Z) : Z :=
  if i <? 0 then Z.max 0 (i + len) else Z.min i len.

(** [l[lo:hi]]. *)
Definition slice {A} (l : list A) (lo hi : Z) : list A :=
  let len := Z.of_nat (length l) in
  let a := norm_index len lo in
  let b := norm_index len hi in
  take (Z.to_nat (b - a)) (drop (Z.to_nat a) l).

(** [range(lo, hi)]. *)
Definition range (lo hi : Z) : list Z := seqZ lo (hi - lo).

(** [needle in s]. *)
Fixpoint contains (needle s : string) : bool :=
  String.prefix needle s ||
  match s with
  | EmptyString => false
  | String _ s' => contains needle s'
  end.

(** Truth value of an optional string ([None] and [""] are false). *)
Definition truthy (o : option string) : bool :=
  match o with
  | Some s => negb (String.eqb s "")
  | None => false
  end.

(** [s.rstrip(c)] for one character. *)
Fixpoint rstrip (c : ascii) (s : string) : string :=
  match s with
  | EmptyString => ""
  | String d s' =>
      let r := rstrip c s' in
      if Ascii.eqb d c && String.eqb r "" then "" else String d r
  end.

(** [s[:n]] counts code points: a UTF-8 continuation byte (10xxxxxx)
    stays with the code point it belongs to. *)
Definition continuation (c : ascii) : bool :=
  let n := N_of_ascii c in ((128 <=? n) && (n <? 192))%N.

Fixpoint take_chars (n : nat) (s : string) : string :=
  match s with
  | EmptyString => ""
  | String c s' =>
      if continuation c then String c (take_chars n s')
      else match n with
           | O => ""
           | S n' => String c (take_chars n' s')
           end
  end.

End Py.

(** ** Telegram types and the collaborators *)

Inductive ChatMemberStatus :=
  OWNER | ADMINISTRATOR | MEMBER | RESTRICTED | LEFT | BANNED.

Inductive ChatType := PRIVATE | GROUP | SUPERGROUP | CHANNEL | SENDER.

Definition ChatType_eqb (a b : ChatType) : bool :=
  match a, b with
  | PRIVATE, PRIVATE | GROUP, GROUP | SUPERGROUP, SUPERGROUP
  | CHANNEL, CHANNEL | SENDER, SENDER => true
  | _, _ => false
  end.

(** Exceptions the bot tells apart: [BadRequest] carries its message. *)
Inductive Exn :=
| BadRequest (message : string)
| TimedOut
| OtherError (what : string).

Inductive Exc (A : Type) :=
| Ok (a : A)
| Raise (e : Exn).
Arguments Ok {A} a.
Arguments Raise {A} e.

Definition Time := Q.

(** Where a message goes or comes from: a chat, or the private channel
    [PRIVATE_CHANNEL_ID] that stores the relayed files. *)
Inductive Dest :=
| ToChat (chat_id : Z)
| ToPrivateChannel.

Inductive DbOp := OpSelect | OpCount | OpList | OpInsert | OpDelete.

Record Env := {
  (** [bot.get_chat_member(REQUIRED_GROUP_ID, user_id)] *)
  get_chat_member : Time -> Z -> Exc ChatMemberStatus;
  (** [bot.forward_messages(PRIVATE_CHANNEL_ID, chat_id, message_ids)]:
      the ids of the copies in the private channel *)
  forward_messages : Time -> Z -> list Z -> Exc (list Z);
  (** [bot.copy_messages(chat_id, PRIVATE_CHANNEL_ID, ids)]: the ids of
      the copies in the chat *)
  copy_messages : Time -> Z -> list Z -> Exc (list Z);
  (** [bot.delete_messages(chat, ids)] *)
  delete_messages : Time -> Dest -> list Z -> Exc unit;
  (** [bot.delete_message(chat, id)] *)
  delete_message : Time -> Dest -> Z -> Exc unit;
  (** the id Telegram gives to the panel sent to a chat *)
  sent_message_id : Time -> Z -> Z;
  (** storage faults: [true] when the operation raises *)
  db_fault : Time -> DbOp -> bool;
  (** [secrets.token_bytes]: the i-th random byte drawn at a time *)
  random_byte : Time -> nat -> Byte.byte;
  (** [bot_data['bot_username']], set once by [post_init] *)
  bot_username : string
}.

(** ** Constants *)

Definition FILES_PER_PAGE : Z := 10.

(** ** The membership gate (lines 108-114) *)

Definition is_member_status (s : ChatMemberStatus) : bool :=
  match s with
  | LEFT | BANNED => false
  | _ => true
  end.

(** ** Inline keyboards (lines 146-185) *)

Record InlineKeyboardButton := {
  text : string;
  callback_data : string
}.

Definition with_share (share_id : option string) (data : string) : string :=
  match share_id with
  | Some sid => if Py.truthy share_id then data +:+ ":" +:+ sid else data
  | None => data
  end.

(** One iteration of the loop over [range(start_page, end_page + 1)]. *)
Definition page_button (current_page : Z) (callback_prefix : string)
    (share_id : option string) (p : Z) : InlineKeyboardButton :=
  {| text := if p =? current_page then "· " +:+ Py.str p +:+ " ·" else Py.str p;
     callback_data :=
       with_share share_id
         (if p =? current_page then "noop" else callback_prefix +:+ ":" +:+ Py.str p) |}.

Definition page_range (current_page total_pages : Z) : Z * Z :=
  let start_page := Z.max 1 (current_page - 2) in
  let end_page := Z.min total_pages (start_page + 4) in
  let start_page := Z.max 1 (end_page - 4) in
  (start_page, end_page).

Definition prev_button (current_page : Z) (callback_prefix : string)
    (share_id : option string) : InlineKeyboardButton :=
  {| text := "‹ 上一页";
     callback_data :=
       with_share share_id (callback_prefix +:+ ":" +:+ Py.str (current_page - 1)) |}.

Definition first_button (callback_prefix : string) (share_id : option string)
    : InlineKeyboardButton :=
  {| text := "« 首页";
     callback_data := with_share share_id (callback_prefix +:+ ":1") |}.

Definition next_button (current_page : Z) (callback_prefix : string)
    (share_id : option string) : InlineKeyboardButton :=
  {| text := "下一页 ›";
     callback_data :=
       with_share share_id (callback_prefix +:+ ":" +:+ Py.str (current_page + 1)) |}.

Definition last_button (total_pages : Z) (callback_prefix : string)
    (share_id : option string) : InlineKeyboardButton :=
  {| text := "末页 »";
     callback_data := with_share share_id (callback_prefix +:+ ":" +:+ Py.str total_pages) |}.

Definition nonempty_row (row : list InlineKeyboardButton)
    : list (list InlineKeyboardButton) :=
  match row with
  | [] => []
  | _ => [row]
  end.

Definition create_pagination_keyboard (current_page total_pages : Z)
    (callback_prefix : string) (share_id : option string)
    : list (list InlineKeyboardButton) :=
  let keyboard :=
    if 1 <? total_pages
    then
      let '(start_page, end_page) := page_range current_page total_pages in
      [page_button current_page callback_prefix share_id
         <$> Py.range start_page (end_page + 1)]
    else [] in
  let nav_row := [] in
  let ends_row := [] in
  let '(nav_row, ends_row) :=
    if 1 <? current_page
    then (prev_button current_page callback_prefix share_id :: nav_row,
          first_button callback_prefix share_id :: ends_row)
    else (nav_row, ends_row) in
  let '(nav_row, ends_row) :=
    if current_page <? total_pages
    then (nav_row ++ [next_button current_page callback_prefix share_id],
          ends_row ++ [last_button total_pages callback_prefix share_id])
    else (nav_row, ends_row) in
  keyboard ++ nonempty_row nav_row ++ nonempty_row ends_row.

(** ** The page computation (lines 205-212 and 331-342) *)

(** The three assignments both page functions make once the item count
    is known to be non-zero. *)
Definition page_bounds (total_files page_size page : Z) : Z * Z * Z :=
  let total_pages := (total_files + page_size - 1) `div` page_size in
  let page := Z.max 1 (Z.min page total_pages) in
  let offset := (page - 1) * page_size in
  (page, total_pages, offset).

(** The computation with its guard: with no item at all both functions
    answer that there are no files and return before any page is
    computed ([None]). *)
Definition paginate (total_items page_size requested_page : Z) : option (Z * Z * Z) :=
  if total_items =? 0 then None
  else Some (page_bounds total_items page_size requested_page).

(** ** State of the bot *)

(** [context.user_data] of one user: a dict with these keys, each
    present ([Some]) or absent ([None]). *)
Record UserData := {
  state : option string;
  session_message_ids : option (list Z);
  session_file_count : option Z;
  pending_share_id : option string;
  last_page_file_ids : option (list Z);
  last_control_panel_id : option Z
}.

(** The dict after [clear()]. *)
Definition empty_user_data : UserData :=
  {| state := None; session_message_ids := None; session_file_count := None;
     pending_share_id := None; last_page_file_ids := None;
     last_control_panel_id := None |}.

Definition set_state (v : option string) (d : UserData) : UserData :=
  {| state := v; session_message_ids := session_message_ids d;
     session_file_count := session_file_count d;
     pending_share_id := pending_share_id d;
     last_page_file_ids := last_page_file_ids d;
     last_control_panel_id := last_control_panel_id d |}.

Definition set_session (ids : option (list Z)) (count : option Z) (d : UserData)
    : UserData :=
  {| state := state d; session_message_ids := ids;
     session_file_count := count;
     pending_share_id := pending_share_id d;
     last_page_file_ids := last_page_file_ids d;
     last_control_panel_id := last_control_panel_id d |}.

Definition set_pending_share_id (v : option string) (d : UserData) : UserData :=
  {| state := state d; session_message_ids := session_message_ids d;
     session_file_count := session_file_count d;
     pending_share_id := v;
     last_page_file_ids := last_page_file_ids d;
     last_control_panel_id := last_control_panel_id d |}.

Definition set_last_page_file_ids (v : option (list Z)) (d : UserData) : UserData :=
  {| state := state d; session_message_ids := session_message_ids d;
     session_file_count := session_file_count d;
     pending_share_id := pending_share_id d;
     last_page_file_ids := v;
     last_control_panel_id := last_control_panel_id d |}.

Definition set_last_control_panel_id (v : option Z) (d : UserData) : UserData :=
  {| state := state d; session_message_ids := session_message_ids d;
     session_file_count := session_file_count d;
     pending_share_id := pending_share_id d;
     last_page_file_ids := last_page_file_ids d;
     last_control_panel_id := v |}.

(** A row of the [files] table (lines 80-93). *)
Record FileRow := {
  share_id : string;
  message_id : string;
  uploader_id : Z;
  file_caption : string;
  file_type : string;
  timestamp : Time
}.

(** A job of the job queue.  [data] is [[user_id, chat_id, message_ids]];
    the third component is a reference to a list object. *)
Record Job := {
  name : option string;
  fire_at : Time;
  job_user_id : Z;
  job_chat_id : Z;
  job_message_ids : nat
}.

(** Texts the bot sends.  Only what a text depends on is kept. *)
Inductive Message :=
| MsgRestricted                       (* decorator: "操作受限" with the two links *)
| MsgInvalidLink                      (* "这个分享链接无效或文件已被移除" *)
| MsgNoFilesInShare (caption : string)
| MsgPanel (caption : string) (page total_pages total_files : Z)
    (keyboard : list (list InlineKeyboardButton))
| MsgPageError                        (* "处理文件时出错，请稍后再试" *)
| MsgPrivateRedirect (url : string)
| MsgVerified                         (* "验证通过！正在为您准备文件..." *)
| MsgAccessRestricted (retry_url : string)
| MsgWelcome
| MsgHelp
| MsgNoUploads                        (* "您还没有上传过任何文件" *)
| MsgFileList (page total_pages : Z) (keyboard : list (list InlineKeyboardButton))
| MsgUsePrivateChat
| MsgDeleteError                      (* "删除文件时发生内部错误" *)
| MsgShareLink (link : string)
| MsgSendFilesNow
| MsgGeneratingLink                   (* "正在为您生成专属分享链接，请稍候..." *)
| MsgUploadDone (total_files : Z) (link : string)
| MsgUploadLog (user_id total_files : Z) (link : string)
| MsgLinkError                        (* "生成链接时发生错误，请稍后再试" *)
| MsgNothingUploaded                  (* "您本次没有上传任何文件" *)
| MsgSessionEnded                     (* "上传会话已结束。您可以再次点击按钮开始新的上传" *)
| MsgRelayWarning                     (* "处理其中一个文件时出错，该文件可能未保存" *)
| MsgPressUploadFirst
| MsgAlbumReceived
| MsgFileReceived
| MsgWaitingForFiles
| MsgPrompt.

(** Texts of [query.answer]. *)
Inductive Alert :=
| AlertNone                           (* [query.answer()] *)
| AlertRestricted
| AlertAlreadyDeleted                 (* "文件好像已经被删除了" *)
| AlertForbidden                      (* "您没有权限删除此文件" *)
| AlertDeleted.                       (* "文件记录已删除。正在刷新列表..." *)

Inductive LogLevel := INFO | WARNING | ERROR.

(** What a handler does to the outside, in order. *)
Inductive Effect :=
| GateCall (user_id : Z)                       (* get_chat_member was called *)
| Send (to : Dest) (m : Message)               (* reply_text, send_message *)
| Edit (to : Dest) (m : Message)               (* edit_text, edit_message_text *)
| Answer (a : Alert)                           (* query.answer *)
| Copied (chat_id : Z) (ids : list Z)          (* copy_messages delivered ids *)
| Forwarded (chat_id : Z) (ids refs : list Z)  (* forward_messages relayed ids *)
| Retracted (from : Dest) (ids : list Z)       (* delete_messages succeeded *)
| RetractedOne (from : Dest) (id : Z)          (* delete_message succeeded *)
| DeletedReply (chat_id : Z)                   (* verification_message.delete() *)
| Sleep (seconds : Z)                          (* asyncio.sleep *)
| JobRun (job_name : option string) (user_id chat_id : Z) (batch : list Z)
| Log (level : LogLevel)
| Unhandled.                                   (* an exception left the handler *)

Record World := {
  now : Time;
  user_data : gmap Z UserData;
  (** media group id -> the list object under its ['message_ids'] key *)
  bot_data : gmap string nat;
  (** list objects, by reference *)
  store : list (list Z);
  job_queue : list Job;
  files : list FileRow;
  trace : list Effect
}.

Definition set_now (t : Time) (w : World) : World :=
  {| now := t; user_data := user_data w; bot_data := bot_data w;
     store := store w; job_queue := job_queue w; files := files w;
     trace := trace w |}.

Definition set_user_data (m : gmap Z UserData) (w : World) : World :=
  {| now := now w; user_data := m; bot_data := bot_data w;
     store := store w; job_queue := job_queue w; files := files w;
     trace := trace w |}.

Definition set_bot_data (m : gmap string nat) (w : World) : World :=
  {| now := now w; user_data := user_data w; bot_data := m;
     store := store w; job_queue := job_queue w; files := files w;
     trace := trace w |}.

Definition set_store (s : list (list Z)) (w : World) : World :=
  {| now := now w; user_data := user_data w; bot_data := bot_data w;
     store := s; job_queue := job_queue w; files := files w;
     trace := trace w |}.

Definition set_job_queue (q : list Job) (w : World) : World :=
  {| now := now w; user_data := user_data w; bot_data := bot_data w;
     store := store w; job_queue := q; files := files w;
     trace := trace w |}.

Definition set_files (f : list FileRow) (w : World) : World :=
  {| now := now w; user_data := user_data w; bot_data := bot_data w;
     store := store w; job_queue := job_queue w; files := f;
     trace := trace w |}.

Definition emit (e : Effect) (w : World) : World :=
  {| now := now w; user_data := user_data w; bot_data := bot_data w;
     store := store w; job_queue := job_queue w; files := files w;
     trace := trace w ++ [e] |}.

(** [context.user_data] of a user, and its update in place. *)
Definition ud (user_id : Z) (w : World) : UserData :=
  default empty_user_data (user_data w !! user_id).

Definition set_ud (user_id : Z) (d : UserData) (w : World) : World :=
  set_user_data (<[user_id := d]> (user_data w)) w.

Definition is_private (t : ChatType) : bool := ChatType_eqb t PRIVATE.

(** ** The job queue *)

(** [run_once]: the queue is kept in firing order, a new job after the
    jobs that are due no later. *)
Fixpoint enqueue (j : Job) (q : list Job) : list Job :=
  match q with
  | [] => [j]
  | k :: q' =>
      if Qle_bool (fire_at k) (fire_at j) then k :: enqueue j q' else j :: q
  end.

Definition run_once (when : Q) (user_id chat_id : Z) (message_ids : nat)
    (job_name : option string) (w : World) : World :=
  set_job_queue
    (enqueue {| name := job_name; fire_at := (now w + when)%Q;
                job_user_id := user_id; job_chat_id := chat_id;
                job_message_ids := message_ids |} (job_queue w)) w.

Definition named (job_name : string) (j : Job) : bool :=
  match name j with
  | Some n => String.eqb n job_name
  | None => false
  end.

Definition get_jobs_by_name (job_name : string) (w : World) : list Job :=
  List.filter (named job_name) (job_queue w).

(** [for job in get_jobs_by_name(job_name): job.schedule_removal()] *)
Definition remove_jobs_by_name (job_name : string) (w : World) : World :=
  set_job_queue (List.filter (fun j => negb (named job_name j)) (job_queue w)) w.

(** ** Share tokens and share links *)

(** [secrets.token_urlsafe(nbytes)] is, by Python's library,
    [base64.urlsafe_b64encode(token_bytes(nbytes)).rstrip(b'=')]. *)
Module Token.

Definition alphabet : string :=
  "ABCDEFGHIJKLMNOPQRSTUVWXYZabcdefghijklmnopqrstuvwxyz0123456789-_".

Definition sextet (i : N) : ascii :=
  default "="%char (list_ascii_of_string alphabet !! N.to_nat (i mod 64)%N).

(** Three bytes give four characters; a last group of one or two bytes
    is padded with [=]. *)
Fixpoint urlsafe_b64encode (bs : list Byte.byte) : string :=
  match bs with
  | [] => ""
  | [a] =>
      let n := (Byte.to_N a * 65536)%N in
      String (sextet (n / 262144)) (String (sextet (n / 4096)) "==")
  | [a; b] =>
      let n := (Byte.to_N a * 65536 + Byte.to_N b * 256)%N in
      String (sextet (n / 262144)) (String (sextet (n / 4096))
        (String (sextet (n / 64)) "="))
  | a :: b :: c :: rest =>
      let n := (Byte.to_N a * 65536 + Byte.to_N b * 256 + Byte.to_N c)%N in
      String (sextet (n / 262144)) (String (sextet (n / 4096))
        (String (sextet (n / 64)) (String (sextet n)
          (urlsafe_b64encode rest))))
  end.

Definition token_bytes (random : nat -> Byte.byte) (nbytes : nat) : list Byte.byte :=
  random <$> seq 0 nbytes.

Definition token_urlsafe (random : nat -> Byte.byte) (nbytes : nat) : string :=
  Py.rstrip "=" (urlsafe_b64encode (token_bytes random nbytes)).

End Token.

(** The regular expressions the bot needs: literal characters, an
    optional character and one capturing group of a repeated class. *)
Module Re.

Inductive Item :=
| Chr (c : ascii)                  (* [c], or an escaped [\c] *)
| Opt (c : ascii)                  (* [c?] *)
| GroupPlus (cls : ascii -> bool). (* [([...]+)] *)

Definition literal (s : string) : list Item := Chr <$> list_ascii_of_string s.

(** [pattern.match(s)]: the pattern is matched at the start of [s], a
    repetition takes as much as it can and gives back when what follows
    fails (backtracking); the result lists the captured groups. *)
Fixpoint match_ (p : list Item) (s : string) : option (list string) :=
  match p with
  | [] => Some []
  | Chr c :: p' =>
      match s with
      | String d s' => if Ascii.eqb c d then match_ p' s' else None
      | EmptyString => None
      end
  | Opt c :: p' =>
      match s with
      | String d s' =>
          if Ascii.eqb c d
          then match match_ p' s' with
               | Some r => Some r
               | None => match_ p' s
               end
          else match_ p' s
      | EmptyString => match_ p' s
      end
  | GroupPlus cls :: p' =>
      let fix go (s : string) : option (string * list string) :=
        match s with
        | String d s' =>
            if cls d
            then match go s' with
                 | Some (cap, r) => Some (String d cap, r)
                 | None =>
                     match match_ p' s' with
                     | Some r => Some (String d "", r)
                     | None => None
                     end
                 end
            else None
        | EmptyString => None
        end in
      match go s with
      | Some (cap, r) => Some (cap :: r)
      | None => None
      end
  end.

End Re.

(** [[A-Za-z0-9_-]] *)
Definition token_char (c : ascii) : bool :=
  let n := N_of_ascii c in
  ((65 <=? n) && (n <=? 90) || (97 <=? n) && (n <=? 122)
   || (48 <=? n) && (n <=? 57) || (n =? 95) || (n =? 45))%N.

(** A Telegram user name: letters, digits and underscores.  Such a name
    stands for itself when it is pasted into a regular expression. *)
Definition username_char (c : ascii) : bool :=
  let n := N_of_ascii c in
  ((65 <=? n) && (n <=? 90) || (97 <=? n) && (n <=? 122)
   || (48 <=? n) && (n <=? 57) || (n =? 95))%N.

Definition valid_username (s : string) : Prop :=
  Forall (fun c => username_char c = true) (list_ascii_of_string s).

(** [rf"https?://t\.me/{bot_username}\?start=([A-Za-z0-9_-]+)"]
    (line 560); the user name is pasted in as it is. *)
Definition share_link_pattern (bot_username : string) : list Re.Item :=
  Re.literal "http" ++ [Re.Opt "s"] ++ Re.literal "://t.me/"
  ++ Re.literal bot_username ++ Re.literal "?start="
  ++ [Re.GroupPlus token_char].

(** [f"https://t.me/{bot_username}?start={share_id}"] (lines 268, 286,
    443, 475). *)
Definition share_link (bot_username sid : string) : string :=
  "https://t.me/" +:+ bot_username +:+ "?start=" +:+ sid.

(** ** The handlers *)

Definition UPLOAD_BUTTON_TEXT : string := "📤 上传文件".
Definition FINISH_UPLOAD_BUTTON_TEXT : string := "✅ 完成上传".

Definition lookup_row (sid : string) (rows : list FileRow) : option FileRow :=
  List.find (fun r => String.eqb (share_id r) sid) rows.

Definition delete_row (sid : string) (rows : list FileRow) : list FileRow :=
  List.filter (fun r => negb (String.eqb (share_id r) sid)) rows.

(** One line of the [/myfiles] keyboard (line 345). *)
Definition file_buttons (page : Z) (r : FileRow) : list InlineKeyboardButton :=
  [ {| text := "📄 " +:+ Py.take_chars 25 (file_caption r) +:+ "...";
       callback_data := "info:" +:+ share_id r |};
    {| text := "🗑️ 删除";
       callback_data := "delete:" +:+ share_id r +:+ ":" +:+ Py.str page |} ].

Section Handlers.

Variable env : Env.

(** Lines 108-114.  The call is recorded in the trace. *)
Definition is_user_in_group (user_id : Z) (w : World) : bool * World :=
  let w := emit (GateCall user_id) w in
  match get_chat_member env (now w) user_id with
  | Ok status => (is_member_status status, w)
  | Raise _ => (false, emit (Log ERROR) w)
  end.

(** The decorator of lines 117-143, applied to a handler body; the body
    is given the id of [update.effective_user]. *)
Definition require_group_membership (func : Z -> World -> World)
    (effective_user : option Z) (chat_id : Z) (callback_query : bool)
    (w : World) : World :=
  match effective_user with
  | None => w
  | Some user_id =>
      let '(ok, w) := is_user_in_group user_id w in
      if ok then func user_id w
      else if callback_query then emit (Answer AlertRestricted) w
      else emit (Send (ToChat chat_id) MsgRestricted) w
  end.

(** Lines 188-250. *)
Definition show_shared_files_page (user_id chat_id : Z) (sid : string)
    (page : Z) (w : World) : World :=
  let failed w := emit (Send (ToChat chat_id) MsgPageError) (emit (Log ERROR) w) in
  if db_fault env (now w) OpSelect then failed w
  else
    match lookup_row sid (files w) with
    | None => emit (Send (ToChat chat_id) MsgInvalidLink) w
    | Some row =>
        match Py.ints (Py.split "," None (message_id row)) with
        | None => failed w
        | Some all_ids =>
            let total_files := Z.of_nat (length all_ids) in
            match paginate total_files FILES_PER_PAGE page with
            | None =>
                emit (Send (ToChat chat_id) (MsgNoFilesInShare (file_caption row))) w
            | Some (page, total_pages, offset) =>
                let ids_to_send := Py.slice all_ids offset (offset + FILES_PER_PAGE) in
                match copy_messages env (now w) chat_id ids_to_send with
                | Raise _ => failed w
                | Ok sent =>
                    let w := emit (Copied chat_id ids_to_send) w in
                    let w := set_ud user_id
                               (set_last_page_file_ids (Some sent) (ud user_id w)) w in
                    let w := emit (Sleep 3) w in
                    let keyboard :=
                      create_pagination_keyboard page total_pages "spage" (Some sid) in
                    let w := emit (Send (ToChat chat_id)
                                     (MsgPanel (file_caption row) page total_pages
                                        total_files keyboard)) w in
                    set_ud user_id
                      (set_last_control_panel_id
                         (Some (sent_message_id env (now w) chat_id)) (ud user_id w)) w
                end
            end
        end
    end.

(** Lines 253-311. *)
Definition start (effective_user : option Z) (chat_id : Z) (chat_type : ChatType)
    (args : list string) (w : World) : World :=
  match effective_user with
  | None => w
  | Some user_id =>
      let w := set_ud user_id empty_user_data w in
      let target_share_id := head args in
      let target_share_id :=
        if Py.truthy target_share_id then target_share_id
        else pending_share_id (ud user_id w) in
      match target_share_id with
      | Some sid =>
          if negb (Py.truthy target_share_id) then
            let w := set_ud user_id (set_state (Some "default") (ud user_id w)) w in
            emit (Send (ToChat chat_id) MsgWelcome) w
          else if negb (is_private chat_type) then
            emit (Send (ToChat chat_id)
                    (MsgPrivateRedirect (share_link (bot_username env) sid))) w
          else
            let '(ok, w) := is_user_in_group user_id w in
            if ok then
              let w := emit (Send (ToChat chat_id) MsgVerified) w in
              let w := set_ud user_id (set_pending_share_id None (ud user_id w)) w in
              let w := show_shared_files_page user_id chat_id sid 1 w in
              emit (DeletedReply chat_id) w
            else
              let w := set_ud user_id
                         (set_pending_share_id (Some sid) (ud user_id w)) w in
              emit (Send (ToChat chat_id)
                      (MsgAccessRestricted (share_link (bot_username env) sid))) w
      | None =>
          let w := set_ud user_id (set_state (Some "default") (ud user_id w)) w in
          emit (Send (ToChat chat_id) MsgWelcome) w
      end
  end.

(** Lines 315-319. *)
Definition help_command (effective_user : option Z) (chat_id : Z) (w : World)
    : World :=
  match effective_user with
  | None => w
  | Some _ => emit (Send (ToChat chat_id) MsgHelp) w
  end.

(** Lines 322-365.  [callback_query] tells whether the update is a
    button press (the list is edited in place) or a message. *)
Definition show_my_files_page (user_id chat_id : Z) (callback_query : bool)
    (page : Z) (w : World) : World :=
  let show m w :=
    if callback_query then emit (Edit (ToChat chat_id) m) w
    else emit (Send (ToChat chat_id) m) w in
  if db_fault env (now w) OpCount then emit (Log ERROR) w
  else
    let mine := List.filter (fun r => uploader_id r =? user_id) (files w) in
    let total_files := Z.of_nat (length mine) in
    match paginate total_files FILES_PER_PAGE page with
    | None => show MsgNoUploads w
    | Some (page, total_pages, offset) =>
        if db_fault env (now w) OpList then emit (Log ERROR) w
        else
          let files_on_page :=
            take (Z.to_nat FILES_PER_PAGE) (drop (Z.to_nat offset) mine) in
          let file_keyboard := file_buttons page <$> files_on_page in
          let pagination_keyboard :=
            create_pagination_keyboard page total_pages "page" None in
          show (MsgFileList page total_pages (file_keyboard ++ pagination_keyboard)) w
    end.

Definition my_files_command_inner (chat_id : Z) (chat_type : ChatType)
    (user_id : Z) (w : World) : World :=
  if negb (is_private chat_type)
  then emit (Send (ToChat chat_id) MsgUsePrivateChat) w
  else show_my_files_page user_id chat_id false 1 w.

(** Lines 368-373. *)
Definition my_files_command (effective_user : option Z) (chat_id : Z)
    (chat_type : ChatType) (w : World) : World :=
  require_group_membership (my_files_command_inner chat_id chat_type)
    effective_user chat_id false w.

(** Lines 384-392: the previous page view is withdrawn. *)
Definition retract_page_view (user_id chat_id : Z) (w : World) : World :=
  let last_page_ids := default [] (last_page_file_ids (ud user_id w)) in
  let w := set_ud user_id (set_last_page_file_ids None (ud user_id w)) w in
  let w :=
    match last_page_ids with
    | [] => w
    | _ =>
        match delete_messages env (now w) (ToChat chat_id) last_page_ids with
        | Ok _ => emit (Retracted (ToChat chat_id) last_page_ids) w
        | Raise _ => emit (Log WARNING) w
        end
    end in
  let last_panel_id := last_control_panel_id (ud user_id w) in
  let w := set_ud user_id (set_last_control_panel_id None (ud user_id w)) w in
  match last_panel_id with
  | Some id =>
      if id =? 0 then w
      else
        match delete_message env (now w) (ToChat chat_id) id with
        | Ok _ => emit (RetractedOne (ToChat chat_id) id) w
        | Raise _ => emit (Log WARNING) w
        end
  | None => w
  end.

(** Lines 399-439: the [delete] action. *)
Definition delete_share (user_id chat_id : Z) (sid : string) (current_page : Z)
    (w : World) : World :=
  let failed w := emit (Send (ToChat chat_id) MsgDeleteError) (emit (Log ERROR) w) in
  if db_fault env (now w) OpSelect then failed w
  else
    match lookup_row sid (files w) with
    | None => emit (Answer AlertAlreadyDeleted) w
    | Some row =>
        if negb (uploader_id row =? user_id) then emit (Answer AlertForbidden) w
        else if db_fault env (now w) OpDelete then failed w
        else
          let w := set_files (delete_row sid (files w)) w in
          let w := emit (Answer AlertDeleted) w in
          let w := show_my_files_page user_id chat_id true current_page w in
          match Py.ints (Py.split "," None (message_id row)) with
          | None => emit (Log ERROR) w
          | Some message_ids =>
              match delete_messages env (now w) ToPrivateChannel message_ids with
              | Ok _ => emit (Log INFO) (emit (Retracted ToPrivateChannel message_ids) w)
              | Raise (BadRequest message) =>
                  if Py.contains "message can't be deleted" message
                  then emit (Log WARNING) w
                  else failed w
              | Raise _ => emit (Log ERROR) w
              end
          end
    end.

(** Lines 376-446. *)
Definition button_callback_handler (user_id chat_id : Z) (data : string)
    (w : World) : World :=
  let w := emit (Answer AlertNone) w in
  let parts := Py.split ":" (Some 2%nat) data in
  let action := default "" (head parts) in
  let w := if String.eqb action "spage" then retract_page_view user_id chat_id w else w in
  if String.eqb action "page" then
    match parts !! 1%nat ≫= Py.int with
    | Some page => show_my_files_page user_id chat_id true page w
    | None => emit Unhandled w
    end
  else if String.eqb action "spage" then
    match parts !! 2%nat with
    | None => w
    | Some sid =>
        match parts !! 1%nat ≫= Py.int with
        | Some page => show_shared_files_page user_id chat_id sid page w
        | None => emit Unhandled w
        end
    end
  else if String.eqb action "delete" then
    match parts !! 2%nat with
    | None => w
    | Some p =>
        match parts !! 1%nat, Py.int p with
        | Some sid, Some current_page => delete_share user_id chat_id sid current_page w
        | _, _ => emit Unhandled w
        end
    end
  else if String.eqb action "info" then
    match parts !! 1%nat with
    | Some sid =>
        emit (Send (ToChat chat_id) (MsgShareLink (share_link (bot_username env) sid))) w
    | None => emit Unhandled w
    end
  else w.

Definition button_handler_inner (chat_id : Z) (chat_type : ChatType)
    (user_id : Z) (w : World) : World :=
  if negb (is_private chat_type) then w
  else
    let w := set_ud user_id empty_user_data w in
    let w := set_ud user_id (set_state (Some "awaiting_file") (ud user_id w)) w in
    let w := set_ud user_id (set_session (Some []) (Some 0) (ud user_id w)) w in
    emit (Send (ToChat chat_id) MsgSendFilesNow) w.

(** Lines 452-460. *)
Definition button_handler (effective_user : option Z) (chat_id : Z)
    (chat_type : ChatType) (w : World) : World :=
  require_group_membership (button_handler_inner chat_id chat_type)
    effective_user chat_id false w.

(** [f"批量上传 (共 {total_files} 个文件)"] *)
Definition batch_caption (total_files : Z) : string :=
  "批量上传 (共 " +:+ Py.str total_files +:+ " 个文件)".

(** Lines 461-502. *)
Definition finish_upload_handler (effective_user : option Z) (chat_id : Z)
    (chat_type : ChatType) (w : World) : World :=
  match effective_user with
  | None => w
  | Some user_id =>
      if negb (is_private chat_type) then w
      else
        let w := emit (Send (ToChat chat_id) MsgGeneratingLink) w in
        let session_message_ids := default [] (session_message_ids (ud user_id w)) in
        let total_files := default 0 (session_file_count (ud user_id w)) in
        let w := set_ud user_id (set_session None None (ud user_id w)) w in
        let w :=
          match session_message_ids with
          | [] => emit (Edit (ToChat chat_id) MsgNothingUploaded) w
          | _ =>
              let sid := Token.token_urlsafe (random_byte env (now w)) 8 in
              let final_link := share_link (bot_username env) sid in
              let ids_str := Py.join "," (Py.str <$> session_message_ids) in
              let caption := batch_caption total_files in
              let file_type := "合集" in
              if db_fault env (now w) OpInsert
                 || bool_decide (is_Some (lookup_row sid (files w)))
              then emit (Edit (ToChat chat_id) MsgLinkError) (emit (Log ERROR) w)
              else
                let w :=
                  set_files ({| share_id := sid; message_id := ids_str;
                                uploader_id := user_id; file_caption := caption;
                                file_type := file_type; timestamp := now w |}
                             :: files w) w in
                let w := emit (Edit (ToChat chat_id)
                                 (MsgUploadDone total_files final_link)) w in
                emit (Send ToPrivateChannel
                        (MsgUploadLog user_id total_files final_link)) w
          end in
        let w := set_ud user_id empty_user_data w in
        let w := set_ud user_id (set_state (Some "default") (ud user_id w)) w in
        emit (Send (ToChat chat_id) MsgSessionEnded) w
  end.

(** Lines 503-510. *)
Definition cancel_command (effective_user : option Z) (chat_id : Z)
    (chat_type : ChatType) (w : World) : World :=
  match effective_user with
  | None => w
  | Some user_id =>
      if negb (is_private chat_type)
      then emit (Send (ToChat chat_id) MsgUsePrivateChat) w
      else
        let w := set_ud user_id empty_user_data w in
        finish_upload_handler effective_user chat_id chat_type w
  end.

(** Lines 511-529: the job reads the list its [data] refers to when it
    runs. *)
Definition process_and_collect_files_job (job : Job) (w : World) : World :=
  let user_id := job_user_id job in
  let chat_id := job_chat_id job in
  let message_ids := default [] (store w !! job_message_ids job) in
  let w := emit (JobRun (name job) user_id chat_id message_ids) w in
  let w :=
    match forward_messages env (now w) chat_id message_ids with
    | Ok forwarded_ids =>
        let w := emit (Forwarded chat_id message_ids forwarded_ids) w in
        let w :=
          match user_data w !! user_id with
          | Some d =>
              let ids := default [] (session_message_ids d) in
              let count := default 0 (session_file_count d) in
              set_ud user_id
                (set_session (Some (ids ++ forwarded_ids))
                   (Some (count + Z.of_nat (length forwarded_ids))) d) w
          | None => w
          end in
        emit (Log INFO) w
    | Raise _ =>
        emit (Send (ToChat chat_id) MsgRelayWarning) (emit (Log ERROR) w)
    end in
  match name job with
  | Some media_group_id =>
      if Py.truthy (Some media_group_id)
         && bool_decide (is_Some (bot_data w !! media_group_id))
      then set_bot_data (delete media_group_id (bot_data w)) w
      else w
  | None => w
  end.

Definition file_handler_inner (chat_id : Z) (chat_type : ChatType)
    (msg_id : Z) (media_group_id : option string) (user_id : Z) (w : World)
    : World :=
  if negb (is_private chat_type) then w
  else if negb (bool_decide (state (ud user_id w) = Some "awaiting_file"))
  then emit (Send (ToChat chat_id) MsgPressUploadFirst) w
  else
    match media_group_id with
    | Some job_name =>
        if Py.truthy media_group_id then
          (* group_context = bot_data.setdefault(job_name, {}) and its
             'message_ids' list *)
          let '(cell, w) :=
            match bot_data w !! job_name with
            | Some cell => (cell, w)
            | None =>
                let cell := length (store w) in
                (cell, set_bot_data (<[job_name := cell]> (bot_data w))
                         (set_store (store w ++ [[]]) w))
            end in
          let message_ids := default [] (store w !! cell) in
          let is_first_in_group := bool_decide (message_ids = []) in
          let w := set_store (<[cell := message_ids ++ [msg_id]]> (store w)) w in
          let w :=
            if is_first_in_group
            then emit (Send (ToChat chat_id) MsgAlbumReceived) w
            else w in
          let w := remove_jobs_by_name job_name w in
          run_once 2 user_id chat_id cell (Some job_name) w
        else
          let w := emit (Send (ToChat chat_id) MsgFileReceived) w in
          let cell := length (store w) in
          let w := set_store (store w ++ [[msg_id]]) w in
          run_once 0 user_id chat_id cell None w
    | None =>
        let w := emit (Send (ToChat chat_id) MsgFileReceived) w in
        let cell := length (store w) in
        let w := set_store (store w ++ [[msg_id]]) w in
        run_once 0 user_id chat_id cell None w
    end.

(** Lines 530-551. *)
Definition file_handler (effective_user : option Z) (chat_id : Z)
    (chat_type : ChatType) (msg_id : Z) (media_group_id : option string)
    (w : World) : World :=
  require_group_membership
    (file_handler_inner chat_id chat_type msg_id media_group_id)
    effective_user chat_id false w.

(** Lines 552-568. *)
Definition text_message_handler (effective_user : option Z) (chat_id : Z)
    (chat_type : ChatType) (user_text : string) (w : World) : World :=
  if ChatType_eqb chat_type CHANNEL then w
  else
    match effective_user with
    | None => w
    | Some user_id =>
        if negb (is_private chat_type) then w
        else
          match Re.match_ (share_link_pattern (bot_username env)) user_text with
          | Some groups => start effective_user chat_id chat_type (take 1 groups) w
          | None =>
              if bool_decide (state (ud user_id w) = Some "awaiting_file")
              then emit (Send (ToChat chat_id) MsgWaitingForFiles) w
              else emit (Send (ToChat chat_id) MsgPrompt) w
          end
    end.

(** ** Updates and the event loop (lines 573-591) *)

Inductive MediaKind := Photo | Video | Audio | Document.

Inductive Content :=
| Command (cmd : string) (args : list string)
| Text (body : string)
| Media (kind : MediaKind) (msg_id : Z) (media_group_id : option string)
| CallbackQuery (data : string).

Record Update := {
  effective_user : option Z;
  effective_chat : Z;
  chat_type : ChatType;
  content : Content
}.

(** The handlers in the order [main] registers them; the first one
    whose filter accepts the update runs. *)
Definition dispatch (u : Update) (w : World) : World :=
  let user := effective_user u in
  let chat := effective_chat u in
  let ty := chat_type u in
  match content u with
  | Command cmd args =>
      if String.eqb cmd "start" then start user chat ty args w
      else if String.eqb cmd "help" then help_command user chat w
      else if String.eqb cmd "cancel" then cancel_command user chat ty w
      else if String.eqb cmd "myfiles" then my_files_command user chat ty w
      else w
  | Text body =>
      if String.eqb body UPLOAD_BUTTON_TEXT then button_handler user chat ty w
      else if String.eqb body FINISH_UPLOAD_BUTTON_TEXT
      then finish_upload_handler user chat ty w
      else text_message_handler user chat ty body w
  | Media kind msg_id media_group_id =>
      (* PHOTO | VIDEO | AUDIO | Document.ALL & ~ChatType.CHANNEL *)
      match kind with
      | Document =>
          if ChatType_eqb ty CHANNEL then w
          else file_handler user chat ty msg_id media_group_id w
      | _ => file_handler user chat ty msg_id media_group_id w
      end
  | CallbackQuery data =>
      match user with
      | Some user_id => button_callback_handler user_id chat data w
      | None => w
      end
  end.

(** The jobs of a queue that are due at [t] run, in queue order; the
    others stay.  Each job runs in one piece at its firing time: the
    relay answers at once.  (The loop with answer times is [settle],
    below.) *)
Fixpoint run_due (t : Time) (q : list Job) (w : World) : World :=
  match q with
  | [] => set_job_queue [] w
  | j :: q' =>
      if Qle_bool (fire_at j) t
      then run_due t q' (process_and_collect_files_job j (set_now (fire_at j) w))
      else
        let w := run_due t q' w in
        set_job_queue (j :: job_queue w) w
  end.

(** Time passes until [t]. *)
Definition advance (t : Time) (w : World) : World :=
  if Qle_bool (now w) t then set_now t (run_due t (job_queue w) w) else w.

(** An update arrives at time [t] and its handler runs in one piece. *)
Definition deliver (w : World) (e : Time * Update) : World :=
  dispatch e.2 (advance e.1 w).

Definition run (w : World) (events : list (Time * Update)) : World :=
  foldl deliver w events.

End Handlers.

(** ** Observations on traces and rows, and the words of the spec *)

(** The batches drained by the jobs of one media group, in order. *)
Definition drains_of (group : string) (tr : list Effect) : list (list Z) :=
  omap (fun e =>
          match e with
          | JobRun (Some n) _ _ batch => if String.eqb n group then Some batch else None
          | _ => None
          end) tr.

(** The item references of a row, as [show_shared_files_page] and the
    [delete] action read them back (lines 202 and 426). *)
Definition item_refs (r : FileRow) : option (list Z) :=
  Py.ints (Py.split "," None (message_id r)).

(** The row holds a readable list of at least one item reference. *)
Definition well_stored (r : FileRow) : Prop :=
  exists ids, item_refs r = Some ids /\ ids <> [].

(** ceil(n / s), in the words of the spec. *)
Definition ceil_div (n s : Z) : Z :=
  n `div` s + (if n `mod` s =? 0 then 0 else 1).

Fixpoint string_forall (P : ascii -> bool) (s : string) : bool :=
  match s with
  | EmptyString => true
  | String c s' => P c && string_forall P s'
  end.

Definition is_digit (c : ascii) : bool :=
  match Py.digit_of c with Some _ => true | None => false end.

Definition not_char (sep c : ascii) : bool := negb (Ascii.eqb c sep).

(** A character of [str(n)]: a digit, or the sign. *)
Definition numeral_char (c : ascii) : bool := is_digit c || Ascii.eqb c "-".

(** The texts of the four navigation controls (lines 170-180). *)
Definition nav_text (t : string) : Prop :=
  t = "‹ 上一页" \/ t = "« 首页" \/ t = "下一页 ›" \/ t = "末页 »".

(** The controls of a keyboard that carry a given text. *)
Definition controls_with (t : string) (kb : list (list InlineKeyboardButton))
    : list InlineKeyboardButton :=
  List.filter (fun b => String.eqb (text b) t) (concat kb).

(** A text is that of one of the four navigation controls. *)
Definition is_nav_text (t : string) : bool :=
  String.eqb t "‹ 上一页" || String.eqb t "« 首页"
  || String.eqb t "下一页 ›" || String.eqb t "末页 »".

(** The page-number controls of a keyboard: its controls other than
    the four navigation controls. *)
Definition page_number_controls (kb : list (list InlineKeyboardButton))
    : list InlineKeyboardButton :=
  List.filter (fun b => negb (is_nav_text (text b))) (concat kb).

(** How one handler may change the [files] table: not at all, by one
    new well-stored row, or by removing the rows of one share id. *)
Definition registry_step (f f' : list FileRow) : Prop :=
  f' = f
  \/ (exists row, f' = row :: f /\ well_stored row)
  \/ (exists sid, f' = delete_row sid f).

(** The session after [finish_upload_handler] and [cancel_command]:
    every key gone but ['state'], which is ['default']. *)
Definition ended_session : UserData := set_state (Some "default") empty_user_data.

(** The users asked about by the gate, in order. *)
Definition gate_calls (tr : list Effect) : list Z :=
  omap (fun e => match e with GateCall u => Some u | _ => None end) tr.

(** An item of a media group, as the transport delivers it: a file
    message of a user in the private chat with the bot. *)
Definition album_update (user_id chat_id : Z) (group : string)
    (item : MediaKind * Z) : Update :=
  {| effective_user := Some user_id; effective_chat := chat_id;
     chat_type := PRIVATE;
     content := Media item.1 item.2 (Some group) |}.

(** The gate lets the user in at a time. *)
Definition member_at (env : Env) (user_id : Z) (t : Time) : Prop :=
  exists status,
    get_chat_member env t user_id = Ok status /\ is_member_status status = true.

(** Each time is no earlier than the one before and less than [d]
    after it. *)
Fixpoint gaps_below (d : Q) (t0 : Time) (ts : list Time) : Prop :=
  match ts with
  | [] => True
  | t :: ts' => (t0 <= t)%Q /\ (t < t0 + d)%Q /\ gaps_below d t ts'
  end.

(** The timer of a group whose last item came at [t]. *)
Definition pending (user_id chat_id : Z) (group : string) (t : Time) (cell : nat)
    : Job :=
  {| name := Some group; fire_at := (t + 2)%Q; job_user_id := user_id;
     job_chat_id := chat_id; job_message_ids := cell |}.

(** ** Further functions of the source *)

(** Line 450: the characters MarkdownV2 reserves. *)
Definition escape_chars : string := "_*[]()~`>#+-=|{}.!".

(** The class [[...]] built from [re.escape(escape_chars)]: inside a
    class every escaped or plain character stands for itself. *)
Definition is_escape_char (c : ascii) : bool :=
  existsb (Ascii.eqb c) (list_ascii_of_string escape_chars).

(** Lines 449-451: [re.sub] puts a backslash before every character of
    the class, from left to right. *)
Fixpoint escape_markdown_v2 (text : string) : string :=
  match text with
  | EmptyString => ""
  | String c rest =>
      if is_escape_char c
      then String "\" (String c (escape_markdown_v2 rest))
      else String c (escape_markdown_v2 rest)
  end.

(** Lines 50-55: the connection string gets [sslmode=require] unless it
    is empty, names it already or points to localhost. *)
Definition adapt_database_url (url : option string) : option string :=
  match url with
  | Some u =>
      if Py.truthy url && negb (Py.contains "sslmode" u)
         && negb (Py.contains "localhost" u)
      then
        if Py.contains "?" u then Some (u +:+ "&sslmode=require")
        else Some (u +:+ "?sslmode=require")
      else url
  | None => None
  end.

(** The number of reserved characters of a text. *)
Fixpoint count_escape_chars (text : string) : nat :=
  match text with
  | EmptyString => 0
  | String c rest => (if is_escape_char c then 1 else 0) + count_escape_chars rest
  end.

(** The reading that undoes the escape: a backslash in front of a
    reserved character is dropped. *)
Fixpoint drop_escapes (text : string) : string :=
  match text with
  | EmptyString => ""
  | String c rest =>
      match rest with
      | String d rest' =>
          if Ascii.eqb c "\" && is_escape_char d
          then String d (drop_escapes rest')
          else String c (drop_escapes rest)
      | EmptyString => String c ""
      end
  end.

(** The counter of a session is the number of its references (absent
    keys read as [0] and [[]], as lines 467-468 and 518-519 read them). *)
Definition session_counted (d : UserData) : Prop :=
  default 0 (session_file_count d)
  = Z.of_nat (length (default [] (session_message_ids d))).

Definition sessions_counted (w : World) : Prop :=
  forall u d, user_data w !! u = Some d -> session_counted d.

(** The caption of a row names the number of references the row holds. *)
Definition caption_counts (r : FileRow) : Prop :=
  exists ids,
    item_refs r = Some ids
    /\ file_caption r = batch_caption (Z.of_nat (length ids)).

(** What a drain of the batch [refs] makes of the entry [d] of its
    user (lines 517-521). *)
Definition drained_into (d : UserData) (refs : list Z) : UserData :=
  set_session (Some (default [] (session_message_ids d) ++ refs))
    (Some (default 0 (session_file_count d) + Z.of_nat (length refs))) d.

(** The updates for which the membership gate is asked, read off the
    decorators and the body of [start]: [/myfiles], the upload button
    and every file message, and a retrieval in the private chat, by
    [/start] with a share id or by a share link sent as text. *)
Definition asks_gate (env : Env) (u : Update) : bool :=
  match effective_user u with
  | None => false
  | Some _ =>
      match content u with
      | Command cmd args =>
          if String.eqb cmd "start"
          then Py.truthy (head args) && is_private (chat_type u)
          else if String.eqb cmd "help" then false
          else if String.eqb cmd "cancel" then false
          else String.eqb cmd "myfiles"
      | Text body =>
          if String.eqb body UPLOAD_BUTTON_TEXT then true
          else if String.eqb body FINISH_UPLOAD_BUTTON_TEXT then false
          else
            is_private (chat_type u)
            && match Re.match_ (share_link_pattern (bot_username env)) body with
               | Some groups => Py.truthy (head (take 1 groups))
               | None => false
               end
      | Media kind _ _ =>
          match kind with
          | Document => negb (ChatType_eqb (chat_type u) CHANNEL)
          | _ => true
          end
      | CallbackQuery _ => false
      end
  end.

(** The gate calls an update gives rise to. *)
Definition gate_calls_of (env : Env) (u : Update) : list Z :=
  if asks_gate env u then option_list (effective_user u) else [].

(** A share id as [finish_upload_handler] makes it: eleven characters
    of the URL-safe alphabet. *)
Definition token_shaped (s : string) : Prop :=
  string_forall token_char s = true /\ String.length s = 11%nat.

(** The registry as the table keeps it: [share_id] is the primary key
    (line 82), and every key is a token. *)
Definition registry_keyed (rows : list FileRow) : Prop :=
  NoDup (share_id <$> rows) /\ Forall (fun r => token_shaped (share_id r)) rows.

(** The user presses the upload button in the private chat. *)
Definition upload_update (user_id chat_id : Z) : Update :=
  {| effective_user := Some user_id; effective_chat := chat_id;
     chat_type := PRIVATE; content := Text UPLOAD_BUTTON_TEXT |}.

(** Two replies the source has text for: the alert the decorator gives
    to a button press (lines 131-132) and the reply that a share holds
    no files (lines 205-207). *)
Definition dead_reply (e : Effect) : bool :=
  match e with
  | Answer AlertRestricted => true
  | Send _ (MsgNoFilesInShare _) => true
  | _ => false
  end.

Definition dead_replies (tr : list Effect) : list Effect := List.filter dead_reply tr.

(** A waiting job finds what its [data] names: the entry of its user in
    [application.user_data] and its list of message ids. *)
Definition job_backed (w : World) (j : Job) : Prop :=
  is_Some (user_data w !! job_user_id j) /\ is_Some (store w !! job_message_ids j).

Definition jobs_backed (w : World) : Prop := Forall (job_backed w) (job_queue w).

(** Entries of users and list objects are never taken away. *)
Definition grows (w w' : World) : Prop :=
  (forall u, is_Some (user_data w !! u) -> is_Some (user_data w' !! u))
  /\ (forall c, is_Some (store w !! c) -> is_Some (store w' !! c)).

(** A group entry of [bot_data] refers to a list that is in the store. *)
Definition cells_backed (w : World) : Prop :=
  forall g c, bot_data w !! g = Some c -> is_Some (store w !! c).

(** A step of the bot: nothing is taken away, and a job or a group
    entry that is new is backed. *)
Definition step_ok (w w' : World) : Prop :=
  grows w w'
  /\ (forall j, j ∈ job_queue w' -> j ∈ job_queue w \/ job_backed w' j)
  /\ (forall g c,
        bot_data w' !! g = Some c ->
        bot_data w !! g = Some c \/ is_Some (store w' !! c)).

(** ** The file path with the answer times of the collaborators *)

(** Every call of the Bot API is awaited: the coroutine that makes it
    is suspended until the answer is there, and the event loop runs
    whatever else is ready.  The application handles one update at a
    time ([main] does not ask for concurrent updates); each job of the
    job queue runs as a task of its own, so a timer can fire and a job
    can go on while a handler waits for an answer.  This part follows
    [file_handler] with its decorator and
    [process_and_collect_files_job] await by await: between two awaits
    a coroutine runs in one piece, and the pieces put together are the
    handlers above. *)

(** How long the awaited calls of the file path take to answer, by the
    time of the call and its arguments. *)
Record Delays := {
  (** [get_chat_member] (line 110) *)
  gate_delay : Time -> Z -> Q;
  (** [reply_text] and [send_message] (lines 132, 534, 543, 549, 525) *)
  reply_delay : Time -> Z -> Q;
  (** [forward_messages] (line 515) *)
  relay_delay : Time -> Z -> list Z -> Q
}.

(** An update the filter of [file_handler] accepts (line 586). *)
Record FileUpdate := {
  file_user : option Z;
  file_chat : Z;
  file_chat_type : ChatType;
  file_message_id : Z;
  file_media_group_id : option string
}.

(** What a suspended coroutine waits for, with what it needs to go on. *)
Inductive Await :=
| GateAnswer (u : FileUpdate) (user_id : Z) (answer : Exc ChatMemberStatus)
    (* line 110, awaited by the decorator at line 125 *)
| LastReply
    (* lines 132 and 534: the handler returns after the reply *)
| AlbumReply (user_id chat_id : Z) (job_name : string) (cell : nat)
    (* line 543: lines 546-547 follow *)
| FileReply (user_id chat_id msg_id : Z)
    (* line 549: line 551 follows *)
| RelayAnswer (job : Job) (message_ids : list Z) (answer : Exc (list Z))
    (* line 515: lines 516-529 follow *)
| WarningSent (job : Job).
    (* line 525: the [finally] of lines 527-529 follows *)

(** A suspended coroutine and the time its answer arrives. *)
Definition Suspended : Type := Time * Await.

(** An answer takes no less than no time. *)
Definition wait (d : Q) : Q := if Qle_bool 0 d then d else 0%Q.

(** The later of two times. *)
Definition later (t u : Time) : Time := if Qle_bool t u then u else t.

(** The first of the entries with the least time, and the others in
    their order. *)
Fixpoint soonest {A : Type} (key : A -> Time) (l : list A) : option (A * list A) :=
  match l with
  | [] => None
  | x :: l' =>
      match soonest key l' with
      | Some (y, rest) =>
          if Qle_bool (key x) (key y) then Some (x, l') else Some (y, x :: rest)
      | None => Some (x, [])
      end
  end.

(** The state of the application: the world, the update in hand (one
    at a time), the updates that wait, and the jobs that have fired and
    wait for an answer.  The timers that have not fired are the
    [job_queue] of the world. *)
Record Loop := {
  world : World;
  handling : option Suspended;
  inbox : list (Time * FileUpdate);
  running : list Suspended
}.

Inductive Event :=
| TimerFires (job : Job) (others : list Job)
| JobGoesOn (a : Await) (others : list Suspended)
| HandlerGoesOn (a : Await)
| UpdateTaken (u : FileUpdate) (others : list (Time * FileUpdate)).

Section Timed.

Variable env : Env.
Variable lat : Delays.

(** [await update.message.reply_text(...)]: the text is sent, the
    coroutine goes on as [next] when the call returns. *)
Definition await_reply (chat_id : Z) (m : Message) (next : Await) (w : World)
    : World * option Suspended :=
  let w := emit (Send (ToChat chat_id) m) w in
  (w, Some ((now w + wait (reply_delay lat (now w) chat_id))%Q, next)).

(** Lines 546-547, between which nothing is awaited. *)
Definition set_timer (user_id chat_id : Z) (job_name : string) (cell : nat)
    (w : World) : World :=
  run_once 2 user_id chat_id cell (Some job_name) (remove_jobs_by_name job_name w).

(** Line 551. *)
Definition schedule_file (user_id chat_id msg_id : Z) (w : World) : World :=
  let cell := length (store w) in
  let w := set_store (store w ++ [[msg_id]]) w in
  run_once 0 user_id chat_id cell None w.

(** Lines 531-551 up to the first reply. *)
Definition file_handler_body (u : FileUpdate) (user_id : Z) (w : World)
    : World * option Suspended :=
  let chat_id := file_chat u in
  let msg_id := file_message_id u in
  if negb (is_private (file_chat_type u)) then (w, None)
  else if negb (bool_decide (state (ud user_id w) = Some "awaiting_file"))
  then await_reply chat_id MsgPressUploadFirst LastReply w
  else
    match file_media_group_id u with
    | Some job_name =>
        if Py.truthy (file_media_group_id u) then
          let '(cell, w) :=
            match bot_data w !! job_name with
            | Some cell => (cell, w)
            | None =>
                let cell := length (store w) in
                (cell, set_bot_data (<[job_name := cell]> (bot_data w))
                         (set_store (store w ++ [[]]) w))
            end in
          let message_ids := default [] (store w !! cell) in
          let is_first_in_group := bool_decide (message_ids = []) in
          let w := set_store (<[cell := message_ids ++ [msg_id]]> (store w)) w in
          if is_first_in_group
          then await_reply chat_id MsgAlbumReceived
                 (AlbumReply user_id chat_id job_name cell) w
          else (set_timer user_id chat_id job_name cell w, None)
        else await_reply chat_id MsgFileReceived (FileReply user_id chat_id msg_id) w
    | None => await_reply chat_id MsgFileReceived (FileReply user_id chat_id msg_id) w
    end.

(** Lines 118-125 and 108-110: the decorator asks the gate. *)
Definition file_handler_call (u : FileUpdate) (w : World) : World * option Suspended :=
  match file_user u with
  | None => (w, None)
  | Some user_id =>
      let w := emit (GateCall user_id) w in
      (w, Some ((now w + wait (gate_delay lat (now w) user_id))%Q,
                GateAnswer u user_id (get_chat_member env (now w) user_id)))
  end.

(** Lines 512-515: the job reads the list its data refers to and hands
    it to the relay. *)
Definition job_call (job : Job) (w : World) : World * Suspended :=
  let chat_id := job_chat_id job in
  let message_ids := default [] (store w !! job_message_ids job) in
  let w := emit (JobRun (name job) (job_user_id job) chat_id message_ids) w in
  (w, ((now w + wait (relay_delay lat (now w) chat_id message_ids))%Q,
       RelayAnswer job message_ids (forward_messages env (now w) chat_id message_ids))).

(** Lines 527-529. *)
Definition job_finally (job : Job) (w : World) : World :=
  match name job with
  | Some media_group_id =>
      if Py.truthy (Some media_group_id)
         && bool_decide (is_Some (bot_data w !! media_group_id))
      then set_bot_data (delete media_group_id (bot_data w)) w
      else w
  | None => w
  end.

(** A coroutine goes on when its answer is there. *)
Definition resume (a : Await) (w : World) : World * option Suspended :=
  match a with
  | GateAnswer u user_id answer =>
      let '(ok, w) :=
        match answer with
        | Ok status => (is_member_status status, w)
        | Raise _ => (false, emit (Log ERROR) w)
        end in
      if ok then file_handler_body u user_id w
      else await_reply (file_chat u) MsgRestricted LastReply w
  | LastReply => (w, None)
  | AlbumReply user_id chat_id job_name cell =>
      (set_timer user_id chat_id job_name cell w, None)
  | FileReply user_id chat_id msg_id =>
      (schedule_file user_id chat_id msg_id w, None)
  | RelayAnswer job message_ids answer =>
      let user_id := job_user_id job in
      let chat_id := job_chat_id job in
      match answer with
      | Ok forwarded_ids =>
          let w := emit (Forwarded chat_id message_ids forwarded_ids) w in
          let w :=
            match user_data w !! user_id with
            | Some d =>
                let ids := default [] (session_message_ids d) in
                let count := default 0 (session_file_count d) in
                set_ud user_id
                  (set_session (Some (ids ++ forwarded_ids))
                     (Some (count + Z.of_nat (length forwarded_ids))) d) w
            | None => w
            end in
          (job_finally job (emit (Log INFO) w), None)
      | Raise _ =>
          await_reply chat_id MsgRelayWarning (WarningSent job) (emit (Log ERROR) w)
      end
  | WarningSent job => (job_finally job w, None)
  end.

(** What can happen next, each with its time: a timer fires, a job
    gets its answer, the handler in hand gets its answer, or, when no
    update is in hand, the next update is taken (no earlier than it
    arrived).  Of several things due at the same time the first in
    this order happens. *)
Definition candidates (s : Loop) : list (Time * Event) :=
  let w := world s in
  match soonest fire_at (job_queue w) with
  | Some (job, others) => [(fire_at job, TimerFires job others)]
  | None => []
  end
  ++ match soonest fst (running s) with
     | Some ((t, a), others) => [(t, JobGoesOn a others)]
     | None => []
     end
  ++ match handling s with
     | Some (t, a) => [(t, HandlerGoesOn a)]
     | None =>
         match inbox s with
         | (t, u) :: others => [(later (now w) t, UpdateTaken u others)]
         | [] => []
         end
     end.

Definition happen (t : Time) (ev : Event) (s : Loop) : Loop :=
  let w := set_now (later (now (world s)) t) (world s) in
  match ev with
  | TimerFires job others =>
      let '(w, k) := job_call job (set_job_queue others w) in
      {| world := w; handling := handling s; inbox := inbox s;
         running := running s ++ [k] |}
  | JobGoesOn a others =>
      let '(w, k) := resume a w in
      {| world := w; handling := handling s; inbox := inbox s;
         running := others ++ option_list k |}
  | HandlerGoesOn a =>
      let '(w, k) := resume a w in
      {| world := w; handling := k; inbox := inbox s; running := running s |}
  | UpdateTaken u others =>
      let '(w, k) := file_handler_call u w in
      {| world := w; handling := k; inbox := others; running := running s |}
  end.

(** One step of the loop; [None] when nothing is left to happen. *)
Definition step (s : Loop) : option Loop :=
  match soonest fst (candidates s) with
  | Some ((t, ev), _) => Some (happen t ev s)
  | None => None
  end.

Fixpoint settle (fuel : nat) (s : Loop) : Loop :=
  match fuel with
  | O => s
  | S fuel' =>
      match step s with
      | Some s' => settle fuel' s'
      | None => s
      end
  end.


End Timed.

(** The updates arrive at an application that is doing nothing else. *)
Definition arriving (w : World) (updates : list (Time * FileUpdate)) : Loop :=
  {| world := w; handling := None; inbox := updates; running := [] |}.

(** An item of a media group, sent by a user in the private chat. *)
Definition album_item (user_id chat_id : Z) (group : string) (msg_id : Z) : FileUpdate :=
  {| file_user := Some user_id; file_chat := chat_id; file_chat_type := PRIVATE;
     file_message_id := msg_id; file_media_group_id := Some group |}.

(** When the gate answers for an update that arrived at [t] and is
    taken once the loop is free at [free]. *)
Definition gated_at (lat : Delays) (user_id : Z) (free t : Time) : Time :=
  (later free t + wait (gate_delay lat (later free t) user_id))%Q.

(** Every further item of the group passes the gate, and its handler
    reaches the timer (line 546) before the timer armed at [armed] fires. *)
Fixpoint in_time (env : Env) (lat : Delays) (user_id : Z) (armed : Time)
    (rest : list (Time * Z)) : Prop :=
  match rest with
  | [] => True
  | a :: rest' =>
      let b := gated_at lat user_id armed a.1 in
      member_at env user_id (later armed a.1)
      /\ (b < armed + 2)%Q
      /\ in_time env lat user_id b rest'
  end.

(** When the timer of the first item of a group is armed: after the
    gate has answered and the reply of line 543 is through. *)
Definition first_set (lat : Delays) (user_id chat_id : Z) (free t : Time) : Time :=
  let b := gated_at lat user_id free t in
  (b + wait (reply_delay lat b chat_id))%Q.

(** When the timer of the last item is armed. *)
Definition last_set (lat : Delays) (user_id : Z) (armed : Time)
    (rest : list (Time * Z)) : Time :=
  foldl (fun armed a => gated_at lat user_id armed a.1) armed rest.

(** The items of a group, each with the time it arrives. *)
Definition album_items (user_id chat_id : Z) (group : string)
    (items : list (Time * Z)) : list (Time * FileUpdate) :=
  (fun a => (a.1, album_item user_id chat_id group a.2)) <$> items.

(** The group is collecting and nothing else goes on: no update in
    hand, no job running, one timer, armed at [armed]. *)
Definition collecting_at (user_id chat_id : Z) (group : string) (w0 : World)
    (armed : Time) (ms : list Z) (s : Loop) : Prop :=
  handling s = None
  /\ running s = []
  /\ now (world s) = armed
  /\ state (ud user_id (world s)) = Some "awaiting_file"
  /\ user_data (world s) = user_data w0
  /\ drains_of group (trace (world s)) = drains_of group (trace w0)
  /\ ms <> []
  /\ exists cell,
       job_queue (world s) = [pending user_id chat_id group armed cell]
       /\ bot_data (world s) !! group = Some cell
       /\ store (world s) !! cell = Some ms.

(** The relay of the batch [ms] of the group is in flight, to answer
    [refs] at [g]; meanwhile the buffer has grown to [ms'] and a new
    timer is armed, at [armed]. *)
Definition relaying_at (user_id chat_id : Z) (group : string) (w0 : World)
    (job : Job) (g : Time) (ms refs : list Z) (armed : Time) (ms' : list Z)
    (s : Loop) : Prop :=
  handling s = None
  /\ inbox s = []
  /\ running s = [(g, RelayAnswer job ms (Ok refs))]
  /\ now (world s) = armed
  /\ user_data (world s) = user_data w0
  /\ drains_of group (trace (world s)) = drains_of group (trace w0) ++ [ms]
  /\ exists cell,
       job_queue (world s) = [pending user_id chat_id group armed cell]
       /\ bot_data (world s) !! group = Some cell
       /\ store (world s) !! cell = Some ms'.

(** A file that is not part of a media group. *)
Definition lone_file (user_id chat_id msg_id : Z) : FileUpdate :=
  {| file_user := Some user_id; file_chat := chat_id; file_chat_type := PRIVATE;
     file_message_id := msg_id; file_media_group_id := None |}.

Definition lone_files (user_id chat_id : Z) (uploads : list (Time * Z))
    : list (Time * FileUpdate) :=
  (fun a => (a.1, lone_file user_id chat_id a.2)) <$> uploads.

(** The application is at rest at time [T]: no update in hand, no job
    running, no timer armed; the user is collecting. *)
Definition at_rest (user_id : Z) (T : Time) (s : Loop) : Prop :=
  handling s = None
  /\ running s = []
  /\ job_queue (world s) = []
  /\ now (world s) = T
  /\ state (ud user_id (world s)) = Some "awaiting_file".

(** Files that come one by one to an application free at [free]: the
    sender passes the gate, the relay answers, and the next file
    arrives no earlier than that answer.  The result is the time of the
    last answer and the references in the order of the files; [None]
    when one of the conditions fails. *)
Fixpoint one_by_one (env : Env) (lat : Delays) (user_id chat_id : Z)
    (free : Time) (uploads : list (Time * Z)) : option (Time * list Z) :=
  match uploads with
  | [] => Some (free, [])
  | a :: rest =>
      let b := gated_at lat user_id free a.1 in
      let c := (b + wait (reply_delay lat b chat_id))%Q in
      let f := (c + 0)%Q in
      let g := (f + wait (relay_delay lat f chat_id [a.2]))%Q in
      match get_chat_member env (later free a.1) user_id,
            forward_messages env f chat_id [a.2] with
      | Ok status, Ok refs =>
          if is_member_status status
             && match rest with
                | [] => true
                | a' :: _ => Qle_bool g a'.1
                end
          then
            match one_by_one env lat user_id chat_id g rest with
            | Some (T, refs') => Some (T, refs ++ refs')
            | None => None
            end
          else None
      | _, _ => None
      end
  end.

(** ** Concrete collaborators and worlds *)

(** Members: user 1 is in the group, user 7 has left it, the call
    fails for everybody else. *)
Definition demo_gate (user_id : Z) : Exc ChatMemberStatus :=
  if user_id =? 1 then Ok MEMBER
  else if user_id =? 7 then Ok LEFT
  else Raise TimedOut.

Definition demo_env (storage_down : DbOp -> bool) : Env :=
  {| get_chat_member := fun _ user_id => demo_gate user_id;
     forward_messages := fun _ _ ids => Ok ((fun i => i + 1000) <$> ids);
     copy_messages := fun _ _ ids => Ok ((fun i => i + 5000) <$> ids);
     delete_messages := fun _ _ _ => Ok tt;
     delete_message := fun _ _ _ => Ok tt;
     sent_message_id := fun _ _ => 900;
     db_fault := fun _ op => storage_down op;
     random_byte := fun _ _ => Byte.x00;
     bot_username := "share_bot" |}.

Definition storage_up : DbOp -> bool := fun _ => false.

Definition insert_fails (op : DbOp) : bool :=
  match op with OpInsert => true | _ => false end.

(** The registry cannot be read: [SELECT ... WHERE share_id] raises. *)
Definition select_fails (op : DbOp) : bool :=
  match op with OpSelect => true | _ => false end.

Definition idle_world : World :=
  {| now := 0%Q; user_data := ∅; bot_data := ∅; store := []; job_queue := [];
     files := []; trace := [] |}.

(** A share of eleven items uploaded by user 1. *)
Definition demo_row : FileRow :=
  {| share_id := "tok";
     message_id := "101,102,103,104,105,106,107,108,109,110,111";
     uploader_id := 1; file_caption := batch_caption 11; file_type := "合集";
     timestamp := 0%Q |}.

Definition shared_world : World := set_files [demo_row] idle_world.

(** User 1 is collecting and two items have been relayed already. *)
Definition collecting_world : World :=
  set_ud 1 (set_session (Some [501; 502]) (Some 2)
              (set_state (Some "awaiting_file") empty_user_data)) idle_world.

(** User 1 starts an upload, sends one file and finishes. *)
Definition demo_upload : list (Time * Update) :=
  [ (0%Q, {| effective_user := Some 1; effective_chat := 10; chat_type := PRIVATE;
             content := Text UPLOAD_BUTTON_TEXT |});
    (1%Q, {| effective_user := Some 1; effective_chat := 10; chat_type := PRIVATE;
             content := Media Photo 21 None |});
    (2%Q, {| effective_user := Some 1; effective_chat := 10; chat_type := PRIVATE;
             content := Text FINISH_UPLOAD_BUTTON_TEXT |}) ].

(** The membership check answers after 1/10 until time 1 and after 1/2
    from then on; a reply takes 1/10; the relay takes [relay]. *)
Definition slow_gate (relay : Q) : Delays :=
  {| gate_delay := fun t _ => if Qle_bool 1 t then (1 # 2)%Q else (1 # 10)%Q;
     reply_delay := fun _ _ => (1 # 10)%Q;
     relay_delay := fun _ _ _ => relay |}.

(** Two items of the album "album" from user 1, at times 0 and 19/10. *)
Definition late_item : list (Time * FileUpdate) :=
  [(0%Q, album_item 1 10 "album" 21); ((19 # 10)%Q, album_item 1 10 "album" 22)].

(** Every call of the gate and every reply takes 1/10, the relay 1/2. *)
Definition steady_answers : Delays :=
  {| gate_delay := fun _ _ => (1 # 10)%Q;
     reply_delay := fun _ _ => (1 # 10)%Q;
     relay_delay := fun _ _ _ => (1 # 2)%Q |}.

(** Three items of an album, at times 1, 2 and 5/2. *)
Definition demo_album : list (Time * Z) :=
  [(1%Q, 21); (2%Q, 22); ((5 # 2)%Q, 23)].

(** Two files on their own, at times 1 and 3. *)
Definition demo_files : list (Time * Z) := [(1%Q, 31); (3%Q, 32)].

(** ** Sanity checks of the embedding *)

Example split_three : Py.split ":" (Some 2%nat) "delete:abc:3" = ["delete"; "abc"; "3"].
Proof. reflexivity. Qed.
Example split_rest : Py.split ":" (Some 2%nat) "a:b:c:d" = ["a"; "b"; "c:d"].
Proof. reflexivity. Qed.
Example split_comma : Py.split "," None "10,11" = ["10"; "11"].
Proof. reflexivity. Qed.
Example int_neg : Py.int "-12" = Some (-12).
Proof. reflexivity. Qed.
Example str_neg : Py.str (-12) = "-12".
Proof. reflexivity. Qed.
Example slice_tail : Py.slice [1;2;3;4;5] 3 13 = [4;5].
Proof. reflexivity. Qed.
Example keyboard_single_page :
  create_pagination_keyboard 1 1 "spage" (Some "tok") = [].
Proof. reflexivity. Qed.
Example keyboard_middle :
  map (map callback_data) (create_pagination_keyboard 4 9 "page" None)
  = [["page:2"; "page:3"; "noop"; "page:5"; "page:6"];
     ["page:3"; "page:5"]; ["page:1"; "page:9"]].
Proof. reflexivity. Qed.
Example keyboard_shared_last :
  map (map callback_data) (create_pagination_keyboard 3 3 "spage" (Some "tok"))
  = [["spage:1:tok"; "spage:2:tok"; "noop:tok"];
     ["spage:2:tok"]; ["spage:1:tok"]].
Proof. reflexivity. Qed.
Example paginate_25 : paginate 25 10 7 = Some (3, 3, 20).
Proof. reflexivity. Qed.
Example token_zero : Token.token_urlsafe (fun _ => Byte.x00) 8 = "AAAAAAAAAAA".
Proof. reflexivity. Qed.
Example token_ff : Token.token_urlsafe (fun _ => Byte.xff) 8 = "__________8".
Proof. reflexivity. Qed.
Example token_hello :
  Token.urlsafe_b64encode [Byte.x68; Byte.x65; Byte.x6c; Byte.x6c; Byte.x6f] = "aGVsbG8=".
Proof. reflexivity. Qed.
Example link_match :
  Re.match_ (share_link_pattern "my_bot") "http://t.me/my_bot?start=Ab-9_z and more"
  = Some ["Ab-9_z"].
Proof. reflexivity. Qed.
Example link_no_match :
  Re.match_ (share_link_pattern "my_bot") "see https://t.me/my_bot?start=Ab" = None.
Proof. reflexivity. Qed.
Example upload_writes_one_row :
  (fun r => (share_id r, message_id r, uploader_id r))
    <$> files (run (demo_env storage_up) idle_world demo_upload)
  = [("AAAAAAAAAAA", "1021", 1)].
Proof. reflexivity. Qed.
Example upload_trace :
  trace (run (demo_env storage_up) idle_world demo_upload)
  = [GateCall 1; Send (ToChat 10) MsgSendFilesNow;
     GateCall 1; Send (ToChat 10) MsgFileReceived;
     JobRun None 1 10 [21]; Forwarded 10 [21] [1021]; Log INFO;
     Send (ToChat 10) MsgGeneratingLink;
     Edit (ToChat 10) (MsgUploadDone 1 "https://t.me/share_bot?start=AAAAAAAAAAA");
     Send ToPrivateChannel
       (MsgUploadLog 1 1 "https://t.me/share_bot?start=AAAAAAAAAAA");
     Send (ToChat 10) MsgSessionEnded].
Proof. reflexivity. Qed.
Example outsider_is_refused_at_start :
  trace (start (demo_env storage_up) (Some 7) 70 PRIVATE ["tok"] shared_world)
  = [GateCall 7;
     Send (ToChat 70) (MsgAccessRestricted "https://t.me/share_bot?start=tok")].
Proof. reflexivity. Qed.

(** ** Facts about the Python built-ins *)

Section PyFacts.

Lemma string_forall_app P s t :
  string_forall P (s +:+ t) = string_forall P s && string_forall P t.
Proof.
  induction s as [|c s IH]; simpl; [reflexivity|].
  rewrite IH. apply andb_assoc.
Qed.

Lemma string_forall_impl (P Q : ascii -> bool) s :
  (forall c, P c = true -> Q c = true) ->
  string_forall P s = true -> string_forall Q s = true.
Proof.
  intros HPQ. induction s as [|c s IH]; simpl; [done|].
  intros [Hc Hs]%andb_true_iff. rewrite (HPQ _ Hc), (IH Hs). done.
Qed.

Lemma string_app_assoc (s t u : string) : (s +:+ t) +:+ u = s +:+ (t +:+ u).
Proof. induction s as [|c s IH]; simpl; [done|]. f_equal. exact IH. Qed.

Lemma string_app_empty_r (s : string) : s +:+ "" = s.
Proof. induction s as [|c s IH]; simpl; [done|]. f_equal. exact IH. Qed.

Lemma digit_of_pretty_char d :
  (d < 10)%N -> Py.digit_of (pretty_N_char d) = Some d.
Proof.
  intros Hd.
  assert (d = 0 \/ d = 1 \/ d = 2 \/ d = 3 \/ d = 4 \/ d = 5 \/ d = 6
          \/ d = 7 \/ d = 8 \/ d = 9)%N as Hcases by lia.
  repeat (destruct Hcases as [->|Hcases]; [reflexivity|]). by subst.
Qed.

(** What [pretty_N_go] puts in front of its accumulator is a run of
    digits, not empty for a positive number. *)
Lemma pretty_N_go_digits x s :
  exists ds, pretty_N_go x s = ds +:+ s
             /\ string_forall is_digit ds = true
             /\ ((0 < x)%N -> ds <> "").
Proof.
  revert s. induction (N.lt_wf_0 x) as [x _ IH]. intros s.
  destruct (decide (x = 0%N)) as [->|Hx].
  - exists "". rewrite pretty_N_go_0. split; [done|]. split; [done|lia].
  - rewrite pretty_N_go_step by lia.
    destruct (IH (x `div` 10)%N) with (s := String (pretty_N_char (x `mod` 10)) s)
      as (ds & Heq & Hds & _).
    { apply N.div_lt; lia. }
    exists (ds +:+ String (pretty_N_char (x `mod` 10)) "").
    rewrite Heq, string_app_assoc. simpl. split; [done|]. split.
    + rewrite string_forall_app, Hds. simpl. unfold is_digit.
      rewrite digit_of_pretty_char; [done|]. apply N.mod_lt. lia.
    + intros _. destruct ds; discriminate.
Qed.

Lemma parse_digits_pretty_go x s :
  Py.parse_digits 0 (pretty_N_go x s) = Py.parse_digits x s.
Proof.
  revert s. induction (N.lt_wf_0 x) as [x _ IH]. intros s.
  destruct (decide (x = 0%N)) as [->|Hx].
  - by rewrite pretty_N_go_0.
  - rewrite pretty_N_go_step by lia.
    rewrite IH by (apply N.div_lt; lia). simpl.
    rewrite digit_of_pretty_char by (apply N.mod_lt; lia).
    f_equal. rewrite (N.div_mod x 10) at 3 by lia. lia.
Qed.

Lemma int_of_digits c s :
  is_digit c = true -> Py.int (String c s) = Z.of_N <$> Py.parse_nat (String c s).
Proof.
  destruct c as [[] [] [] [] [] [] [] []]; try discriminate; reflexivity.
Qed.

Lemma pretty_pos_digits (p : positive) :
  exists c s, pretty (Npos p) = String c s
              /\ string_forall is_digit (String c s) = true
              /\ Py.parse_nat (String c s) = Some (Npos p).
Proof.
  unfold pretty, pretty_N. rewrite decide_False by done.
  destruct (pretty_N_go_digits (Npos p) "") as (ds & Heq & Hds & Hne).
  rewrite string_app_empty_r in Heq.
  destruct ds as [|c s]; [exfalso; by apply Hne|].
  exists c, s. rewrite Heq. split; [done|]. split; [done|].
  rewrite <- Heq. unfold Py.parse_nat. rewrite Heq at 1.
  by rewrite parse_digits_pretty_go.
Qed.

(** [int(str(n)) == n]. *)
Lemma int_str (n : Z) : Py.int (Py.str n) = Some n.
Proof.
  unfold Py.str. destruct n as [|p|p].
  - reflexivity.
  - change (pretty (Z.pos p)) with (pretty (N.pos p)).
    destruct (pretty_pos_digits p) as (c & s & -> & Hd & Hp).
    simpl in Hd. apply andb_true_iff in Hd as [Hc _].
    rewrite int_of_digits by done. by rewrite Hp.
  - change (pretty (Z.neg p)) with ("-" +:+ pretty (N.pos p)).
    destruct (pretty_pos_digits p) as (c & s & -> & Hd & Hp).
    change ("-" +:+ String c s) with (String "-" (String c s)).
    unfold Py.int. by rewrite Hp.
Qed.

Lemma str_numeral (n : Z) :
  string_forall numeral_char (Py.str n) = true /\ Py.str n <> "".
Proof.
  unfold Py.str. destruct n as [|p|p].
  - done.
  - change (pretty (Z.pos p)) with (pretty (N.pos p)).
    destruct (pretty_pos_digits p) as (c & s & -> & Hd & _). split; [|done].
    eapply string_forall_impl; [|exact Hd].
    intros a Ha. unfold numeral_char. by rewrite Ha.
  - change (pretty (Z.neg p)) with ("-" +:+ pretty (N.pos p)).
    destruct (pretty_pos_digits p) as (c & s & -> & Hd & _). split; [|done].
    change (string_forall numeral_char ("-" +:+ String c s))
      with (numeral_char "-" && string_forall numeral_char (String c s)).
    apply andb_true_iff. split; [done|].
    eapply string_forall_impl; [|exact Hd].
    intros a Ha. unfold numeral_char. by rewrite Ha.
Qed.

Lemma split_nonempty sep m s : Py.split sep m s <> [].
Proof.
  revert m. induction s as [|c s IH]; intros m; simpl; [done|].
  destruct (match m with Some 0%nat => false | _ => Ascii.eqb c sep end); [done|].
  specialize (IH m). by destruct (Py.split sep m s).
Qed.

(** A piece without separator is split off whole. *)
Lemma split_free sep m a :
  string_forall (not_char sep) a = true -> Py.split sep m a = [a].
Proof.
  induction a as [|c a IH]; simpl; [done|].
  intros [Hc Ha]%andb_true_iff. unfold not_char in Hc.
  apply negb_true_iff in Hc. rewrite Hc.
  replace (match m with Some 0%nat => false | _ => false end) with false
    by (by destruct m as [[]|]).
  by rewrite IH.
Qed.

Lemma split_app sep m a r :
  string_forall (not_char sep) a = true -> m <> Some 0%nat ->
  Py.split sep m (a +:+ String sep r) = a :: Py.split sep (Nat.pred <$> m) r.
Proof.
  intros Ha Hm. induction a as [|c a IH]; simpl.
  - rewrite Ascii.eqb_refl.
    by replace (match m with Some 0%nat => false | _ => true end) with true
      by (by destruct m as [[]|]).
  - simpl in Ha. apply andb_true_iff in Ha as [Hc Ha]. unfold not_char in Hc.
    apply negb_true_iff in Hc. rewrite Hc.
    replace (match m with Some 0%nat => false | _ => false end) with false
      by (by destruct m as [[]|]).
    by rewrite IH.
Qed.

(** [sep.join(parts).split(sep) == parts] when no part holds [sep]. *)
Lemma split_join sep parts :
  parts <> [] ->
  Forall (fun p => string_forall (not_char sep) p = true) parts ->
  Py.split sep None (Py.join (String sep "") parts) = parts.
Proof.
  intros Hne Hall. induction Hall as [|p ps Hp Hps IH]; [done|].
  destruct ps as [|q ps].
  - simpl. by apply split_free.
  - change (Py.join (String sep "") (p :: q :: ps))
      with (p +:+ String sep "" +:+ Py.join (String sep "") (q :: ps)).
    change (String sep "" +:+ ?x) with (String sep x).
    rewrite split_app by done. simpl fmap. by rewrite IH.
Qed.

Lemma ints_strs (ids : list Z) : Py.ints (Py.str <$> ids) = Some ids.
Proof.
  unfold Py.ints. apply mapM_Some_2.
  induction ids as [|z ids IH]; constructor; [apply int_str | exact IH].
Qed.

(** The ids written by [finish_upload_handler] are read back as they
    were. *)
Lemma ints_split_join (ids : list Z) :
  ids <> [] ->
  Py.ints (Py.split "," None (Py.join "," (Py.str <$> ids))) = Some ids.
Proof.
  intros Hne. rewrite split_join.
  - apply ints_strs.
  - by destruct ids.
  - apply Forall_fmap, Forall_forall. intros z _. simpl.
    eapply string_forall_impl; [|apply str_numeral].
    intros c. unfold numeral_char, not_char, is_digit.
    destruct c as [[] [] [] [] [] [] [] []]; try done.
Qed.

End PyFacts.

(** ** The pager *)

Section Pager.

Lemma ceil_div_bounds (n s : Z) :
  0 < s -> (ceil_div n s - 1) * s < n <= ceil_div n s * s.
Proof.
  intros Hs. unfold ceil_div.
  pose proof (Z.div_mod n s ltac:(lia)) as Hdm.
  pose proof (Z.mod_pos_bound n s Hs) as Hm.
  destruct (Z.eqb_spec (n `mod` s) 0); nia.
Qed.

(** The rounding-up division of lines 209 and 338 is the ceiling. *)
Lemma total_pages_ceil (n s : Z) :
  0 < s -> (n + s - 1) `div` s = ceil_div n s.
Proof.
  intros Hs. pose proof (ceil_div_bounds n s Hs) as Hc.
  symmetry. apply (Z.div_unique_pos _ _ _ (n + s - 1 - ceil_div n s * s)); lia.
Qed.

Lemma slice_length {A} (items : list A) (offset size : Z) :
  0 <= offset <= Z.of_nat (length items) -> 0 <= size ->
  Z.of_nat (length (Py.slice items offset (offset + size)))
  = Z.min size (Z.of_nat (length items) - offset).
Proof.
  intros Ho Hs. unfold Py.slice, Py.norm_index.
  destruct (Z.ltb_spec offset 0); [lia|].
  destruct (Z.ltb_spec (offset + size) 0); [lia|].
  rewrite length_take, length_drop. lia.
Qed.

(** C2, as amended: with at least one item the page computation gives
    total_pages = max(1, ceil(N/S)), the requested page clamped into
    [1, total_pages], the offset (page - 1) * S and a window of
    min(S, N - offset) items, which is positive; with no item no page is
    computed at all. *)
Theorem paginate_with_items (S N p : Z) :
  0 < S ->
  paginate 0 S p = None
  /\ (0 < N ->
      exists page total_pages offset,
        paginate N S p = Some (page, total_pages, offset)
        /\ total_pages = Z.max 1 (ceil_div N S)
        /\ page = Z.max 1 (Z.min p total_pages)
        /\ 1 <= page <= total_pages
        /\ offset = (page - 1) * S
        /\ forall (A : Type) (items : list A),
             Z.of_nat (length items) = N ->
             Z.of_nat (length (Py.slice items offset (offset + S)))
             = Z.min S (N - offset)
             /\ 0 < Z.min S (N - offset)).
Proof.
  intros HS. split; [reflexivity|]. intros HN.
  pose proof (ceil_div_bounds N S HS) as Hc.
  assert (1 <= ceil_div N S) as H1 by nia.
  unfold paginate. destruct (Z.eqb_spec N 0) as [->|_]; [lia|].
  unfold page_bounds. rewrite total_pages_ceil by done.
  eexists _, _, _. split; [reflexivity|].
  split; [lia|]. split; [reflexivity|]. split; [lia|]. split; [reflexivity|].
  intros A items Hlen.
  assert (0 <= (Z.max 1 (Z.min p (ceil_div N S)) - 1) * S < N) as Hoff by nia.
  split; [|lia]. rewrite slice_length by lia. by rewrite Hlen.
Qed.

Lemma page_range_spec (p tp : Z) :
  1 <= p <= tp -> 2 <= tp ->
  exists s e, page_range p tp = (s, e)
    /\ s = Z.max 1 (Z.min (p - 2) (tp - 4)) /\ e = Z.min tp (s + 4).
Proof. intros Hp Htp. unfold page_range. eexists _, _. split; [done|]. lia. Qed.

Lemma str_head (n : Z) :
  exists c s, Py.str n = String c s /\ numeral_char c = true.
Proof.
  destruct (str_numeral n) as [Hall Hne].
  destruct (Py.str n) as [|c s]; [done|].
  exists c, s. split; [done|]. simpl in Hall. by apply andb_true_iff in Hall as [? _].
Qed.

(** A page-number control is told from the four navigation controls by
    its text. *)
Lemma page_button_text cur pfx sid q :
  ~ nav_text (text (page_button cur pfx sid q)).
Proof.
  unfold nav_text. simpl. destruct (q =? cur).
  - intros [H|[H|[H|H]]]; discriminate H.
  - destruct (str_head q) as (c & s & -> & Hc).
    intros [H|[H|[H|H]]]; injection H as -> _; discriminate Hc.
Qed.

Lemma nav_not_page_button b cur pfx sid (pages : list Z) :
  nav_text (text b) -> b ∉ page_button cur pfx sid <$> pages.
Proof.
  intros Hb (q & -> & _)%list_elem_of_fmap. by apply page_button_text in Hb.
Qed.

Lemma keyboard_controls p tp pfx sid :
  2 <= tp ->
  concat (create_pagination_keyboard p tp pfx sid)
  = (page_button p pfx sid
       <$> Py.range (page_range p tp).1 ((page_range p tp).2 + 1))
    ++ (if 1 <? p then [prev_button p pfx sid] else [])
    ++ (if p <? tp then [next_button p pfx sid] else [])
    ++ (if 1 <? p then [first_button pfx sid] else [])
    ++ (if p <? tp then [last_button tp pfx sid] else []).
Proof.
  intros Htp. unfold create_pagination_keyboard.
  destruct (Z.ltb_spec 1 tp); [|lia].
  destruct (page_range p tp) as [s e].
  destruct (1 <? p), (p <? tp); simpl; by rewrite ?app_nil_r.
Qed.

End Pager.

Section Keyboard.

Variable env : Env.

Lemma page_row_no_nav t cur pfx sid (pages : list Z) :
  nav_text t ->
  List.filter (fun b => String.eqb (text b) t) (page_button cur pfx sid <$> pages) = [].
Proof.
  intros Ht. induction pages as [|q pages IH]; [done|].
  rewrite fmap_cons. cbn [List.filter]. rewrite IH.
  destruct (String.eqb_spec (text (page_button cur pfx sid q)) t) as [Heq|]; [|done].
  exfalso. apply (page_button_text cur pfx sid q). by rewrite Heq.
Qed.

Lemma controls_with_nav t p tp pfx sid :
  2 <= tp -> nav_text t ->
  controls_with t (create_pagination_keyboard p tp pfx sid)
  = List.filter (fun b => String.eqb (text b) t)
      ((if 1 <? p then [prev_button p pfx sid] else [])
       ++ (if p <? tp then [next_button p pfx sid] else [])
       ++ (if 1 <? p then [first_button pfx sid] else [])
       ++ (if p <? tp then [last_button tp pfx sid] else [])).
Proof.
  intros Htp Ht. unfold controls_with. rewrite keyboard_controls by done.
  rewrite List.filter_app. by rewrite page_row_no_nav.
Qed.

(** Pressing the control of the current page: the query is answered
    and nothing else happens (lines 378-381 and 445-446). *)
Lemma noop_does_nothing sid user_id chat_id w :
  button_callback_handler env user_id chat_id (with_share sid "noop") w
  = emit (Answer AlertNone) w.
Proof.
  unfold with_share. destruct sid as [s|]; [|reflexivity].
  destruct (Py.truthy (Some s)); [|reflexivity].
  unfold button_callback_handler.
  change (Py.split ":" (Some 2%nat) ("noop" +:+ ":" +:+ s))
    with ("noop" :: Py.split ":" (Some 1%nat) s).
  reflexivity.
Qed.

Lemma is_nav_text_spec t : is_nav_text t = true <-> nav_text t.
Proof.
  unfold is_nav_text, nav_text. rewrite !orb_true_iff, !String.eqb_eq. tauto.
Qed.

Lemma page_row_all_numbers cur pfx sid (pages : list Z) :
  List.filter (fun b => negb (is_nav_text (text b))) (page_button cur pfx sid <$> pages)
  = page_button cur pfx sid <$> pages.
Proof.
  induction pages as [|q pages IH]; [done|].
  rewrite fmap_cons. cbn [List.filter]. rewrite IH.
  destruct (is_nav_text (text (page_button cur pfx sid q))) eqn:Hnav; [|done].
  apply is_nav_text_spec in Hnav. by apply page_button_text in Hnav.
Qed.

(** C8, as amended: for the current page p in [1, total_pages].  With
    one page the keyboard is empty.  With at least two pages the
    keyboard is exactly this: a first row with the page-number controls
    of the pages s..e, a run of min(5, total_pages) pages within
    [1, total_pages] that contains p and is p-2..p+2 when that fits;
    then a row with the previous control (exactly when p > 1) and the
    next control (exactly when p < total_pages); then a row with the
    first and last controls, under the same conditions.  So the
    page-number controls of the keyboard are those of the first row and
    no more, min(5, total_pages) of them; the control of page p is
    among them, carries "noop", and pressing it only answers the
    query. *)
Theorem pagination_keyboard_controls (p tp : Z) (pfx : string) (sid : option string) :
  1 <= p <= tp ->
  let kb := create_pagination_keyboard p tp pfx sid in
  let s := Z.max 1 (Z.min (p - 2) (tp - 4)) in
  let e := Z.min tp (s + 4) in
  (tp = 1 -> kb = [])
  /\ (2 <= tp ->
      kb = [page_button p pfx sid <$> seqZ s (e - s + 1)]
           ++ nonempty_row ((if 1 <? p then [prev_button p pfx sid] else [])
                            ++ (if p <? tp then [next_button p pfx sid] else []))
           ++ nonempty_row ((if 1 <? p then [first_button pfx sid] else [])
                            ++ (if p <? tp then [last_button tp pfx sid] else []))
      /\ page_number_controls kb = page_button p pfx sid <$> seqZ s (e - s + 1)
      /\ Z.of_nat (length (page_number_controls kb)) = Z.min 5 tp
      /\ (1 <= s /\ s <= p <= e /\ e <= tp /\ e - s + 1 = Z.min 5 tp)
      /\ (3 <= p <= tp - 2 -> s = p - 2 /\ e = p + 2)
      /\ controls_with "‹ 上一页" kb = (if 1 <? p then [prev_button p pfx sid] else [])
      /\ controls_with "« 首页" kb = (if 1 <? p then [first_button pfx sid] else [])
      /\ controls_with "下一页 ›" kb = (if p <? tp then [next_button p pfx sid] else [])
      /\ controls_with "末页 »" kb = (if p <? tp then [last_button tp pfx sid] else [])
      /\ page_button p pfx sid p ∈ page_number_controls kb
      /\ callback_data (page_button p pfx sid p) = with_share sid "noop"
      /\ forall user_id chat_id w,
           button_callback_handler env user_id chat_id
             (callback_data (page_button p pfx sid p)) w
           = emit (Answer AlertNone) w).
Proof.
  intros Hp kb s e. split.
  { intros ->. assert (p = 1) as -> by lia. reflexivity. }
  intros Htp.
  assert (page_range p tp = (s, e)) as Hrange.
  { destruct (page_range_spec p tp Hp Htp) as (s' & e' & -> & Hs & He).
    f_equal; subst s e; lia. }
  assert (Py.range s (e + 1) = seqZ s (e - s + 1)) as Hrow.
  { unfold Py.range. f_equal. lia. }
  assert (page_number_controls kb = page_button p pfx sid <$> seqZ s (e - s + 1))
    as Hnumbers.
  { subst kb. unfold page_number_controls. rewrite keyboard_controls by done.
    rewrite Hrange. cbn [fst snd]. rewrite Hrow, List.filter_app.
    rewrite page_row_all_numbers.
    by destruct (1 <? p), (p <? tp); cbn; rewrite app_nil_r. }
  split.
  { subst kb. unfold create_pagination_keyboard.
    destruct (Z.ltb_spec 1 tp); [|lia]. rewrite Hrange, Hrow.
    by destruct (1 <? p), (p <? tp). }
  split; [exact Hnumbers|]. split.
  { rewrite Hnumbers, length_fmap, length_seqZ. subst s e. lia. }
  split; [subst s e; lia|]. split; [subst s e; lia|].
  split; [|split; [|split; [|split]]];
    try (subst kb; rewrite controls_with_nav by (unfold nav_text; auto);
         by destruct (1 <? p), (p <? tp)).
  split.
  { rewrite Hnumbers. apply list_elem_of_fmap. exists p. split; [done|].
    apply elem_of_seqZ. subst s e. lia. }
  split.
  { simpl. by rewrite Z.eqb_refl. }
  intros user_id chat_id w. simpl callback_data. rewrite Z.eqb_refl.
  apply noop_does_nothing.
Qed.

End Keyboard.

(** ** The gate *)

Section Gate.

Variable env : Env.

(** C6: when the membership call raises, whatever the error and
    whoever the user, [is_user_in_group] answers false. *)
Theorem gate_failure_means_not_authorized (user_id : Z) (w : World) (e : Exn) :
  get_chat_member env (now w) user_id = Raise e ->
  (is_user_in_group env user_id w).1 = false.
Proof. intros Hraise. unfold is_user_in_group. simpl. by rewrite Hraise. Qed.

(** A handler behind the decorator does not run when the gate says no. *)
Lemma require_group_membership_denied func user_id chat_id callback_query w :
  (is_user_in_group env user_id w).1 = false ->
  exists w0,
    (is_user_in_group env user_id w).2 = w0
    /\ require_group_membership env func (Some user_id) chat_id callback_query w
       = emit (if callback_query then Answer AlertRestricted
               else Send (ToChat chat_id) MsgRestricted) w0.
Proof.
  intros Hno. unfold require_group_membership.
  destruct (is_user_in_group env user_id w) as [ok w0]. simpl in Hno. subst ok.
  exists w0. split; [done|]. by destruct callback_query.
Qed.

End Gate.

(** ** The share registry *)

Section Registry.

Variable env : Env.

Lemma split_zero sep s : Py.split sep (Some 0%nat) s = [s].
Proof. induction s as [|c s IH]; simpl; [done|]. by rewrite IH. Qed.

(** The callback data of a delete button is read back as it was
    written (lines 345 and 380). *)
Lemma split_delete_data sid p :
  string_forall (not_char ":") sid = true ->
  Py.split ":" (Some 2%nat) ("delete:" +:+ sid +:+ ":" +:+ p) = ["delete"; sid; p].
Proof.
  intros Hsid.
  change ("delete:" +:+ sid +:+ ":" +:+ p)
    with ("delete" +:+ String ":" (sid +:+ String ":" p)).
  rewrite split_app by done. cbn [fmap option_fmap option_map Nat.pred].
  rewrite split_app by done. cbn [fmap option_fmap option_map Nat.pred].
  by rewrite split_zero.
Qed.

(** C3, as amended: a delete request for a record of another uploader
    leaves the registry as it was and retracts nothing, whatever the
    storage does.  When the registry can be read the request is
    answered with the permission alert and nothing else happens: the
    world is the one before but for the two answers to the query.
    When the read raises, the handler of lines 436-438 logs the error
    and replies with the internal-error text instead: no permission
    alert is given then. *)
Theorem delete_by_non_owner_is_forbidden
    (requester chat_id : Z) (sid : string) (page : Z) (row : FileRow) (w : World) :
  string_forall (not_char ":") sid = true ->
  lookup_row sid (files w) = Some row ->
  uploader_id row <> requester ->
  let w' := button_callback_handler env requester chat_id
              ("delete:" +:+ sid +:+ ":" +:+ Py.str page) w in
  w' = (if db_fault env (now w) OpSelect
        then emit (Send (ToChat chat_id) MsgDeleteError)
               (emit (Log ERROR) (emit (Answer AlertNone) w))
        else emit (Answer AlertForbidden) (emit (Answer AlertNone) w))
  /\ files w' = files w
  /\ lookup_row sid (files w') = Some row
  /\ (forall from ids, Retracted from ids ∉ drop (length (trace w)) (trace w')).
Proof.
  intros Hsid Hrow Hne w'.
  assert (w' = (if db_fault env (now w) OpSelect
                then emit (Send (ToChat chat_id) MsgDeleteError)
                       (emit (Log ERROR) (emit (Answer AlertNone) w))
                else emit (Answer AlertForbidden) (emit (Answer AlertNone) w)))
    as Hw'.
  { subst w'. unfold button_callback_handler.
    rewrite split_delete_data by done. cbn -[delete_share Py.int Py.str].
    rewrite int_str. unfold delete_share. cbn [now emit files].
    destruct (db_fault env (now w) OpSelect); [done|].
    rewrite Hrow. by destruct (Z.eqb_spec (uploader_id row) requester). }
  assert (files w' = files w) as Hfiles.
  { rewrite Hw'. by destruct (db_fault env (now w) OpSelect). }
  split; [done|]. split; [done|]. split; [by rewrite Hfiles|].
  intros from ids Hin. rewrite Hw' in Hin.
  destruct (db_fault env (now w) OpSelect); cbn [trace emit] in Hin;
    rewrite <- !app_assoc, drop_app_length in Hin;
    repeat (apply elem_of_cons in Hin as [Hin|Hin]; [discriminate Hin|]);
    by apply elem_of_nil in Hin.
Qed.

End Registry.

(** ** Upload sessions *)

Section Sessions.

Variable env : Env.

Lemma ud_set_ud user_id d w : ud user_id (set_ud user_id d w) = d.
Proof. unfold ud, set_ud. simpl. by rewrite lookup_insert_eq. Qed.

Lemma ud_emit user_id e w : ud user_id (emit e w) = ud user_id w.
Proof. reflexivity. Qed.

(** C4, as amended: when the row cannot be written (the storage raises,
    or the token is already taken) the user is shown the error asking
    to try again later, no row is added, and the session is ended all
    the same: its item references are removed from the session. *)
Theorem finish_upload_persist_failure
    (user_id chat_id : Z) (ids : list Z) (w : World) :
  session_message_ids (ud user_id w) = Some ids -> ids <> [] ->
  db_fault env (now w) OpInsert = true
  \/ is_Some (lookup_row (Token.token_urlsafe (random_byte env (now w)) 8) (files w)) ->
  let w' := finish_upload_handler env (Some user_id) chat_id PRIVATE w in
  trace w' = trace w ++ [Send (ToChat chat_id) MsgGeneratingLink; Log ERROR;
                         Edit (ToChat chat_id) MsgLinkError;
                         Send (ToChat chat_id) MsgSessionEnded]
  /\ files w' = files w
  /\ ud user_id w' = ended_session
  /\ session_message_ids (ud user_id w') = None.
Proof.
  intros Hids Hne Hfail w'.
  assert (ud user_id w' = ended_session) as Hud.
  { subst w'. unfold finish_upload_handler. cbn [is_private ChatType_eqb negb].
    by rewrite ud_emit, !ud_set_ud. }
  split; [|split; [|split; [done|by rewrite Hud]]].
  - subst w'. unfold finish_upload_handler. cbn [is_private ChatType_eqb negb].
    rewrite !ud_emit, Hids. destruct ids as [|i ids]; [done|].
    cbn [default from_option id now set_ud set_user_data emit files].
    replace (db_fault env (now w) OpInsert || _) with true.
    + cbn. by rewrite <- !app_assoc.
    + symmetry. apply orb_true_iff. destruct Hfail as [->|Htaken]; [by left|right].
      by apply bool_decide_eq_true.
  - subst w'. unfold finish_upload_handler. cbn [is_private ChatType_eqb negb].
    rewrite !ud_emit, Hids. destruct ids as [|i ids]; [done|].
    cbn [default from_option id now set_ud set_user_data emit files].
    replace (db_fault env (now w) OpInsert || _) with true.
    + reflexivity.
    + symmetry. apply orb_true_iff. destruct Hfail as [->|Htaken]; [by left|right].
      by apply bool_decide_eq_true.
Qed.


End Sessions.

(** ** What the handlers do to the registry *)

Section RegistryInvariant.

Variable env : Env.

Ltac files_same :=
  repeat first
    [ reflexivity
    | progress cbn [files emit set_ud set_user_data set_now set_bot_data
                    set_store set_job_queue run_once remove_jobs_by_name]
    | case_match ].

Lemma files_show_shared_files_page user_id chat_id sid page w :
  files (show_shared_files_page env user_id chat_id sid page w) = files w.
Proof. unfold show_shared_files_page. files_same. Qed.

Lemma files_show_my_files_page user_id chat_id cb page w :
  files (show_my_files_page env user_id chat_id cb page w) = files w.
Proof. unfold show_my_files_page. files_same. Qed.

Lemma files_is_user_in_group user_id w :
  files (is_user_in_group env user_id w).2 = files w.
Proof. unfold is_user_in_group. files_same. Qed.

Lemma files_start user chat_id chat_type args w :
  files (start env user chat_id chat_type args w) = files w.
Proof.
  unfold start.
  repeat first
    [ reflexivity
    | progress cbn [files emit set_ud set_user_data]
    | rewrite files_show_shared_files_page
    | match goal with
      | |- context [is_user_in_group env ?u ?w0] =>
          pose proof (files_is_user_in_group u w0);
          destruct (is_user_in_group env u w0); simpl in *
      end
    | case_match ];
    done.
Qed.

Lemma files_retract_page_view user_id chat_id w :
  files (retract_page_view env user_id chat_id w) = files w.
Proof. unfold retract_page_view. files_same. Qed.

Lemma files_delete_share user_id chat_id sid page w :
  files (delete_share env user_id chat_id sid page w) = files w
  \/ files (delete_share env user_id chat_id sid page w) = delete_row sid (files w).
Proof.
  unfold delete_share.
  destruct (db_fault env (now w) OpSelect); [by left|].
  destruct (lookup_row sid (files w)) as [row|]; [|by left].
  destruct (negb (uploader_id row =? user_id)); [by left|].
  destruct (db_fault env (now w) OpDelete); [by left|].
  right.
  repeat first
    [ reflexivity
    | progress cbn [files emit set_files]
    | rewrite files_show_my_files_page
    | case_match ].
Qed.

Lemma files_button_callback_handler user_id chat_id data w :
  files (button_callback_handler env user_id chat_id data w) = files w
  \/ exists sid,
       files (button_callback_handler env user_id chat_id data w)
       = delete_row sid (files w).
Proof.
  unfold button_callback_handler.
  set (parts := Py.split ":" (Some 2%nat) data).
  set (action := default "" (head parts)).
  set (w1 := if String.eqb action "spage"
             then retract_page_view env user_id chat_id (emit (Answer AlertNone) w)
             else emit (Answer AlertNone) w).
  assert (files w1 = files w) as Hw1.
  { subst w1. destruct (String.eqb action "spage"); [|done].
    by rewrite files_retract_page_view. }
  rewrite <- Hw1. clearbody w1. clear Hw1.
  destruct (String.eqb action "page").
  { left. destruct (parts !! 1%nat ≫= Py.int); [|done].
    apply files_show_my_files_page. }
  destruct (String.eqb action "spage").
  { left. destruct (parts !! 2%nat); [|done].
    destruct (parts !! 1%nat ≫= Py.int); [|done].
    apply files_show_shared_files_page. }
  destruct (String.eqb action "delete").
  { destruct (parts !! 2%nat) as [p|]; [|by left].
    destruct (parts !! 1%nat) as [sid|]; [|by left].
    destruct (Py.int p) as [page|]; [|by left].
    destruct (files_delete_share user_id chat_id sid page w1) as [->| ->];
      [by left|right; by eexists]. }
  left. destruct (String.eqb action "info"); [|done].
  by destruct (parts !! 1%nat).
Qed.

Lemma files_require_group_membership (P : list FileRow -> list FileRow -> Prop)
    func user chat_id cb w :
  P (files w) (files w) ->
  (forall u w0, files w0 = files w -> P (files w) (files (func u w0))) ->
  P (files w) (files (require_group_membership env func user chat_id cb w)).
Proof.
  intros Hrefl Hfunc. unfold require_group_membership.
  destruct user as [user_id|]; [|done].
  pose proof (files_is_user_in_group user_id w) as Hg.
  destruct (is_user_in_group env user_id w) as [ok w0]. simpl in Hg.
  destruct ok; [by apply Hfunc|]. destruct cb; cbn [files emit]; by rewrite Hg.
Qed.

(** What [finish_upload_handler] writes: nothing, or one row that holds
    exactly the ids of the session, of which there is at least one. *)
Lemma finish_upload_row user chat_id chat_type w :
  let w' := finish_upload_handler env user chat_id chat_type w in
  files w' = files w
  \/ exists user_id row ids,
       user = Some user_id
       /\ files w' = row :: files w
       /\ session_message_ids (ud user_id w) = Some ids
       /\ ids <> []
       /\ item_refs row = Some ids
       /\ uploader_id row = user_id.
Proof.
  intros w'. subst w'. unfold finish_upload_handler.
  destruct user as [user_id|]; [|by left].
  destruct (negb (is_private chat_type)); [by left|].
  rewrite !ud_emit.
  destruct (session_message_ids (ud user_id w)) as [ids|] eqn:Hids; [|by left].
  destruct ids as [|i ids]; [by left|].
  cbn [default from_option id now set_ud set_user_data emit files].
  destruct (db_fault env (now w) OpInsert || _); [by left|].
  right. eexists user_id, _, (i :: ids).
  split; [done|]. split; [reflexivity|]. split; [done|]. split; [done|].
  split; [|done]. unfold item_refs. cbn [message_id].
  by apply ints_split_join.
Qed.

Lemma registry_step_finish user chat_id chat_type w :
  registry_step (files w) (files (finish_upload_handler env user chat_id chat_type w)).
Proof.
  destruct (finish_upload_row user chat_id chat_type w)
    as [->|(u & row & ids & _ & -> & _ & Hne & Hrefs & _)]; [by left|].
  right; left. exists row. split; [done|]. by exists ids.
Qed.

Lemma files_process_and_collect_files_job j w :
  files (process_and_collect_files_job env j w) = files w.
Proof. unfold process_and_collect_files_job. files_same. Qed.

Lemma files_file_handler_inner chat_id chat_type msg_id g user_id w :
  files (file_handler_inner chat_id chat_type msg_id g user_id w) = files w.
Proof. unfold file_handler_inner. files_same; by simplify_eq. Qed.

Lemma files_button_handler_inner chat_id chat_type user_id w :
  files (button_handler_inner chat_id chat_type user_id w) = files w.
Proof. unfold button_handler_inner. files_same. Qed.

Lemma files_text_message_handler user chat_id chat_type body w :
  files (text_message_handler env user chat_id chat_type body w) = files w.
Proof.
  unfold text_message_handler.
  repeat first [ reflexivity | rewrite files_start | case_match ].
Qed.

Lemma registry_step_dispatch u w :
  registry_step (files w) (files (dispatch env u w)).
Proof.
  unfold dispatch. destruct (content u) as [cmd args|body|kind msg_id g|data].
  - repeat case_match; try by left.
    + left. apply files_start.
    + left. unfold help_command. by repeat case_match.
    + unfold cancel_command. repeat case_match; try by left.
      match goal with
      | |- registry_step _ (files (finish_upload_handler _ ?a ?b ?c ?w0)) =>
          change (files w) with (files w0); apply registry_step_finish
      end.
    + unfold my_files_command. apply files_require_group_membership; [by left|].
      intros u0 w0 Hw0. left. unfold my_files_command_inner.
      case_match; [by rewrite <- Hw0|]. by rewrite files_show_my_files_page.
  - repeat case_match.
    + unfold button_handler. apply files_require_group_membership; [by left|].
      intros u0 w0 Hw0. left. by rewrite files_button_handler_inner.
    + apply registry_step_finish.
    + left. apply files_text_message_handler.
  - assert (registry_step (files w)
              (files (file_handler env (effective_user u) (effective_chat u)
                        (chat_type u) msg_id g w))) as Hfile.
    { unfold file_handler. apply files_require_group_membership; [by left|].
      intros u0 w0 Hw0. left. by rewrite files_file_handler_inner. }
    repeat case_match; done || by left.
  - destruct (effective_user u) as [user_id|]; [|by left].
    destruct (files_button_callback_handler user_id (effective_chat u) data w)
      as [->|[sid ->]]; [by left|].
    right; right. by exists sid.
Qed.

Lemma files_run_due t q w : files (run_due env t q w) = files w.
Proof.
  revert w. induction q as [|j q IH]; intros w; simpl; [done|].
  case_match.
  - by rewrite IH, files_process_and_collect_files_job.
  - cbn. apply IH.
Qed.

Lemma files_advance t w : files (advance env t w) = files w.
Proof. unfold advance. case_match; [|done]. cbn. apply files_run_due. Qed.

Lemma well_stored_step f f' :
  registry_step f f' -> Forall well_stored f -> Forall well_stored f'.
Proof.
  intros [->|[(row & -> & Hrow)|(sid & ->)]] Hall; [done|by constructor|].
  unfold delete_row. apply Forall_forall. intros r [Hr _]%list_elem_of_In%filter_In.
  rewrite Forall_forall in Hall. by apply Hall, list_elem_of_In.
Qed.

Lemma well_stored_run events w :
  Forall well_stored (files w) -> Forall well_stored (files (run env w events)).
Proof.
  revert w. induction events as [|[t u] events IH]; intros w Hw; [done|].
  apply IH. unfold deliver. cbn [fst snd].
  eapply well_stored_step; [apply registry_step_dispatch|].
  by rewrite files_advance.
Qed.

(** C10: finishing an upload writes a row only from a session that
    holds at least one item reference.  With an empty session the user
    is told that nothing was uploaded and the registry is as before;
    a row that is written holds exactly the ids of the session; and
    through any sequence of updates and timers every row of the
    registry keeps a non-empty list of item references. *)
Theorem share_records_are_never_empty :
  (forall user_id chat_id w,
      default [] (session_message_ids (ud user_id w)) = [] ->
      let w' := finish_upload_handler env (Some user_id) chat_id PRIVATE w in
      files w' = files w
      /\ trace w' = trace w ++ [Send (ToChat chat_id) MsgGeneratingLink;
                               Edit (ToChat chat_id) MsgNothingUploaded;
                               Send (ToChat chat_id) MsgSessionEnded])
  /\ (forall user chat_id chat_type w,
        let w' := finish_upload_handler env user chat_id chat_type w in
        files w' = files w
        \/ exists user_id row ids,
             user = Some user_id
             /\ files w' = row :: files w
             /\ session_message_ids (ud user_id w) = Some ids
             /\ ids <> []
             /\ item_refs row = Some ids
             /\ uploader_id row = user_id)
  /\ (forall w events,
        Forall well_stored (files w) ->
        Forall well_stored (files (run env w events))).
Proof.
  split; [|split].
  - intros user_id chat_id w Hempty w'. subst w'. unfold finish_upload_handler.
    cbn [is_private ChatType_eqb negb]. rewrite !ud_emit, Hempty.
    cbn. by rewrite <- !app_assoc.
  - apply finish_upload_row.
  - intros w events. apply well_stored_run.
Qed.

End RegistryInvariant.

(** ** Share links *)

Section ShareLinks.

Variable env : Env.

Lemma sextet_token_char (i : N) : token_char (Token.sextet i) = true.
Proof.
  unfold Token.sextet.
  assert (Forall (fun c => token_char c = true)
            (list_ascii_of_string Token.alphabet)) as Hall.
  { repeat constructor. }
  destruct (list_ascii_of_string Token.alphabet !! N.to_nat (i `mod` 64)%N)
    as [c|] eqn:Hc.
  - simpl. by eapply Forall_lookup_1 in Hall.
  - apply lookup_ge_None in Hc. change (64 <= N.to_nat (i `mod` 64))%nat in Hc.
    pose proof (N.mod_lt i 64 ltac:(lia)). lia.
Qed.

Lemma token_char_not_pad c : token_char c = true -> Ascii.eqb c "=" = false.
Proof. destruct c as [[] [] [] [] [] [] [] []]; (done || discriminate). Qed.

Lemma rstrip_unpadded s :
  string_forall token_char s = true -> Py.rstrip "=" s = s.
Proof.
  induction s as [|c s IH]; simpl; [done|].
  intros [Hc Hs]%andb_true_iff. by rewrite IH, (token_char_not_pad c Hc).
Qed.

Lemma rstrip_padded s :
  string_forall token_char s = true -> Py.rstrip "=" (s +:+ "=") = s.
Proof.
  induction s as [|c s IH]; simpl; [done|].
  intros [Hc Hs]%andb_true_iff. by rewrite IH, (token_char_not_pad c Hc).
Qed.

(** A token of 8 random bytes: 11 characters of the URL-safe alphabet. *)
Lemma token_urlsafe_8 (random : nat -> Byte.byte) :
  string_forall token_char (Token.token_urlsafe random 8) = true
  /\ String.length (Token.token_urlsafe random 8) = 11%nat.
Proof.
  unfold Token.token_urlsafe, Token.token_bytes.
  cbn [seq fmap list_fmap Token.urlsafe_b64encode].
  match goal with
  | |- context [Py.rstrip "=" ?enc] =>
      match enc with
      | String ?c0 (String ?c1 (String ?c2 (String ?c3 (String ?c4 (String ?c5
          (String ?c6 (String ?c7 (String ?c8 (String ?c9 (String ?c10 "=")))))))))) =>
          change enc with
            (String c0 (String c1 (String c2 (String c3 (String c4 (String c5
               (String c6 (String c7 (String c8 (String c9 (String c10 ""))))))))))
             +:+ "=")
      end
  end.
  rewrite rstrip_padded.
  - split; [|reflexivity]. cbn [string_forall]. by rewrite !sextet_token_char.
  - cbn [string_forall]. by rewrite !sextet_token_char.
Qed.

Lemma match_literal (l : string) (p : list Re.Item) (s : string) :
  Re.match_ (Re.literal l ++ p) (l +:+ s) = Re.match_ p s.
Proof.
  induction l as [|c l IH]; [done|].
  change (Re.literal (String c l) ++ p) with (Re.Chr c :: (Re.literal l ++ p)).
  change (String c l +:+ s) with (String c (l +:+ s)).
  cbn [Re.match_]. by rewrite Ascii.eqb_refl.
Qed.

(** A group of a repeated class takes a whole run of the class when
    the text ends there. *)
Lemma match_group_plus (cls : ascii -> bool) (tok : string) :
  string_forall cls tok = true -> tok <> "" ->
  Re.match_ [Re.GroupPlus cls] tok = Some [tok].
Proof.
  induction tok as [|c tok IH]; [done|].
  intros [Hc Htok]%andb_true_iff _. cbn [Re.match_] in *. rewrite Hc.
  destruct tok as [|d tok]; [done|].
  specialize (IH Htok ltac:(done)).
  match type of IH with
  | match ?g with _ => _ end = _ => destruct g as [[cap r]|]; [|done]
  end.
  by simplify_eq.
Qed.

(** C9: the link made for a token of 8 random bytes and the user name
    of the bot is recognised by the pattern of the text handler, which
    extracts the token as it was; the text handler then hands exactly
    this token to [start]. *)
Theorem share_link_round_trip (random : nat -> Byte.byte) (username : string) :
  valid_username username ->
  let token := Token.token_urlsafe random 8 in
  Re.match_ (share_link_pattern username) (share_link username token)
  = Some [token]
  /\ (bot_username env = username ->
      forall user_id chat_id w,
        text_message_handler env (Some user_id) chat_id PRIVATE
          (share_link username token) w
        = start env (Some user_id) chat_id PRIVATE [token] w).
Proof.
  intros _ token.
  assert (Re.match_ (share_link_pattern username) (share_link username token)
          = Some [token]) as Hmatch.
  { destruct (token_urlsafe_8 random) as [Hchars Hlen]. fold token in Hchars, Hlen.
    unfold share_link_pattern, share_link.
    change ("https://t.me/" +:+ username +:+ "?start=" +:+ token)
      with ("http" +:+ String "s" ("://t.me/" +:+ username +:+ "?start=" +:+ token)).
    rewrite match_literal. cbn [app Re.match_]. rewrite Ascii.eqb_refl.
    rewrite !match_literal. rewrite match_group_plus; [done|done|].
    by destruct token. }
  split; [done|]. intros Hname user_id chat_id w.
  unfold text_message_handler. cbn [ChatType_eqb is_private negb].
  by rewrite Hname, Hmatch.
Qed.

End ShareLinks.

(** ** Retrieval and the gate *)

Section Retrieval.

Variable env : Env.

Lemma gate_calls_snoc tr e :
  (forall u, e <> GateCall u) -> gate_calls (tr ++ [e]) = gate_calls tr.
Proof.
  intros He. unfold gate_calls. rewrite omap_app. cbn.
  destruct e; try (by rewrite app_nil_r). by destruct (He user_id).
Qed.

Ltac gate_same :=
  repeat first
    [ reflexivity
    | progress cbn [trace emit set_ud set_user_data set_files]
    | rewrite gate_calls_snoc by done
    | case_match ].

Lemma gate_calls_show_shared_files_page user_id chat_id sid page w :
  gate_calls (trace (show_shared_files_page env user_id chat_id sid page w))
  = gate_calls (trace w).
Proof. unfold show_shared_files_page. gate_same. Qed.

Lemma gate_calls_show_my_files_page user_id chat_id cb page w :
  gate_calls (trace (show_my_files_page env user_id chat_id cb page w))
  = gate_calls (trace w).
Proof. unfold show_my_files_page. gate_same. Qed.

Lemma gate_calls_retract_page_view user_id chat_id w :
  gate_calls (trace (retract_page_view env user_id chat_id w))
  = gate_calls (trace w).
Proof. unfold retract_page_view. gate_same. Qed.

Lemma gate_calls_delete_share user_id chat_id sid page w :
  gate_calls (trace (delete_share env user_id chat_id sid page w))
  = gate_calls (trace w).
Proof.
  unfold delete_share.
  repeat first
    [ reflexivity
    | progress cbn [trace emit set_ud set_user_data set_files]
    | rewrite gate_calls_snoc by done
    | rewrite gate_calls_show_my_files_page
    | case_match ].
Qed.

(** No action of the callback handler asks the gate: neither the page
    navigation of a share nor any other button. *)
Lemma callback_never_asks_the_gate user_id chat_id data w :
  gate_calls (trace (button_callback_handler env user_id chat_id data w))
  = gate_calls (trace w).
Proof.
  unfold button_callback_handler.
  set (parts := Py.split ":" (Some 2%nat) data).
  set (action := default "" (head parts)).
  set (w1 := if String.eqb action "spage"
             then retract_page_view env user_id chat_id (emit (Answer AlertNone) w)
             else emit (Answer AlertNone) w).
  assert (gate_calls (trace w1) = gate_calls (trace w)) as Hw1.
  { subst w1. destruct (String.eqb action "spage").
    - rewrite gate_calls_retract_page_view. cbn. by rewrite gate_calls_snoc.
    - cbn. by rewrite gate_calls_snoc. }
  rewrite <- Hw1. clearbody w1. clear Hw1.
  repeat first
    [ reflexivity
    | progress cbn [trace emit]
    | rewrite gate_calls_snoc by done
    | rewrite gate_calls_show_my_files_page
    | rewrite gate_calls_show_shared_files_page
    | rewrite gate_calls_delete_share
    | case_match ].
Qed.

End Retrieval.

(** C5 fails on the code.  User 7 has left the group: [/start tok] is
    refused after the gate was asked, but the page button of the same
    share, [spage:2:tok], delivers the items of page 2 and the gate is
    not asked at all. *)
Theorem page_navigation_skips_the_gate :
  let env := demo_env storage_up in
  (is_user_in_group env 7 shared_world).1 = false
  /\ trace (start env (Some 7) 70 PRIVATE ["tok"] shared_world)
     = [GateCall 7;
        Send (ToChat 70) (MsgAccessRestricted "https://t.me/share_bot?start=tok")]
  /\ (exists panel,
        trace (button_callback_handler env 7 70 "spage:2:tok" shared_world)
        = [Answer AlertNone; Copied 70 [111]; Sleep 3; Send (ToChat 70) panel])
  /\ gate_calls (trace (button_callback_handler env 7 70 "spage:2:tok" shared_world))
     = [].
Proof.
  split; [reflexivity|]. split; [reflexivity|]. split.
  - eexists. vm_compute. reflexivity.
  - reflexivity.
Qed.

(** ** The debounced aggregator *)

Section AtOnce.

Variable env : Env.
Variable lat : Delays.



End AtOnce.

Section TimedDebounce.

Variable env : Env.
Variable lat : Delays.
Variables (user_id chat_id : Z) (group : string).
Hypothesis group_named : group <> "".

Lemma wait_nonneg d : (0 <= wait d)%Q.
Proof.
  unfold wait. destruct (Qle_bool 0 d) eqn:H; [by apply Qle_bool_iff|apply Qle_refl].
Qed.

Lemma later_r t u : (t <= u)%Q -> later t u = u.
Proof. intros H. unfold later. by apply Qle_bool_iff in H as ->. Qed.

Lemma later_bounds t u : (t <= later t u)%Q /\ (u <= later t u)%Q.
Proof.
  unfold later. destruct (Qle_bool t u) eqn:H.
  - apply Qle_bool_iff in H. split; [done|apply Qle_refl].
  - split; [apply Qle_refl|]. apply Qlt_le_weak, Qnot_le_lt.
    intros H'. apply Qle_bool_iff in H'. congruence.
Qed.

Lemma Qle_bool_false a b : (b < a)%Q -> Qle_bool a b = false.
Proof.
  intros H. destruct (Qle_bool a b) eqn:E; [|done].
  apply Qle_bool_iff in E. lra.
Qed.

Lemma group_truthy : Py.truthy (Some group) = true.
Proof. unfold Py.truthy. by destruct (String.eqb_spec group ""). Qed.

Lemma drains_of_emit e w :
  drains_of group (trace (emit e w))
  = drains_of group (trace w)
    ++ match e with
       | JobRun (Some n) _ _ batch => if String.eqb n group then [batch] else []
       | _ => []
       end.
Proof.
  cbn [trace emit]. unfold drains_of. rewrite omap_app. f_equal. cbn.
  destruct e; try done. destruct job_name as [n|]; [|done].
  by destruct (String.eqb n group).
Qed.

(** A further item of the group is taken and passes the gate in time:
    it joins the buffer and the timer is armed anew. *)
Lemma item_in_time w0 armed ms t msg others s :
  collecting_at user_id chat_id group w0 armed ms s ->
  inbox s = (t, album_item user_id chat_id group msg) :: others ->
  member_at env user_id (later armed t) ->
  (gated_at lat user_id armed t < armed + 2)%Q ->
  exists s1 s2,
    step env lat s = Some s1 /\ step env lat s1 = Some s2
    /\ collecting_at user_id chat_id group w0 (gated_at lat user_id armed t)
         (ms ++ [msg]) s2
    /\ inbox s2 = others.
Proof.
  intros (Hh & Hr & Hnow & Hst & Hud & Hdr & Hms & cell & Hq & Hbd & Hcell) Hin
    (status & Hgate & Hmember) Hlt.
  destruct s as [w h i r]. cbn [handling running world inbox] in *. subst h r i.
  pose proof (later_bounds armed t) as [Hl1 Hl2].
  pose proof (wait_nonneg (gate_delay lat (later armed t) user_id)) as Hw.
  unfold gated_at in *.
  set (start := later armed t) in *.
  set (b := (start + wait (gate_delay lat start user_id))%Q) in *.
  assert ((start <= b)%Q) as Hsb by (subst b; lra).
  eexists _, _. split.
  { unfold step, candidates. cbn [world handling inbox running]. rewrite Hq, Hnow.
    cbn [soonest fire_at pending app fst]. fold start.
    rewrite (Qle_bool_false (armed + 2) start) by lra.
    unfold happen. cbn [world]. rewrite Hnow. fold start.
    rewrite (later_r armed start) by done.
    unfold file_handler_call, album_item. cbn [file_user now emit set_now].
    rewrite Hgate. fold b. reflexivity. }
  split.
  { unfold step, candidates. cbn [world handling inbox running job_queue emit set_now].
    rewrite Hq. cbn [soonest fire_at pending app fst].
    rewrite (Qle_bool_false (armed + 2) b) by lra.
    unfold happen. cbn [world now emit set_now].
    rewrite (later_r start b) by done.
    unfold resume. rewrite Hmember. unfold file_handler_body.
    cbn [file_chat_type file_chat file_message_id file_media_group_id
         is_private ChatType_eqb negb].
    change (ud user_id (set_now b (emit (GateCall user_id) (set_now start w))))
      with (ud user_id w).
    rewrite Hst. rewrite bool_decide_eq_true_2 by done. cbn [negb].
    rewrite group_truthy. cbn [bot_data emit set_now]. rewrite Hbd.
    cbn [store emit set_now]. rewrite Hcell. cbn [default from_option id].
    rewrite bool_decide_eq_false_2 by done. reflexivity. }
  split; [|reflexivity].
  unfold collecting_at, set_timer, run_once, remove_jobs_by_name.
  cbn [handling running world now set_job_queue set_store emit set_now
       user_data trace job_queue bot_data store].
  split; [done|]. split; [done|]. split; [done|].
  split; [exact Hst|]. split; [exact Hud|].
  split.
  { change (drains_of group (trace (emit (GateCall user_id) w)) = drains_of group (trace w0)).
    rewrite drains_of_emit, app_nil_r. exact Hdr. }
  split; [by destruct ms|].
  exists cell. split; [|split; [exact Hbd|]].
  - rewrite Hq. cbn [List.filter named pending name negb].
    rewrite String.eqb_refl. cbn [negb enqueue]. reflexivity.
  - apply list_lookup_insert_eq. by eapply lookup_lt_Some.
Qed.

(** The first item of a group: the gate, the buffer, the reply, the
    timer. *)
Lemma first_item w0 t msg others :
  state (ud user_id w0) = Some "awaiting_file" ->
  bot_data w0 !! group = None ->
  job_queue w0 = [] ->
  member_at env user_id (later (now w0) t) ->
  exists s,
    settle env lat 3
      (arriving w0 ((t, album_item user_id chat_id group msg) :: others)) = s
    /\ collecting_at user_id chat_id group w0
         (first_set lat user_id chat_id (now w0) t) [msg] s
    /\ inbox s = others.
Proof.
  intros Hst Hbd Hq (status & Hgate & Hmember).
  unfold first_set, gated_at.
  set (start := later (now w0) t) in *.
  set (b := (start + wait (gate_delay lat start user_id))%Q).
  set (c := (b + wait (reply_delay lat b chat_id))%Q).
  pose proof (later_bounds (now w0) t) as [Hl1 Hl2]. fold start in Hl1, Hl2.
  pose proof (wait_nonneg (gate_delay lat start user_id)) as Hw.
  pose proof (wait_nonneg (reply_delay lat b chat_id)) as Hw'.
  assert ((start <= b)%Q) as Hsb by (subst b; lra).
  assert ((b <= c)%Q) as Hbc by (subst c; lra).
  eexists. split.
  { unfold settle, arriving.
    (* the update is taken *)
    unfold step at 1, candidates. cbn [world handling inbox running]. rewrite Hq.
    cbn [soonest app fst]. fold start.
    unfold happen. cbn [world]. rewrite (later_r (now w0) start) by done.
    unfold file_handler_call, album_item. cbn [file_user now emit set_now].
    rewrite Hgate. fold b.
    (* the gate answers *)
    unfold step at 1, candidates.
    cbn [world handling inbox running job_queue emit set_now]. rewrite Hq.
    cbn [soonest app fst].
    unfold happen. cbn [world now emit set_now].
    rewrite (later_r start b) by done.
    unfold resume. rewrite Hmember. unfold file_handler_body.
    cbn [file_chat_type file_chat file_message_id file_media_group_id
         is_private ChatType_eqb negb].
    change (ud user_id (set_now b (emit (GateCall user_id) (set_now start w0))))
      with (ud user_id w0).
    rewrite Hst. rewrite bool_decide_eq_true_2 by done. cbn [negb].
    rewrite group_truthy. cbn [bot_data emit set_now]. rewrite Hbd.
    cbn [store set_bot_data set_store emit set_now].
    rewrite lookup_app_r by done. rewrite Nat.sub_diag.
    cbn [lookup list_lookup default from_option id].
    rewrite bool_decide_eq_true_2 by done.
    unfold await_reply. cbn [now emit set_store set_bot_data set_now]. fold c.
    (* the reply is through *)
    unfold step at 1, candidates.
    cbn [world handling inbox running job_queue emit set_now set_store set_bot_data].
    rewrite Hq. cbn [soonest app fst].
    unfold happen. cbn [world now emit set_now set_store set_bot_data].
    rewrite (later_r b c) by done.
    unfold resume. reflexivity. }
  split; [|reflexivity].
  unfold collecting_at, set_timer, run_once, remove_jobs_by_name.
  cbn [handling running world now set_job_queue set_store set_bot_data emit set_now
       user_data trace job_queue bot_data store].
  split; [done|]. split; [done|]. split; [done|].
  split; [exact Hst|]. split; [done|].
  split.
  { rewrite <- !app_assoc. unfold drains_of. rewrite omap_app. cbn. by rewrite app_nil_r. }
  split; [done|].
  exists (length (store w0)). split; [|split].
  - rewrite Hq. reflexivity.
  - apply lookup_insert_eq.
  - rewrite list_lookup_insert_eq; [done|]. rewrite length_app. cbn. lia.
Qed.

Lemma settle_idle n s : step env lat s = None -> settle env lat n s = s.
Proof. intros H. destruct n; [done|]. cbn. by rewrite H. Qed.

Lemma settle_add n m s :
  settle env lat (n + m) s = settle env lat m (settle env lat n s).
Proof.
  revert s. induction n as [|n IH]; intros s; [done|].
  cbn [Nat.add settle]. destruct (step env lat s) as [s'|] eqn:Hs; [apply IH|].
  by rewrite settle_idle.
Qed.

(** The items that follow, each in time. *)
Lemma items_in_time w0 rest :
  forall armed ms s,
    collecting_at user_id chat_id group w0 armed ms s ->
    inbox s = album_items user_id chat_id group rest ->
    in_time env lat user_id armed rest ->
    exists s',
      settle env lat (2 * length rest) s = s'
      /\ collecting_at user_id chat_id group w0 (last_set lat user_id armed rest)
           (ms ++ (snd <$> rest)) s'
      /\ inbox s' = [].
Proof.
  induction rest as [|[t msg] rest IH]; intros armed ms s Hc Hin Htime.
  { exists s. cbn [length Nat.mul settle last_set foldl fmap list_fmap].
    rewrite app_nil_r. split; [done|]. split; [exact Hc|exact Hin]. }
  cbn [in_time fst] in Htime. destruct Htime as (Hgate & Hlt & Htime).
  cbn [album_items fmap list_fmap fst snd] in Hin.
  destruct (item_in_time w0 armed ms t msg _ s Hc Hin Hgate Hlt)
    as (s1 & s2 & Hs1 & Hs2 & Hc2 & Hin2).
  destruct (IH _ _ s2 Hc2 Hin2 Htime) as (s' & Hs' & Hc' & Hin').
  exists s'. split; [|split; [|exact Hin']].
  - replace (2 * length ((t, msg) :: rest))%nat with (S (S (2 * length rest)))
      by (cbn [length]; lia).
    cbn [settle]. by rewrite Hs1, Hs2.
  - cbn [last_set foldl fmap list_fmap snd fst].
    rewrite <- app_assoc in Hc'. exact Hc'.
Qed.

(** The timer fires with nothing else going on: the buffer is relayed
    as one batch; when the relay has answered the references are in the
    session, the group entry is gone and nothing is left to happen. *)
Lemma timer_fires w0 armed ms s :
  collecting_at user_id chat_id group w0 armed ms s ->
  inbox s = [] ->
  let s' := settle env lat 3 s in
  step env lat s' = None
  /\ drains_of group (trace (world s')) = drains_of group (trace w0) ++ [ms]
  /\ bot_data (world s') !! group = None
  /\ job_queue (world s') = []
  /\ match forward_messages env (armed + 2)%Q chat_id ms with
     | Ok refs =>
         Forwarded chat_id ms refs ∈ trace (world s')
         /\ session_message_ids (ud user_id (world s'))
            = Some (default [] (session_message_ids (ud user_id w0)) ++ refs)
         /\ session_file_count (ud user_id (world s'))
            = Some (default 0 (session_file_count (ud user_id w0))
                    + Z.of_nat (length refs))
     | Raise _ =>
         user_data (world s') = user_data w0
         /\ Send (ToChat chat_id) MsgRelayWarning ∈ trace (world s')
     end.
Proof.
  intros (Hh & Hr & Hnow & Hst & Hud & Hdr & Hms & cell & Hq & Hbd & Hcell) Hin.
  destruct s as [w h i r]. cbn [handling running world inbox] in *. subst h r i.
  assert (exists d, user_data w !! user_id = Some d) as [d Hd].
  { unfold ud in Hst. destruct (user_data w !! user_id) as [d|]; [by exists d|done]. }
  assert (ud user_id w0 = d) as Hd0.
  { unfold ud. by rewrite <- Hud, Hd. }
  set (job := pending user_id chat_id group armed cell).
  set (f := (armed + 2)%Q).
  pose proof (wait_nonneg (relay_delay lat f chat_id ms)) as Hw.
  set (g := (f + wait (relay_delay lat f chat_id ms))%Q).
  assert ((armed <= f)%Q) as Hsf by (subst f; lra).
  assert ((f <= g)%Q) as Hfg by (subst g; lra).
  set (w1 := emit (JobRun (Some group) user_id chat_id ms)
               (set_job_queue [] (set_now f w))).
  assert (step env lat {| world := w; handling := None; inbox := []; running := [] |}
          = Some {| world := w1; handling := None; inbox := [];
                    running := [(g, RelayAnswer job ms
                                      (forward_messages env f chat_id ms))] |})
    as Hstep1.
  { unfold step, candidates. cbn [world handling inbox running]. rewrite Hq.
    cbn [soonest app fst fire_at pending]. fold f.
    unfold happen. cbn [world]. rewrite Hnow, (later_r armed f) by done.
    unfold job_call.
    cbn [pending job_chat_id job_user_id job_message_ids name store now
         set_job_queue set_now emit].
    rewrite Hcell. reflexivity. }
  assert (drains_of group (trace w1) = drains_of group (trace w0) ++ [ms]) as Hdr1.
  { subst w1. rewrite drains_of_emit, String.eqb_refl. cbn [trace set_job_queue set_now].
    by rewrite Hdr. }
  assert (job_finally job = fun w' =>
            if bool_decide (is_Some (bot_data w' !! group))
            then set_bot_data (delete group (bot_data w')) w' else w') as Hfin.
  { unfold job_finally, job. cbn [name pending]. by rewrite group_truthy. }
  cbn [settle]. rewrite Hstep1.
  destruct (forward_messages env f chat_id ms) as [refs|e] eqn:Hrelay.
  - set (w2 := set_bot_data (delete group (bot_data w))
                 (emit (Log INFO)
                    (set_ud user_id
                       (set_session (Some (default [] (session_message_ids d) ++ refs))
                          (Some (default 0 (session_file_count d)
                                 + Z.of_nat (length refs))) d)
                       (emit (Forwarded chat_id ms refs) (set_now g w1))))).
    assert (step env lat {| world := w1; handling := None; inbox := [];
                            running := [(g, RelayAnswer job ms (Ok refs))] |}
            = Some {| world := w2; handling := None; inbox := []; running := [] |})
      as Hstep2.
    { unfold step, candidates. cbn [world handling inbox running].
      change (job_queue w1) with (@nil Job). cbn [soonest app fst].
      unfold happen. cbn [world]. change (now w1) with f.
      rewrite (later_r f g) by done.
      unfold resume. cbn [job pending job_user_id job_chat_id].
      change (user_data (emit (Forwarded chat_id ms refs) (set_now g w1)))
        with (user_data w). rewrite Hd. rewrite Hfin.
      cbn [bot_data emit set_ud set_user_data set_now].
      change (bot_data w1) with (bot_data w).
      rewrite bool_decide_eq_true_2 by (by rewrite Hbd). reflexivity. }
    rewrite Hstep2.
    assert (step env lat {| world := w2; handling := None; inbox := []; running := [] |}
            = None) as Hstep3 by reflexivity.
    rewrite Hstep3. cbn [world].
    split; [exact Hstep3|]. split.
    { subst w2. cbn [trace set_bot_data]. rewrite drains_of_emit, app_nil_r.
      cbn [trace set_ud set_user_data]. rewrite drains_of_emit, app_nil_r.
      exact Hdr1. }
    split; [apply lookup_delete_eq|]. split; [reflexivity|].
    split.
    { subst w2. cbn [trace set_bot_data emit set_ud set_user_data set_now].
      apply elem_of_app. left. apply elem_of_app. right. apply elem_of_cons. by left. }
    rewrite Hd0. subst w2. unfold ud.
    cbn [user_data set_bot_data emit set_ud set_user_data].
    rewrite lookup_insert_eq. by split.
  - set (h := (g + wait (reply_delay lat g chat_id))%Q).
    pose proof (wait_nonneg (reply_delay lat g chat_id)) as Hw'.
    assert ((g <= h)%Q) as Hgh by (subst h; lra).
    set (w2 := emit (Send (ToChat chat_id) MsgRelayWarning)
                 (emit (Log ERROR) (set_now g w1))).
    assert (step env lat {| world := w1; handling := None; inbox := [];
                            running := [(g, RelayAnswer job ms (Raise e))] |}
            = Some {| world := w2; handling := None; inbox := [];
                      running := [(h, WarningSent job)] |})
      as Hstep2.
    { unfold step, candidates. cbn [world handling inbox running].
      change (job_queue w1) with (@nil Job). cbn [soonest app fst].
      unfold happen. cbn [world]. change (now w1) with f.
      by rewrite (later_r f g) by done. }
    rewrite Hstep2.
    set (w3 := set_bot_data (delete group (bot_data w)) (set_now h w2)).
    assert (step env lat {| world := w2; handling := None; inbox := [];
                            running := [(h, WarningSent job)] |}
            = Some {| world := w3; handling := None; inbox := []; running := [] |})
      as Hstep3.
    { unfold step, candidates. cbn [world handling inbox running].
      change (job_queue w2) with (@nil Job). cbn [soonest app fst].
      unfold happen. cbn [world]. change (now w2) with g.
      rewrite (later_r g h) by done.
      unfold resume. rewrite Hfin.
      change (bot_data (set_now h w2)) with (bot_data w).
      rewrite bool_decide_eq_true_2 by (by rewrite Hbd). reflexivity. }
    rewrite Hstep3. cbn [world].
    split; [reflexivity|]. split.
    { subst w3 w2. cbn [trace set_bot_data set_now].
      rewrite !drains_of_emit, !app_nil_r. exact Hdr1. }
    split; [apply lookup_delete_eq|]. split; [reflexivity|].
    split; [exact Hud|].
    subst w3 w2. cbn [trace set_bot_data emit set_now].
    apply elem_of_app. right. apply elem_of_cons. by left.
Qed.

(** The items of one media group arrive at an application that is
    doing nothing else, and every item after the first reaches line
    546 before the timer of the item before it fires: when the last
    handler is done the group is collecting, all the items are in its
    buffer in arrival order, and one timer is armed. *)
Lemma album_is_collected
    (w0 : World) (first : Time * Z) (rest : list (Time * Z)) :
  let items := first :: rest in
  let set1 := first_set lat user_id chat_id (now w0) first.1 in
  let s := settle env lat (3 + 2 * length rest)
             (arriving w0 (album_items user_id chat_id group items)) in
  state (ud user_id w0) = Some "awaiting_file" ->
  bot_data w0 !! group = None ->
  job_queue w0 = [] ->
  member_at env user_id (later (now w0) first.1) ->
  in_time env lat user_id set1 rest ->
  collecting_at user_id chat_id group w0 (last_set lat user_id set1 rest)
    (snd <$> items) s
  /\ inbox s = [].
Proof.
  intros items set1 s Hst Hbd Hq Hgate Htime.
  destruct first as [t1 m1]. cbn [fst] in *.
  destruct (first_item w0 t1 m1 (album_items user_id chat_id group rest)
              Hst Hbd Hq Hgate) as (s1 & Hs1 & Hc1 & Hin1).
  fold set1 in Hc1.
  destruct (items_in_time w0 rest set1 [m1] s1 Hc1 Hin1 Htime)
    as (s2 & Hs2 & Hc2 & Hin2).
  assert (s = s2) as ->; [|by split].
  subst s items. rewrite settle_add.
  change (album_items user_id chat_id group ((t1, m1) :: rest))
    with ((t1, album_item user_id chat_id group m1)
          :: album_items user_id chat_id group rest).
  by rewrite Hs1, Hs2.
Qed.

Lemma wait_id d : (0 <= d)%Q -> wait d = d.
Proof. intros H. unfold wait. by apply Qle_bool_iff in H as ->. Qed.

(** With a gate that takes the same time for every call, items less
    than two time units apart are in time. *)
Lemma steady_in_time (L : Q) rest :
  (forall t, gate_delay lat t user_id = L) ->
  (0 <= L)%Q -> (L < 2)%Q ->
  (forall t, member_at env user_id t) ->
  forall t0 armed,
    (t0 + L <= armed)%Q ->
    gaps_below 2 t0 (fst <$> rest) ->
    in_time env lat user_id armed rest.
Proof.
  intros Hsteady HL0 HL2 Hmember.
  induction rest as [|[t m] rest IH]; intros t0 armed Hset Hgaps; [done|].
  cbn [fmap list_fmap fst gaps_below] in Hgaps. destruct Hgaps as (Hle & Hlt & Hgaps).
  cbn [in_time fst]. unfold gated_at. rewrite Hsteady, (wait_id L) by done.
  pose proof (later_bounds armed t) as [Hl1 Hl2].
  split; [apply Hmember|]. split.
  - unfold later in *. destruct (Qle_bool armed t); lra.
  - apply (IH t); [lra|done].
Qed.

(** X13: an album left to its timer lands in the session.  The items
    of one media group arrive at an application that is doing nothing
    else; the sender passes the gate, and the handler of every item
    after the first reaches the timer (line 546) before the timer armed
    for the item before it fires.  Then the loop comes to rest, and
    exactly one drain of the group has run, with all the items in
    arrival order; the group entry and the timer are gone, and the
    references the relay gave are at the end of the session of the
    sender, the counter grown by their number (or, when the relay
    failed, the session is as it was and the sender was warned). *)
Theorem album_lands_in_the_session
    (w0 : World) (first : Time * Z) (rest : list (Time * Z)) (fuel : nat) :
  let items := first :: rest in
  let batch := snd <$> items in
  let set1 := first_set lat user_id chat_id (now w0) first.1 in
  let fired := (last_set lat user_id set1 rest + 2)%Q in
  let s := settle env lat fuel
             (arriving w0 (album_items user_id chat_id group items)) in
  state (ud user_id w0) = Some "awaiting_file" ->
  bot_data w0 !! group = None ->
  job_queue w0 = [] ->
  member_at env user_id (later (now w0) first.1) ->
  in_time env lat user_id set1 rest ->
  (2 * length items + 4 <= fuel)%nat ->
  step env lat s = None
  /\ drains_of group (trace (world s)) = drains_of group (trace w0) ++ [batch]
  /\ bot_data (world s) !! group = None
  /\ job_queue (world s) = []
  /\ match forward_messages env fired chat_id batch with
     | Ok refs =>
         Forwarded chat_id batch refs ∈ trace (world s)
         /\ session_message_ids (ud user_id (world s))
            = Some (default [] (session_message_ids (ud user_id w0)) ++ refs)
         /\ session_file_count (ud user_id (world s))
            = Some (default 0 (session_file_count (ud user_id w0))
                    + Z.of_nat (length refs))
     | Raise _ =>
         user_data (world s) = user_data w0
         /\ Send (ToChat chat_id) MsgRelayWarning ∈ trace (world s)
     end.
Proof.
  intros items batch set1 fired s Hst Hbd Hq Hgate Htime Hfuel.
  destruct (album_is_collected w0 first rest Hst Hbd Hq Hgate Htime) as [Hc Hin].
  pose proof (timer_fires w0 _ _ _ Hc Hin) as Hfire. cbv zeta in Hfire.
  subst s items. cbn [length] in Hfuel.
  replace fuel
    with ((3 + 2 * length rest) + (3 + (fuel - 2 * length rest - 6)))%nat by lia.
  rewrite settle_add, settle_add, settle_idle by apply Hfire.
  exact Hfire.
Qed.

(** X24: the debounce property when the gate takes the same time,
    less than the delay, for every call (replies may take any time):
    the items of one group, each less than two time units after the
    one before, are drained once, all together and in arrival order,
    and the loop comes to rest. *)
Theorem steady_gate_single_drain
    (L : Q) (w0 : World) (first : Time * Z) (rest : list (Time * Z)) (fuel : nat) :
  let items := first :: rest in
  let s := settle env lat fuel
             (arriving w0 (album_items user_id chat_id group items)) in
  (forall t, gate_delay lat t user_id = L) ->
  (0 <= L)%Q -> (L < 2)%Q ->
  (forall t, member_at env user_id t) ->
  state (ud user_id w0) = Some "awaiting_file" ->
  bot_data w0 !! group = None ->
  job_queue w0 = [] ->
  (now w0 <= first.1)%Q ->
  gaps_below 2 first.1 (fst <$> rest) ->
  (2 * length items + 4 <= fuel)%nat ->
  step env lat s = None
  /\ drains_of group (trace (world s)) = drains_of group (trace w0) ++ [snd <$> items].
Proof.
  intros items s Hsteady HL0 HL2 Hmember Hst Hbd Hq Hnow Hgaps Hfuel.
  assert (in_time env lat user_id
            (first_set lat user_id chat_id (now w0) first.1) rest) as Htime.
  { apply (steady_in_time L rest Hsteady HL0 HL2 Hmember first.1); [|done].
    unfold first_set, gated_at. rewrite Hsteady, (wait_id L) by done.
    pose proof (later_bounds (now w0) first.1) as [_ Hl].
    pose proof (wait_nonneg
                  (reply_delay lat (later (now w0) first.1 + L)%Q chat_id)) as Hw.
    lra. }
  destruct (album_is_collected w0 first rest Hst Hbd Hq (Hmember _) Htime)
    as [Hc Hin].
  destruct (timer_fires w0 _ _ _ Hc Hin) as (Hidle & Hdr & _).
  subst s items. cbn [length] in Hfuel.
  replace fuel
    with ((3 + 2 * length rest) + (3 + (fuel - 2 * length rest - 6)))%nat by lia.
  rewrite settle_add, settle_add, settle_idle by exact Hidle.
  by split.
Qed.

(** An item whose handler reaches the buffer after the timer has fired
    and before the relay has answered: it joins the list that is being
    relayed, and a new timer is armed for that list. *)
Lemma late_item_joins w0 armed ms t msg refs s :
  let f := (armed + 2)%Q in
  let g := (f + wait (relay_delay lat f chat_id ms))%Q in
  let b := gated_at lat user_id armed t in
  collecting_at user_id chat_id group w0 armed ms s ->
  inbox s = [(t, album_item user_id chat_id group msg)] ->
  member_at env user_id (later armed t) ->
  forward_messages env f chat_id ms = Ok refs ->
  (f < b)%Q -> (b < g)%Q ->
  exists job,
    job_user_id job = user_id /\ job_chat_id job = chat_id /\ name job = Some group
    /\ relaying_at user_id chat_id group w0 job g ms refs b (ms ++ [msg])
         (settle env lat 3 s).
Proof.
  intros f g b (Hh & Hr & Hnow & Hst & Hud & Hdr & Hms & cell & Hq & Hbd & Hcell) Hin
    (status & Hgate & Hmember) Hrelay Hfb Hbg.
  destruct s as [w h i r]. cbn [handling running world inbox] in *. subst h r i.
  exists (pending user_id chat_id group armed cell).
  split; [done|]. split; [done|]. split; [done|].
  pose proof (later_bounds armed t) as [Hl1 Hl2].
  pose proof (wait_nonneg (gate_delay lat (later armed t) user_id)) as Hw.
  unfold gated_at in b.
  set (start := later armed t) in *.
  assert ((start <= b)%Q) as Hsb by (subst b; lra).
  assert ((armed <= f)%Q) as Hsf by (subst f; lra).
  set (job := pending user_id chat_id group armed cell).
  assert (forall w', state (ud user_id w') = Some "awaiting_file" ->
            bot_data w' !! group = Some cell -> store w' !! cell = Some ms ->
            file_handler_body lat (album_item user_id chat_id group msg) user_id w'
            = (set_timer user_id chat_id group cell
                 (set_store (<[cell := ms ++ [msg]]> (store w')) w'), None)) as Hbody.
  { intros w' Hst' Hbd' Hcell'. unfold file_handler_body.
    cbn [album_item file_chat_type file_chat file_message_id file_media_group_id
         is_private ChatType_eqb negb].
    rewrite Hst', bool_decide_eq_true_2 by done. cbn [negb].
    rewrite group_truthy, Hbd', Hcell'. cbn [default from_option id].
    by rewrite bool_decide_eq_false_2 by done. }
  destruct (Qle_bool f start) eqn:Hfs.
  - (* the timer fires, then the update is taken *)
    apply Qle_bool_iff in Hfs.
    assert (later f t = start) as Hstart.
    { subst start. unfold later in *. destruct (Qle_bool armed t) eqn:E.
      - by apply Qle_bool_iff in Hfs as ->.
      - unfold f in Hfs. lra. }
    set (w1 := emit (JobRun (Some group) user_id chat_id ms)
                 (set_job_queue [] (set_now f w))).
    set (w2 := emit (GateCall user_id) (set_now start w1)).
    set (w3 := set_timer user_id chat_id group cell
                 (set_store (<[cell := ms ++ [msg]]> (store w)) (set_now b w2))).
    assert (settle env lat 3
              {| world := w; handling := None;
                 inbox := [(t, album_item user_id chat_id group msg)]; running := [] |}
            = {| world := w3; handling := None; inbox := [];
                 running := [(g, RelayAnswer job ms (Ok refs))] |}) as ->.
    { unfold settle.
      unfold step at 1, candidates. cbn [world handling inbox running]. rewrite Hq, Hnow.
      cbn [soonest app fst fire_at pending]. fold start f.
      apply Qle_bool_iff in Hfs as Hfs'. rewrite Hfs'.
      unfold happen. cbn [world]. rewrite Hnow, (later_r armed f) by done.
      unfold job_call.
      cbn [pending job_chat_id job_user_id job_message_ids name store now
           set_job_queue set_now emit].
      rewrite Hcell. cbn [default from_option id app]. rewrite Hrelay. fold g job w1.
      unfold step at 1, candidates. cbn [world handling inbox running].
      change (job_queue w1) with (@nil Job). change (now w1) with f.
      rewrite Hstart. cbn [soonest app fst].
      rewrite (Qle_bool_false g start) by lra.
      unfold happen. cbn [world]. change (now w1) with f.
      rewrite (later_r f start) by done.
      unfold file_handler_call. cbn [album_item file_user now emit set_now].
      rewrite Hgate. fold b w2.
      unfold step at 1, candidates. cbn [world handling inbox running].
      change (job_queue w2) with (@nil Job). cbn [soonest app fst].
      rewrite (Qle_bool_false g b) by lra.
      unfold happen. cbn [world]. change (now w2) with start.
      rewrite (later_r start b) by done.
      unfold resume. rewrite Hmember.
      rewrite (Hbody (set_now b w2)) by done. reflexivity. }
    unfold relaying_at. cbn [handling inbox running world].
    split; [done|]. split; [done|]. split; [done|]. split; [done|].
    split; [exact Hud|]. split.
    { change (trace w3) with (trace w2). subst w2 w1.
      rewrite drains_of_emit, app_nil_r. cbn [trace set_now].
      rewrite drains_of_emit, String.eqb_refl.
      cbn [trace set_now set_job_queue]. by rewrite Hdr. }
    exists cell. split; [done|]. split; [exact Hbd|].
    subst w3. unfold set_timer, run_once, remove_jobs_by_name.
    cbn [store set_job_queue set_store].
    apply list_lookup_insert_eq. by eapply lookup_lt_Some.
  - (* the update is taken, then the timer fires *)
    assert ((start < f)%Q) as Hsf'.
    { apply Qnot_le_lt. intros H. apply Qle_bool_iff in H. congruence. }
    set (w1 := emit (GateCall user_id) (set_now start w)).
    set (w2 := emit (JobRun (Some group) user_id chat_id ms)
                 (set_job_queue [] (set_now f w1))).
    set (w3 := set_timer user_id chat_id group cell
                 (set_store (<[cell := ms ++ [msg]]> (store w)) (set_now b w2))).
    assert (settle env lat 3
              {| world := w; handling := None;
                 inbox := [(t, album_item user_id chat_id group msg)]; running := [] |}
            = {| world := w3; handling := None; inbox := [];
                 running := [(g, RelayAnswer job ms (Ok refs))] |}) as ->.
    { unfold settle.
      unfold step at 1, candidates. cbn [world handling inbox running]. rewrite Hq, Hnow.
      cbn [soonest app fst fire_at pending]. fold start f. rewrite Hfs.
      unfold happen. cbn [world]. rewrite Hnow. fold start.
      rewrite (later_r armed start) by done.
      unfold file_handler_call. cbn [album_item file_user now emit set_now].
      rewrite Hgate. fold b w1.
      unfold step at 1, candidates. cbn [world handling inbox running].
      change (job_queue w1) with (job_queue w). rewrite Hq.
      cbn [soonest app fst fire_at pending]. fold f.
      assert (Qle_bool f b = true) as -> by (apply Qle_bool_iff; lra).
      unfold happen. cbn [world]. change (now w1) with start.
      rewrite (later_r start f) by lra.
      unfold job_call.
      cbn [pending job_chat_id job_user_id job_message_ids name now].
      change (store (set_job_queue [] (set_now f w1))) with (store w).
      rewrite Hcell. cbn [default from_option id app now emit set_job_queue set_now].
      rewrite Hrelay. fold g job w2.
      unfold step at 1, candidates. cbn [world handling inbox running].
      change (job_queue w2) with (@nil Job). cbn [soonest app fst].
      rewrite (Qle_bool_false g b) by lra.
      unfold happen. cbn [world]. change (now w2) with f.
      rewrite (later_r f b) by lra.
      unfold resume. rewrite Hmember.
      rewrite (Hbody (set_now b w2)) by done. reflexivity. }
    unfold relaying_at. cbn [handling inbox running world].
    split; [done|]. split; [done|]. split; [done|]. split; [done|].
    split; [exact Hud|]. split.
    { change (trace w3) with (trace w2). subst w2 w1.
      rewrite drains_of_emit, String.eqb_refl.
      cbn [trace set_now set_job_queue]. rewrite drains_of_emit, app_nil_r.
      cbn [trace set_now]. by rewrite Hdr. }
    exists cell. split; [done|]. split; [exact Hbd|].
    subst w3. unfold set_timer, run_once, remove_jobs_by_name.
    cbn [store set_job_queue set_store].
    apply list_lookup_insert_eq. by eapply lookup_lt_Some.
Qed.

(** The relay answers before the new timer fires; then the timer
    fires and the grown list is relayed as a whole. *)
Lemma relay_then_timer w0 job g ms refs armed ms' s :
  job_user_id job = user_id -> job_chat_id job = chat_id -> name job = Some group ->
  is_Some (user_data w0 !! user_id) ->
  relaying_at user_id chat_id group w0 job g ms refs armed ms' s ->
  (armed < g)%Q -> (g < armed + 2)%Q ->
  let s' := settle env lat 4 s in
  let old := default [] (session_message_ids (ud user_id w0)) in
  let count := default 0 (session_file_count (ud user_id w0)) in
  step env lat s' = None
  /\ drains_of group (trace (world s')) = drains_of group (trace w0) ++ [ms; ms']
  /\ Forwarded chat_id ms refs ∈ trace (world s')
  /\ bot_data (world s') !! group = None
  /\ job_queue (world s') = []
  /\ match forward_messages env (armed + 2)%Q chat_id ms' with
     | Ok refs' =>
         Forwarded chat_id ms' refs' ∈ trace (world s')
         /\ session_message_ids (ud user_id (world s')) = Some (old ++ refs ++ refs')
         /\ session_file_count (ud user_id (world s'))
            = Some (count + Z.of_nat (length refs) + Z.of_nat (length refs'))
     | Raise _ =>
         Send (ToChat chat_id) MsgRelayWarning ∈ trace (world s')
         /\ session_message_ids (ud user_id (world s')) = Some (old ++ refs)
         /\ session_file_count (ud user_id (world s'))
            = Some (count + Z.of_nat (length refs))
     end.
Proof.
  intros Hju Hjc Hjn [d Hd0] (Hh & Hin & Hr & Hnow & Hud & Hdr & cell & Hq & Hbd & Hcell)
    Hsg Hgf.
  destruct s as [w h i r]. cbn [handling running world inbox] in *. subst h r i.
  assert (user_data w !! user_id = Some d) as Hd by (by rewrite Hud).
  assert (ud user_id w0 = d) as -> by (unfold ud; by rewrite Hd0).
  set (f := (armed + 2)%Q) in *.
  pose proof (wait_nonneg (relay_delay lat f chat_id ms')) as Hw.
  set (g' := (f + wait (relay_delay lat f chat_id ms'))%Q).
  assert ((f <= g')%Q) as Hfg by (subst g'; lra).
  assert (job_finally job = fun w' =>
            if bool_decide (is_Some (bot_data w' !! group))
            then set_bot_data (delete group (bot_data w')) w' else w') as Hfin.
  { unfold job_finally. by rewrite Hjn, group_truthy. }
  set (job' := pending user_id chat_id group armed cell).
  assert (job_finally job' = job_finally job) as Hfin'.
  { unfold job_finally. by rewrite Hjn. }
  set (d1 := set_session (Some (default [] (session_message_ids d) ++ refs))
               (Some (default 0 (session_file_count d) + Z.of_nat (length refs))) d).
  set (w1 := set_bot_data (delete group (bot_data w))
               (emit (Log INFO)
                  (set_ud user_id d1 (emit (Forwarded chat_id ms refs) (set_now g w))))).
  assert (step env lat {| world := w; handling := None; inbox := [];
                          running := [(g, RelayAnswer job ms (Ok refs))] |}
          = Some {| world := w1; handling := None; inbox := []; running := [] |})
    as Hstep1.
  { unfold step, candidates. cbn [world handling inbox running]. rewrite Hq.
    cbn [soonest app fst fire_at pending]. fold f.
    rewrite (Qle_bool_false f g) by done.
    unfold happen. cbn [world]. rewrite Hnow, (later_r armed g) by lra.
    unfold resume. rewrite Hju, Hjc.
    change (user_data (emit (Forwarded chat_id ms refs) (set_now g w)))
      with (user_data w). rewrite Hd, Hfin.
    cbn [bot_data emit set_ud set_user_data set_now].
    rewrite bool_decide_eq_true_2 by (by rewrite Hbd). reflexivity. }
  set (w2 := emit (JobRun (Some group) user_id chat_id ms')
               (set_job_queue [] (set_now f w1))).
  assert (step env lat {| world := w1; handling := None; inbox := []; running := [] |}
          = Some {| world := w2; handling := None; inbox := [];
                    running := [(g', RelayAnswer job' ms'
                                       (forward_messages env f chat_id ms'))] |})
    as Hstep2.
  { unfold step, candidates. cbn [world handling inbox running].
    change (job_queue w1) with (job_queue w). rewrite Hq.
    cbn [soonest app fst fire_at pending]. fold f.
    unfold happen. cbn [world]. change (now w1) with g.
    rewrite (later_r g f) by lra.
    unfold job_call.
    cbn [pending job_chat_id job_user_id job_message_ids name now].
    change (store (set_job_queue [] (set_now f w1))) with (store w).
    rewrite Hcell. reflexivity. }
  assert (drains_of group (trace w2) = drains_of group (trace w0) ++ [ms; ms']) as Hdr2.
  { subst w2. rewrite drains_of_emit, String.eqb_refl.
    cbn [trace set_job_queue set_now]. subst w1. cbn [trace set_bot_data].
    rewrite drains_of_emit, app_nil_r. cbn [trace set_ud set_user_data].
    rewrite drains_of_emit, app_nil_r. cbn [trace set_now].
    rewrite Hdr, <- app_assoc. reflexivity. }
  assert (Forwarded chat_id ms refs ∈ trace w2) as Hfw.
  { subst w2 w1. cbn [trace set_bot_data emit set_ud set_user_data set_now set_job_queue].
    apply elem_of_app. left. apply elem_of_app. left. apply elem_of_app. right.
    apply elem_of_cons. by left. }
  assert (user_data w2 !! user_id = Some d1) as Hd2.
  { subst w2 w1. cbn [user_data set_bot_data emit set_ud set_user_data set_now
                      set_job_queue]. apply lookup_insert_eq. }
  assert (bot_data w2 !! group = None) as Hbd2.
  { subst w2 w1. cbn [bot_data set_bot_data emit set_ud set_user_data set_now
                      set_job_queue]. apply lookup_delete_eq. }
  cbn [settle]. rewrite Hstep1, Hstep2.
  destruct (forward_messages env f chat_id ms') as [refs'|e] eqn:Hrelay.
  - set (d2 := set_session (Some (default [] (session_message_ids d1) ++ refs'))
                 (Some (default 0 (session_file_count d1) + Z.of_nat (length refs')))
                 d1).
    set (w3 := emit (Log INFO)
                 (set_ud user_id d2 (emit (Forwarded chat_id ms' refs') (set_now g' w2)))).
    assert (step env lat {| world := w2; handling := None; inbox := [];
                            running := [(g', RelayAnswer job' ms' (Ok refs'))] |}
            = Some {| world := w3; handling := None; inbox := []; running := [] |})
      as Hstep3.
    { unfold step, candidates. cbn [world handling inbox running].
      change (job_queue w2) with (@nil Job). cbn [soonest app fst].
      unfold happen. cbn [world]. change (now w2) with f.
      rewrite (later_r f g') by done.
      unfold resume. cbn [job' pending job_user_id job_chat_id].
      change (user_data (emit (Forwarded chat_id ms' refs') (set_now g' w2)))
        with (user_data w2). rewrite Hd2. fold job'. rewrite Hfin', Hfin.
      cbn [bot_data emit set_ud set_user_data set_now].
      rewrite bool_decide_eq_false_2; [reflexivity|].
      rewrite Hbd2. by intros [? ?]. }
    rewrite Hstep3.
    assert (step env lat {| world := w3; handling := None; inbox := []; running := [] |}
            = None) as Hstep4 by reflexivity.
    rewrite Hstep4. cbn [world].
    split; [exact Hstep4|]. split.
    { subst w3. rewrite drains_of_emit, app_nil_r. cbn [trace set_ud set_user_data].
      rewrite drains_of_emit, app_nil_r. exact Hdr2. }
    split.
    { subst w3. cbn [trace emit set_ud set_user_data set_now].
      do 2 (apply elem_of_app; left). exact Hfw. }
    split; [exact Hbd2|]. split; [reflexivity|]. split.
    { subst w3. cbn [trace emit set_ud set_user_data set_now].
      apply elem_of_app. left. apply elem_of_app. right. apply elem_of_cons. by left. }
    subst w3. unfold ud. cbn [user_data emit set_ud set_user_data].
    rewrite lookup_insert_eq. cbn [default from_option id d2 d1 set_session
                                   session_message_ids session_file_count].
    rewrite <- app_assoc. by split.
  - set (h := (g' + wait (reply_delay lat g' chat_id))%Q).
    pose proof (wait_nonneg (reply_delay lat g' chat_id)) as Hw'.
    assert ((g' <= h)%Q) as Hgh by (subst h; lra).
    set (w3 := emit (Send (ToChat chat_id) MsgRelayWarning)
                 (emit (Log ERROR) (set_now g' w2))).
    assert (step env lat {| world := w2; handling := None; inbox := [];
                            running := [(g', RelayAnswer job' ms' (Raise e))] |}
            = Some {| world := w3; handling := None; inbox := [];
                      running := [(h, WarningSent job')] |})
      as Hstep3.
    { unfold step, candidates. cbn [world handling inbox running].
      change (job_queue w2) with (@nil Job). cbn [soonest app fst].
      unfold happen. cbn [world]. change (now w2) with f.
      by rewrite (later_r f g') by done. }
    rewrite Hstep3.
    assert (step env lat {| world := w3; handling := None; inbox := [];
                            running := [(h, WarningSent job')] |}
            = Some {| world := set_now h w3; handling := None; inbox := [];
                      running := [] |})
      as Hstep4.
    { unfold step, candidates. cbn [world handling inbox running].
      change (job_queue w3) with (@nil Job). cbn [soonest app fst].
      unfold happen. cbn [world]. change (now w3) with g'.
      rewrite (later_r g' h) by done.
      unfold resume. rewrite Hfin', Hfin.
      change (bot_data (set_now h w3)) with (bot_data w2).
      rewrite bool_decide_eq_false_2; [reflexivity|].
      rewrite Hbd2. by intros [? ?]. }
    rewrite Hstep4. cbn [world].
    split; [reflexivity|]. split.
    { subst w3. cbn [trace set_now]. rewrite !drains_of_emit, !app_nil_r.
      exact Hdr2. }
    split.
    { subst w3. cbn [trace emit set_now]. do 2 (apply elem_of_app; left). exact Hfw. }
    split; [exact Hbd2|]. split; [reflexivity|]. split.
    { subst w3. cbn [trace emit set_now].
      apply elem_of_app. right. apply elem_of_cons. by left. }
    unfold ud. change (user_data (set_now h w3)) with (user_data w2).
    rewrite Hd2. by split.
Qed.

(** X15: an item of a group whose handler reaches the buffer while the
    relay of the group is in flight.  The timer of the items before
    has fired and their list has been handed to the relay; the group
    entry is removed only when the relay has answered (line 529).  So
    the item joins that list and arms a timer for it (line 546 finds no
    timer to remove): when the relay has answered and the new timer
    has fired, the group has been drained twice, the second time with
    the items before and the new one, and the references of the items
    before are in the session twice. *)
Theorem item_during_the_relay_is_relayed_twice
    (w0 : World) (armed : Time) (ms : list Z) (t : Time) (msg : Z) (refs : list Z)
    (s : Loop) :
  let f := (armed + 2)%Q in
  let g := (f + wait (relay_delay lat f chat_id ms))%Q in
  let b := gated_at lat user_id armed t in
  let s' := settle env lat 7 s in
  let old := default [] (session_message_ids (ud user_id w0)) in
  let count := default 0 (session_file_count (ud user_id w0)) in
  collecting_at user_id chat_id group w0 armed ms s ->
  inbox s = [(t, album_item user_id chat_id group msg)] ->
  member_at env user_id (later armed t) ->
  forward_messages env f chat_id ms = Ok refs ->
  (f < b)%Q -> (b < g)%Q -> (g < b + 2)%Q ->
  step env lat s' = None
  /\ drains_of group (trace (world s'))
     = drains_of group (trace w0) ++ [ms; ms ++ [msg]]
  /\ Forwarded chat_id ms refs ∈ trace (world s')
  /\ bot_data (world s') !! group = None
  /\ job_queue (world s') = []
  /\ match forward_messages env (b + 2)%Q chat_id (ms ++ [msg]) with
     | Ok refs' =>
         Forwarded chat_id (ms ++ [msg]) refs' ∈ trace (world s')
         /\ session_message_ids (ud user_id (world s')) = Some (old ++ refs ++ refs')
         /\ session_file_count (ud user_id (world s'))
            = Some (count + Z.of_nat (length refs) + Z.of_nat (length refs'))
     | Raise _ =>
         Send (ToChat chat_id) MsgRelayWarning ∈ trace (world s')
         /\ session_message_ids (ud user_id (world s')) = Some (old ++ refs)
         /\ session_file_count (ud user_id (world s'))
            = Some (count + Z.of_nat (length refs))
     end.
Proof.
  intros f g b s' old count Hc Hin Hgate Hrelay Hfb Hbg Hgb.
  destruct (late_item_joins w0 armed ms t msg refs s Hc Hin Hgate Hrelay Hfb Hbg)
    as (job & Hju & Hjc & Hjn & Hrel).
  assert (is_Some (user_data w0 !! user_id)) as Hsome.
  { destruct Hc as (_ & _ & _ & Hst & Hud & _). rewrite <- Hud.
    unfold ud in Hst. by destruct (user_data (world s) !! user_id). }
  subst s'. change 7%nat with (3 + 4)%nat. rewrite settle_add.
  exact (relay_then_timer w0 job g ms refs b (ms ++ [msg]) _ Hju Hjc Hjn Hsome Hrel
           Hbg Hgb).
Qed.

End TimedDebounce.

Section TimedLone.

Variable env : Env.
Variable lat : Delays.
Variables (user_id chat_id : Z).

Lemma soonest_head {A : Type} (key : A -> Time) (x : A) (l : list A) :
  Forall (fun y => (key x <= key y)%Q) l -> soonest key (x :: l) = Some (x, l).
Proof.
  intros Hl. cbn [soonest]. destruct (soonest key l) as [[y rest]|] eqn:Hs.
  - assert (y ∈ l) as Hy.
    { clear Hl. revert y rest Hs. induction l as [|z l IH]; intros y rest Hs; [done|].
      cbn [soonest] in Hs. destruct (soonest key l) as [[y' rest']|].
      - destruct (Qle_bool (key z) (key y')); simplify_eq.
        + apply elem_of_cons. by left.
        + apply elem_of_cons. right. by eapply IH.
      - simplify_eq. apply elem_of_cons. by left. }
    rewrite Forall_forall in Hl. specialize (Hl y Hy).
    by apply Qle_bool_iff in Hl as ->.
  - destruct l as [|z l]; [done|]. cbn [soonest] in Hs.
    destruct (soonest key l) as [[y' rest']|]; [|done].
    by destruct (Qle_bool (key z) (key y')).
Qed.

(** A file on its own from a member who is collecting, at an
    application at rest: the gate, the reply, a job at once, the relay;
    when the relay has answered the references are at the end of the
    session, and the application is at rest again. *)
Lemma lone_file_lands free t msg others status refs s :
  let b := gated_at lat user_id free t in
  let c := (b + wait (reply_delay lat b chat_id))%Q in
  let f := (c + 0)%Q in
  let g := (f + wait (relay_delay lat f chat_id [msg]))%Q in
  at_rest user_id free s ->
  inbox s = (t, lone_file user_id chat_id msg) :: others ->
  get_chat_member env (later free t) user_id = Ok status ->
  is_member_status status = true ->
  forward_messages env f chat_id [msg] = Ok refs ->
  match others with [] => True | a' :: _ => (g <= a'.1)%Q end ->
  let s' := settle env lat 5 s in
  at_rest user_id g s'
  /\ inbox s' = others
  /\ files (world s') = files (world s)
  /\ bot_data (world s') = bot_data (world s)
  /\ trace (world s')
     = trace (world s)
       ++ [GateCall user_id; Send (ToChat chat_id) MsgFileReceived;
           JobRun None user_id chat_id [msg]; Forwarded chat_id [msg] refs; Log INFO]
  /\ session_message_ids (ud user_id (world s'))
     = Some (default [] (session_message_ids (ud user_id (world s))) ++ refs)
  /\ session_file_count (ud user_id (world s'))
     = Some (default 0 (session_file_count (ud user_id (world s)))
             + Z.of_nat (length refs)).
Proof.
  intros b c f g (Hh & Hr & Hq & Hnow & Hst) Hin Hgate Hmember Hrelay Hnext.
  destruct s as [w h i r]. cbn [handling running world inbox] in *. subst h r i.
  assert (exists d, user_data w !! user_id = Some d) as [d Hd].
  { unfold ud in Hst. destruct (user_data w !! user_id) as [d|]; [by exists d|done]. }
  assert (ud user_id w = d) as Hud by (unfold ud; by rewrite Hd).
  pose proof (later_bounds free t) as [Hl1 Hl2].
  pose proof (wait_nonneg (gate_delay lat (later free t) user_id)) as Hw1.
  unfold gated_at in b. set (start := later free t) in *.
  pose proof (wait_nonneg (reply_delay lat b chat_id)) as Hw2.
  pose proof (wait_nonneg (relay_delay lat f chat_id [msg])) as Hw3.
  assert ((start <= b)%Q) as Hsb by (subst b; lra).
  assert ((b <= c)%Q) as Hbc by (subst c; lra).
  assert ((c <= f)%Q) as Hcf by (subst f; lra).
  assert ((f <= g)%Q) as Hfg by (subst g; lra).
  set (job := {| name := None; fire_at := f; job_user_id := user_id;
                 job_chat_id := chat_id; job_message_ids := length (store w) |}).
  set (w1 := emit (GateCall user_id) (set_now start w)).
  set (w2 := emit (Send (ToChat chat_id) MsgFileReceived) (set_now b w1)).
  set (w3 := set_job_queue [job] (set_store (store w ++ [[msg]]) (set_now c w2))).
  set (w4 := emit (JobRun None user_id chat_id [msg])
               (set_job_queue [] (set_now f w3))).
  set (d' := set_session (Some (default [] (session_message_ids d) ++ refs))
               (Some (default 0 (session_file_count d) + Z.of_nat (length refs))) d).
  set (w5 := emit (Log INFO)
               (set_ud user_id d' (emit (Forwarded chat_id [msg] refs) (set_now g w4)))).
  assert (forall o, (match others with [] => True | a' :: _ => (g <= a'.1)%Q end) ->
            forall T, (T <= g)%Q ->
            match others with
            | [] => []
            | (t', u') :: o' => [(later T t', o t' u' o')]
            end
            = match others with
              | [] => @nil (Time * Event)
              | (t', u') :: o' => [(t', o t' u' o')]
              end) as Hlater.
  { intros o Hn T HT. destruct others as [|[t' u'] o']; [done|].
    cbn [fst] in Hn. by rewrite (later_r T t') by lra. }
  assert (settle env lat 5
            {| world := w; handling := None;
               inbox := (t, lone_file user_id chat_id msg) :: others; running := [] |}
          = {| world := w5; handling := None; inbox := others; running := [] |}) as ->.
  { unfold settle.
    (* the update is taken *)
    unfold step at 1, candidates. cbn [world handling inbox running]. rewrite Hq, Hnow.
    cbn [soonest app fst]. fold start.
    unfold happen. cbn [world]. rewrite Hnow. fold start.
    rewrite (later_r free start) by done.
    unfold file_handler_call. cbn [lone_file file_user now emit set_now].
    rewrite Hgate. fold b w1.
    (* the gate answers *)
    unfold step at 1, candidates. cbn [world handling inbox running].
    change (job_queue w1) with (job_queue w). rewrite Hq. cbn [soonest app fst].
    unfold happen. cbn [world]. change (now w1) with start.
    rewrite (later_r start b) by done.
    unfold resume. rewrite Hmember. unfold file_handler_body.
    cbn [lone_file file_chat_type file_chat file_message_id file_media_group_id
         is_private ChatType_eqb negb].
    change (ud user_id (set_now b w1)) with (ud user_id w).
    rewrite Hst, bool_decide_eq_true_2 by done. cbn [negb].
    unfold await_reply. cbn [now emit set_now]. fold c w2.
    (* the reply is through *)
    unfold step at 1, candidates. cbn [world handling inbox running].
    change (job_queue w2) with (job_queue w). rewrite Hq. cbn [soonest app fst].
    unfold happen. cbn [world]. change (now w2) with b.
    rewrite (later_r b c) by done.
    unfold resume, schedule_file, run_once.
    cbn [now set_store set_now emit store job_queue].
    change (job_queue w2) with (job_queue w). rewrite Hq. cbn [enqueue].
    change (store w2) with (store w). fold f job.
    change (set_job_queue [job] (set_store (store w ++ [[msg]]) (set_now c w2)))
      with w3.
    (* the job starts *)
    unfold step at 1, candidates. cbn [world handling inbox running].
    change (job_queue w3) with [job]. change (now w3) with c.
    change (soonest fire_at [job]) with (Some (job, @nil Job)).
    change (soonest fst (@nil Suspended)) with (@None (Suspended * list Suspended)).
    cbn [app fire_at job].
    rewrite soonest_head.
    2:{ destruct others as [|[t' u'] o']; [done|]. repeat constructor.
        cbn [fst] in Hnext |- *. rewrite (later_r c t') by lra. lra. }
    unfold happen. cbn [world]. change (now w3) with c.
    rewrite (later_r c f) by done.
    unfold job_call. cbn [job job_chat_id job_user_id job_message_ids name].
    change (store (set_job_queue [] (set_now f w3))) with (store w ++ [[msg]]).
    rewrite lookup_app_r by done. rewrite Nat.sub_diag.
    cbn [lookup list_lookup default from_option id now emit set_job_queue set_now].
    fold job. rewrite Hrelay. fold g w4. cbn [app].
    (* the relay answers *)
    unfold step at 1, candidates. cbn [world handling inbox running].
    change (job_queue w4) with (@nil Job). change (now w4) with f.
    change (soonest fire_at []) with (@None (Job * list Job)).
    cbn [app]. rewrite soonest_head by constructor. cbn [app].
    rewrite soonest_head.
    2:{ destruct others as [|[t' u'] o']; [done|]. repeat constructor.
        cbn [fst] in Hnext |- *. rewrite (later_r f t') by lra. lra. }
    unfold happen. cbn [world]. change (now w4) with f.
    rewrite (later_r f g) by done.
    unfold resume. cbn [job job_user_id job_chat_id].
    change (user_data (emit (Forwarded chat_id [msg] refs) (set_now g w4)))
      with (user_data w). rewrite Hd.
    reflexivity. }
  cbn [world inbox]. rewrite Hud.
  split.
  { unfold at_rest. cbn [handling running world].
    split; [done|]. split; [done|]. split; [done|]. split; [done|].
    subst w5. unfold ud. cbn [user_data emit set_ud set_user_data].
    rewrite lookup_insert_eq. cbn [default from_option id d' set_session state].
    rewrite <- Hud. exact Hst. }
  split; [done|]. split; [done|]. split; [done|]. split.
  { subst w5 w4 w3 w2 w1.
    cbn [trace emit set_ud set_user_data set_now set_job_queue set_store].
    by rewrite <- !app_assoc. }
  subst w5. unfold ud. cbn [user_data emit set_ud set_user_data].
  rewrite lookup_insert_eq. by split.
Qed.

(** X16: files that come one by one from a member who is collecting,
    each no earlier than the relay of the one before has answered, join
    the session in the order they came: five steps a file (the gate,
    the reply, a job at once, the relay), after which the application
    is at rest, the session has grown by the references the relay gave,
    file by file, and the counter by their number. *)
Theorem lone_files_join_in_order (uploads : list (Time * Z)) :
  forall (free T : Time) (refs : list Z) (s : Loop),
    let s' := settle env lat (5 * length uploads) s in
    at_rest user_id free s ->
    inbox s = lone_files user_id chat_id uploads ->
    one_by_one env lat user_id chat_id free uploads = Some (T, refs) ->
    at_rest user_id T s'
    /\ inbox s' = []
    /\ files (world s') = files (world s)
    /\ default [] (session_message_ids (ud user_id (world s')))
       = default [] (session_message_ids (ud user_id (world s))) ++ refs
    /\ default 0 (session_file_count (ud user_id (world s')))
       = default 0 (session_file_count (ud user_id (world s)))
         + Z.of_nat (length refs).
Proof.
  induction uploads as [|[t msg] rest IH]; intros free T refs s s' Hrest Hin Hone.
  { cbn in Hone. simplify_eq. subst s'.
    change (5 * length (@nil (Time * Z)))%nat with 0%nat. cbn [settle].
    rewrite app_nil_r. cbn [length]. split; [done|]. split; [done|].
    split; [done|]. split; [done|]. lia. }
  cbn [one_by_one fst snd] in Hone.
  destruct (get_chat_member env (later free t) user_id) as [status|] eqn:Hgate;
    [|done].
  destruct (forward_messages env _ chat_id [msg]) as [r|] eqn:Hrelay; [|done].
  destruct (is_member_status status) eqn:Hmember; [|done]. cbn [andb] in Hone.
  destruct (match rest with [] => true | a' :: _ => Qle_bool _ a'.1 end) eqn:Hnext;
    [|done].
  destruct (one_by_one env lat user_id chat_id _ rest) as [[T' refs']|] eqn:Hrec;
    [|done].
  simplify_eq.
  cbn [lone_files fmap list_fmap fst snd] in Hin.
  destruct (lone_file_lands free t msg (lone_files user_id chat_id rest) status r s
              Hrest Hin Hgate Hmember Hrelay)
    as (Hrest1 & Hin1 & Hfiles1 & _ & _ & Hids1 & Hcount1).
  { destruct rest as [|a' rest']; [done|]. cbn [lone_files fmap list_fmap fst].
    by apply Qle_bool_iff. }
  destruct (IH _ _ _ _ Hrest1 Hin1 Hrec) as (Hrest2 & Hin2 & Hfiles2 & Hids2 & Hcount2).
  subst s'. replace (5 * length ((t, msg) :: rest))%nat with (5 + 5 * length rest)%nat
    by (cbn [length]; lia).
  rewrite settle_add.
  split; [exact Hrest2|]. split; [exact Hin2|]. split; [congruence|].
  rewrite Hids2, Hcount2, Hids1, Hcount1. cbn [default from_option id].
  rewrite <- app_assoc, length_app. split; [done|]. lia.
Qed.

End TimedLone.

(** ** The claims at concrete inputs *)

(** C1 on the code, at two items of one album 19/10 apart.  The gate
    answers the first call after 1/10: the timer of item 21 is armed at
    2/10 and fires at 22/10.  The second call of the gate, made at
    19/10, is answered after 1/2: the handler of item 22 is still
    waiting when the timer fires and the job hands [21] to the relay.
    With a relay that takes 1, the group entry is still there when the
    handler goes on at 24/10: item 22 joins the list already sent and a
    new timer is armed for it, so the group is drained twice, [21] and
    [21, 22], and the reference of item 21 is in the session twice.
    With a relay that takes 1/10 the entry is gone by then: item 22
    starts a buffer of its own, and the drains are [21] and [22]. *)
Theorem slow_gate_drains_the_album_twice :
  let env := demo_env storage_up in
  let s := settle env (slow_gate 1) 20 (arriving collecting_world late_item) in
  let s' := settle env (slow_gate (1 # 10)) 20 (arriving collecting_world late_item) in
  gaps_below 2 0%Q [(19 # 10)%Q]
  /\ member_at env 1 0%Q /\ member_at env 1 (19 # 10)%Q
  /\ state (ud 1 collecting_world) = Some "awaiting_file"
  /\ session_message_ids (ud 1 collecting_world) = Some [501; 502]
  /\ step env (slow_gate 1) s = None
  /\ drains_of "album" (trace (world s)) = [[21]; [21; 22]]
  /\ trace (world s)
     = [GateCall 1; Send (ToChat 10) MsgAlbumReceived; GateCall 1;
        JobRun (Some "album") 1 10 [21]; Forwarded 10 [21] [1021]; Log INFO;
        JobRun (Some "album") 1 10 [21; 22];
        Forwarded 10 [21; 22] [1021; 1022]; Log INFO]
  /\ session_message_ids (ud 1 (world s)) = Some [501; 502; 1021; 1021; 1022]
  /\ session_file_count (ud 1 (world s)) = Some 5
  /\ step env (slow_gate (1 # 10)) s' = None
  /\ drains_of "album" (trace (world s')) = [[21]; [22]]
  /\ session_message_ids (ud 1 (world s')) = Some [501; 502; 1021; 1022].
Proof.
  intros env s s'.
  split; [simpl; unfold Qle, Qlt; simpl; lia|].
  split; [exists MEMBER; by split|]. split; [exists MEMBER; by split|].
  repeat split; vm_compute; reflexivity.
Qed.

(** C2 fails for an empty list: no page is computed, and the rounding
    division alone would give 0 pages, not 1. *)
Lemma paginate_no_items :
  paginate 0 FILES_PER_PAGE 1 = None
  /\ ~ (exists page total_pages offset,
          paginate 0 FILES_PER_PAGE 1 = Some (page, total_pages, offset)
          /\ total_pages = Z.max 1 (ceil_div 0 FILES_PER_PAGE))
  /\ page_bounds 0 FILES_PER_PAGE 1 = (1, 0, 0).
Proof.
  split; [reflexivity|]. split; [|reflexivity].
  intros (page & total_pages & offset & Hsome & _). discriminate Hsome.
Qed.

Lemma paginate_with_items_witness :
  0 < 10
  /\ 0 < 25
  /\ exists page total_pages offset,
       paginate 25 10 7 = Some (page, total_pages, offset)
       /\ total_pages = Z.max 1 (ceil_div 25 10)
       /\ page = Z.max 1 (Z.min 7 total_pages)
       /\ 1 <= page <= total_pages
       /\ offset = (page - 1) * 10
       /\ forall (A : Type) (items : list A),
            Z.of_nat (length items) = 25 ->
            Z.of_nat (length (Py.slice items offset (offset + 10)))
            = Z.min 10 (25 - offset)
            /\ 0 < Z.min 10 (25 - offset).
Proof.
  split; [lia|]. split; [lia|].
  apply (paginate_with_items 10 25 7); lia.
Defined.

Lemma delete_by_non_owner_witness :
  let env := demo_env storage_up in
  let w' := button_callback_handler env 7 70
              ("delete:" +:+ "tok" +:+ ":" +:+ Py.str 1) shared_world in
  uploader_id demo_row <> 7
  /\ trace w' = [Answer AlertNone; Answer AlertForbidden]
  /\ files w' = files shared_world
  /\ lookup_row "tok" (files w') = Some demo_row
  /\ (forall from ids,
        Retracted from ids ∉ drop (length (trace shared_world)) (trace w')).
Proof.
  intros env w'.
  assert (uploader_id demo_row <> 7) as Hne by (simpl; lia).
  split; [exact Hne|]. split; [reflexivity|].
  exact (proj2 (delete_by_non_owner_is_forbidden env 7 70 "tok" 1 demo_row
                  shared_world eq_refl eq_refl Hne)).
Defined.

(** C3 fails when the registry cannot be read: user 7 asks to delete
    the share of user 1; the read raises, and the reply is the
    internal error, not the permission alert.  The row stays. *)
Lemma non_owner_gets_the_internal_error :
  let w' := button_callback_handler (demo_env select_fails) 7 70
              ("delete:" +:+ "tok" +:+ ":" +:+ Py.str 1) shared_world in
  lookup_row "tok" (files shared_world) = Some demo_row
  /\ uploader_id demo_row <> 7
  /\ trace w' = [Answer AlertNone; Log ERROR; Send (ToChat 70) MsgDeleteError]
  /\ (Answer AlertForbidden ∉ trace w')
  /\ files w' = files shared_world.
Proof.
  intros w'. split; [reflexivity|]. split; [simpl; lia|].
  split; [reflexivity|]. split; [|reflexivity].
  intros Hin. vm_compute in Hin.
  repeat (apply elem_of_cons in Hin as [Hin|Hin]; [discriminate Hin|]).
  by apply elem_of_nil in Hin.
Qed.

(** C4 fails: the storage refuses the insert, the user is shown the
    error, and the two references of the session are gone; finishing
    again, with the storage back, finds nothing to store. *)
Lemma persist_failure_loses_the_session :
  let w' := finish_upload_handler (demo_env insert_fails) (Some 1) 10 PRIVATE
              collecting_world in
  let w'' := finish_upload_handler (demo_env storage_up) (Some 1) 10 PRIVATE w' in
  session_message_ids (ud 1 collecting_world) = Some [501; 502]
  /\ trace w' = [Send (ToChat 10) MsgGeneratingLink; Log ERROR;
                 Edit (ToChat 10) MsgLinkError; Send (ToChat 10) MsgSessionEnded]
  /\ session_message_ids (ud 1 w') = None
  /\ session_message_ids (ud 1 w') <> Some [501; 502]
  /\ files w'' = []
  /\ Edit (ToChat 10) MsgNothingUploaded ∈ trace w''.
Proof.
  intros w' w''. split; [reflexivity|]. split; [reflexivity|].
  split; [reflexivity|]. split; [discriminate|]. split; [reflexivity|].
  vm_compute. repeat constructor.
Qed.

Lemma finish_upload_persist_failure_witness :
  let env := demo_env insert_fails in
  let w' := finish_upload_handler env (Some 1) 10 PRIVATE collecting_world in
  db_fault env (now collecting_world) OpInsert = true
  /\ trace w' = trace collecting_world
                ++ [Send (ToChat 10) MsgGeneratingLink; Log ERROR;
                    Edit (ToChat 10) MsgLinkError; Send (ToChat 10) MsgSessionEnded]
  /\ files w' = files collecting_world
  /\ ud 1 w' = ended_session
  /\ session_message_ids (ud 1 w') = None.
Proof.
  intros env w'. split; [reflexivity|].
  apply (finish_upload_persist_failure env 1 10 [501; 502] collecting_world).
  - reflexivity.
  - discriminate.
  - left. reflexivity.
Defined.

Lemma gate_failure_witness :
  get_chat_member (demo_env storage_up) (now idle_world) 9 = Raise TimedOut
  /\ (is_user_in_group (demo_env storage_up) 9 idle_world).1 = false.
Proof.
  split; [reflexivity|].
  apply (gate_failure_means_not_authorized (demo_env storage_up) 9 idle_world TimedOut).
  reflexivity.
Defined.


(** C8 fails for a single page: the keyboard is empty, so there is no
    control for the current page. *)
Lemma single_page_keyboard_is_empty :
  create_pagination_keyboard 1 1 "spage" (Some "tok") = []
  /\ ~ (exists b,
          b ∈ concat (create_pagination_keyboard 1 1 "spage" (Some "tok"))
          /\ callback_data b = with_share (Some "tok") "noop").
Proof.
  split; [reflexivity|]. intros (b & Hb & _). simpl in Hb. by apply elem_of_nil in Hb.
Qed.

Lemma pagination_keyboard_witness :
  let kb := create_pagination_keyboard 4 9 "page" None in
  1 <= 4 <= 9
  /\ kb = [page_button 4 "page" None <$> seqZ 2 5;
           [prev_button 4 "page" None; next_button 4 "page" None];
           [first_button "page" None; last_button 9 "page" None]]
  /\ page_number_controls kb = page_button 4 "page" None <$> seqZ 2 5
  /\ Z.of_nat (length (page_number_controls kb)) = 5
  /\ controls_with "‹ 上一页" kb = [prev_button 4 "page" None]
  /\ controls_with "末页 »" kb = [last_button 9 "page" None]
  /\ forall user_id chat_id w,
       button_callback_handler (demo_env storage_up) user_id chat_id
         (callback_data (page_button 4 "page" None 4)) w
       = emit (Answer AlertNone) w.
Proof.
  intros kb.
  assert (1 <= 4 <= 9) as Hp by lia. assert (2 <= 9) as Htp by lia.
  destruct (pagination_keyboard_controls (demo_env storage_up) 4 9 "page" None Hp)
    as [_ Hkb].
  destruct (Hkb Htp)
    as (Hshape & Hnumbers & Hcount & _ & _ & Hprev & _ & _ & Hlast & _ & _ & Hnoop).
  split; [exact Hp|]. split; [exact Hshape|]. split; [exact Hnumbers|].
  split; [exact Hcount|]. split; [exact Hprev|]. split; [exact Hlast|]. exact Hnoop.
Defined.

Lemma share_link_round_trip_witness :
  let token := Token.token_urlsafe (fun _ => Byte.x00) 8 in
  valid_username "share_bot"
  /\ Re.match_ (share_link_pattern "share_bot") (share_link "share_bot" token)
     = Some [token].
Proof.
  intros token.
  assert (valid_username "share_bot") as Hname by (repeat constructor).
  split; [exact Hname|].
  exact (proj1 (share_link_round_trip (demo_env storage_up) (fun _ => Byte.x00)
                  "share_bot" Hname)).
Defined.

Lemma share_records_witness :
  Forall well_stored (files idle_world)
  /\ length (files (run (demo_env storage_up) idle_world demo_upload)) = 1%nat
  /\ Forall well_stored (files (run (demo_env storage_up) idle_world demo_upload)).
Proof.
  assert (Forall well_stored (files idle_world)) as H0 by constructor.
  split; [exact H0|]. split; [reflexivity|].
  exact (proj2 (proj2 (share_records_are_never_empty (demo_env storage_up)))
           idle_world demo_upload H0).
Defined.

(** ** Escaping and the connection string *)

Section Escaping.

Lemma escape_head_not_reserved (s : string) (d : ascii) (r : string) :
  escape_markdown_v2 s = String d r -> is_escape_char d = false.
Proof.
  destruct s as [|c s]; [done|]. cbn [escape_markdown_v2].
  destruct (is_escape_char c) eqn:Hc.
  - intros [= <- _]. reflexivity.
  - by intros [= <- _].
Qed.

Lemma escape_app (s t : string) :
  escape_markdown_v2 (s +:+ t) = escape_markdown_v2 s +:+ escape_markdown_v2 t.
Proof.
  induction s as [|c s IH]; [done|]. cbn [String.append escape_markdown_v2].
  rewrite IH. by destruct (is_escape_char c).
Qed.

Lemma drop_escapes_escape (s : string) :
  drop_escapes (escape_markdown_v2 s) = s.
Proof.
  induction s as [|c s IH]; [done|]. cbn [escape_markdown_v2].
  destruct (is_escape_char c) eqn:Hc.
  - cbn [drop_escapes]. rewrite Hc. cbn [Ascii.eqb Bool.eqb andb]. by rewrite IH.
  - destruct (escape_markdown_v2 s) as [|d r] eqn:Hs.
    + cbn in IH. by rewrite <- IH.
    + change (drop_escapes (String c (String d r)))
        with (if Ascii.eqb c "\" && is_escape_char d
              then String d (drop_escapes r)
              else String c (drop_escapes (String d r))).
      rewrite (escape_head_not_reserved s d r Hs), andb_false_r. by rewrite IH.
Qed.

(** X1: [escape_markdown_v2] puts one backslash before each reserved
    character and changes nothing else: it distributes over
    concatenation, the text grows by the number of reserved characters,
    dropping the backslashes before reserved characters gives the text
    back (so two texts with the same escape are equal), and a text
    without reserved characters is unchanged.  A backslash of the text
    itself is not escaped. *)
Theorem escape_markdown_v2_is_reversible (s t : string) :
  escape_markdown_v2 (s +:+ t) = escape_markdown_v2 s +:+ escape_markdown_v2 t
  /\ String.length (escape_markdown_v2 s)
     = (String.length s + count_escape_chars s)%nat
  /\ drop_escapes (escape_markdown_v2 s) = s
  /\ (escape_markdown_v2 s = escape_markdown_v2 t -> s = t)
  /\ (count_escape_chars s = 0%nat -> escape_markdown_v2 s = s)
  /\ escape_markdown_v2 "\" = "\".
Proof.
  split; [apply escape_app|]. split.
  { induction s as [|c s IH]; [done|]. cbn [escape_markdown_v2 count_escape_chars].
    destruct (is_escape_char c); cbn [String.length]; rewrite IH; lia. }
  split; [apply drop_escapes_escape|]. split.
  { intros Heq. rewrite <- (drop_escapes_escape s), <- (drop_escapes_escape t).
    by rewrite Heq. }
  split; [|reflexivity].
  induction s as [|c s IH]; [done|]. cbn [escape_markdown_v2 count_escape_chars].
  destruct (is_escape_char c); [done|]. intros Hs. by rewrite IH.
Qed.

Lemma contains_app_r (needle u v : string) :
  Py.contains needle v = true -> Py.contains needle (u +:+ v) = true.
Proof.
  intros Hv. induction u as [|c u IH]; [done|].
  cbn [String.append Py.contains]. rewrite IH. apply orb_true_r.
Qed.

Lemma prefix_app (u v : string) : String.prefix u (u +:+ v) = true.
Proof.
  induction u as [|c u IH]; [by destruct v|]. cbn [String.append String.prefix].
  by destruct (ascii_dec c c).
Qed.

(** X2: the adaptation of the connection string is idempotent; a URL
    that is not empty, has no [sslmode] and does not name localhost is
    extended at its end, by [&sslmode=require] when it has a query part
    and by [?sslmode=require] otherwise; every other URL, and a missing
    one, is left as it is. *)
Theorem adapt_database_url_once (url : option string) :
  adapt_database_url (adapt_database_url url) = adapt_database_url url
  /\ (forall u,
        url = Some u -> u <> "" ->
        Py.contains "sslmode" u = false -> Py.contains "localhost" u = false ->
        adapt_database_url url
        = Some (u +:+ (if Py.contains "?" u then "&" else "?") +:+ "sslmode=require")
        /\ exists u', adapt_database_url url = Some u'
                      /\ String.prefix u u' = true
                      /\ Py.contains "sslmode" u' = true)
  /\ (forall u,
        url = Some u ->
        u = "" \/ Py.contains "sslmode" u = true \/ Py.contains "localhost" u = true ->
        adapt_database_url url = url)
  /\ adapt_database_url None = None.
Proof.
  assert (forall u sep, Py.contains "sslmode" (u +:+ sep +:+ "sslmode=require") = true)
    as Hin.
  { intros u sep. apply contains_app_r, contains_app_r. reflexivity. }
  assert (forall u, Py.contains "sslmode" u = true ->
                    adapt_database_url (Some u) = Some u) as Hkeep.
  { intros u Hssl. unfold adapt_database_url. by rewrite Hssl, andb_false_r. }
  assert (forall u,
            Py.truthy (Some u) && negb (Py.contains "sslmode" u)
            && negb (Py.contains "localhost" u) = true ->
            adapt_database_url (Some u)
            = Some (u +:+ (if Py.contains "?" u then "&" else "?")
                      +:+ "sslmode=require")) as Hadd.
  { intros u Hcond. unfold adapt_database_url. rewrite Hcond.
    by destruct (Py.contains "?" u). }
  split; [|split; [|split; [|reflexivity]]].
  - destruct url as [u|]; [|done].
    destruct (Py.truthy (Some u) && negb (Py.contains "sslmode" u)
              && negb (Py.contains "localhost" u)) eqn:Hcond.
    + rewrite (Hadd u Hcond). apply Hkeep, Hin.
    + assert (adapt_database_url (Some u) = Some u) as Hsame.
      { unfold adapt_database_url. by rewrite Hcond. }
      by rewrite !Hsame.
  - intros u -> Hne Hssl Hlocal.
    assert (Py.truthy (Some u) && negb (Py.contains "sslmode" u)
            && negb (Py.contains "localhost" u) = true) as Hcond.
    { rewrite Hssl, Hlocal. unfold Py.truthy.
      by destruct (String.eqb_spec u ""). }
    split; [apply Hadd, Hcond|]. eexists. split; [apply Hadd, Hcond|].
    split; [apply prefix_app|apply Hin].
  - intros u -> Hcases. destruct Hcases as [->|[Hssl|Hlocal]]; [done| |].
    + by apply Hkeep.
    + unfold adapt_database_url. by rewrite Hlocal, andb_false_r.
Qed.

End Escaping.

(** ** The pages of a share, taken together *)

Section Pages.

Lemma concat_windows {A} (l : list A) (k m : nat) :
  concat ((fun i : nat => take k (drop (i * k) l)) <$> seq 0 m) = take (m * k) l.
Proof.
  induction m as [|m IH]; [done|].
  rewrite seq_S, fmap_app, concat_app, IH. cbn [fmap list_fmap concat plus].
  rewrite app_nil_r, take_take_drop. f_equal. lia.
Qed.

(** The slice of line 212 is the LIMIT/OFFSET window of line 341. *)
Lemma slice_take_drop {A} (l : list A) (offset size : Z) :
  0 <= offset -> 0 <= size ->
  Py.slice l offset (offset + size)
  = take (Z.to_nat size) (drop (Z.to_nat offset) l).
Proof.
  intros Ho Hs. unfold Py.slice, Py.norm_index.
  destruct (Z.ltb_spec offset 0); [lia|].
  destruct (Z.ltb_spec (offset + size) 0); [lia|].
  destruct (Z.le_gt_cases (Z.of_nat (length l)) offset) as [Hout|Hin].
  - rewrite (drop_ge l (Z.to_nat offset)) by lia.
    rewrite take_nil. replace (Z.min (offset + size) _ - Z.min offset _) with 0 by lia.
    done.
  - rewrite (Z.min_l offset) by lia.
    destruct (Z.le_gt_cases (offset + size) (Z.of_nat (length l))).
    + rewrite Z.min_l by lia. f_equal. lia.
    + rewrite Z.min_r by lia.
      rewrite !take_ge; [done| |]; rewrite length_drop; lia.
Qed.

(** X3: the windows of the pages 1 .. total_pages of a list, one after
    the other, are the list: every item is on exactly one page, in
    order.  The slice the share view takes and the LIMIT/OFFSET window
    of the upload list are the same window, and a requested page below 1
    or above total_pages gets the window of the first or last page. *)
Theorem page_windows_cover_items {A} (items : list A) :
  let n := Z.of_nat (length items) in
  let total_pages := (n + FILES_PER_PAGE - 1) `div` FILES_PER_PAGE in
  let window p :=
    Py.slice items (page_bounds n FILES_PER_PAGE p).2
      ((page_bounds n FILES_PER_PAGE p).2 + FILES_PER_PAGE) in
  concat (window <$> Py.range 1 (total_pages + 1)) = items
  /\ (forall p,
        window p
        = take (Z.to_nat FILES_PER_PAGE)
            (drop (Z.to_nat (page_bounds n FILES_PER_PAGE p).2) items))
  /\ (forall p, p <= 1 -> window p = window 1)
  /\ (forall p, total_pages <= p -> window p = window total_pages).
Proof.
  intros n total_pages window.
  assert (forall p, 0 <= (page_bounds n FILES_PER_PAGE p).2) as Hoff.
  { intros p. unfold page_bounds, FILES_PER_PAGE. cbn [snd]. lia. }
  assert (forall p,
            window p
            = take (Z.to_nat FILES_PER_PAGE)
                (drop (Z.to_nat (page_bounds n FILES_PER_PAGE p).2) items)) as Hwin.
  { intros p. subst window. cbn beta. by rewrite slice_take_drop. }
  assert (0 <= n) as Hn by (subst n; lia).
  assert ((total_pages - 1) * 10 < n <= total_pages * 10) as Htp.
  { subst total_pages. unfold FILES_PER_PAGE. rewrite total_pages_ceil by done.
    apply ceil_div_bounds. lia. }
  split; [|split; [exact Hwin|split]].
  - unfold Py.range.
    replace (total_pages + 1 - 1) with total_pages by lia.
    unfold seqZ. rewrite <- list_fmap_compose.
    assert (length items <= Z.to_nat total_pages * 10)%nat as Hlen
      by (unfold n in Htp; lia).
    transitivity (take (Z.to_nat total_pages * 10) items); [|by apply take_ge].
    rewrite <- concat_windows. f_equal.
    apply Forall_fmap_ext_1, Forall_forall. intros i Hi%elem_of_seq.
    cbn [compose]. rewrite Hwin. unfold page_bounds, FILES_PER_PAGE. cbn [snd].
    change ((n + 10 - 1) `div` 10) with total_pages.
    f_equal. f_equal. lia.
  - intros p Hp. subst window. cbn beta. unfold page_bounds. cbn [snd].
    by replace (Z.max 1 (Z.min p _)) with (Z.max 1 (Z.min 1 ((n + FILES_PER_PAGE - 1)
                                                     `div` FILES_PER_PAGE))) by lia.
  - intros p Hp. subst window. cbn beta. unfold page_bounds. cbn [snd].
    fold total_pages.
    by replace (Z.max 1 (Z.min p total_pages))
      with (Z.max 1 (Z.min total_pages total_pages)) by lia.
Qed.

End Pages.

(** ** From a control of the keyboard to the page it names *)

Section Navigation.

Variable env : Env.

Lemma str_no_colon (n : Z) : string_forall (not_char ":") (Py.str n) = true.
Proof.
  eapply string_forall_impl; [|apply str_numeral].
  intros c. unfold numeral_char, not_char, is_digit.
  destruct c as [[] [] [] [] [] [] [] []]; try done.
Qed.

(** The data of a page control of a share is read back as the page and
    the share (lines 161 and 380-396); the share id comes last and may
    hold any character. *)
Lemma press_spage user_id chat_id q sid w :
  button_callback_handler env user_id chat_id
    (with_share (Some sid) ("spage" +:+ ":" +:+ Py.str q)) w
  = if Py.truthy (Some sid)
    then show_shared_files_page env user_id chat_id sid q
           (retract_page_view env user_id chat_id (emit (Answer AlertNone) w))
    else retract_page_view env user_id chat_id (emit (Answer AlertNone) w).
Proof.
  unfold with_share. destruct (Py.truthy (Some sid)).
  - unfold button_callback_handler.
    change (("spage" +:+ ":" +:+ Py.str q) +:+ ":" +:+ sid)
      with ("spage" +:+ String ":" (Py.str q +:+ String ":" sid)).
    rewrite split_app by done. cbn [fmap option_fmap option_map Nat.pred].
    rewrite split_app by (done || apply str_no_colon).
    cbn [fmap option_fmap option_map Nat.pred]. rewrite split_zero.
    cbn -[show_shared_files_page retract_page_view Py.int Py.str].
    by rewrite int_str.
  - unfold button_callback_handler.
    change ("spage" +:+ ":" +:+ Py.str q) with ("spage" +:+ String ":" (Py.str q)).
    rewrite split_app by done. cbn [fmap option_fmap option_map Nat.pred].
    rewrite split_free by apply str_no_colon.
    cbn -[show_shared_files_page retract_page_view Py.int Py.str]. done.
Qed.

Lemma press_page user_id chat_id q w :
  button_callback_handler env user_id chat_id
    (with_share None ("page" +:+ ":" +:+ Py.str q)) w
  = show_my_files_page env user_id chat_id true q (emit (Answer AlertNone) w).
Proof.
  unfold with_share, button_callback_handler.
  change ("page" +:+ ":" +:+ Py.str q) with ("page" +:+ String ":" (Py.str q)).
  rewrite split_app by done. cbn [fmap option_fmap option_map Nat.pred].
  rewrite split_free by apply str_no_colon.
  cbn -[show_my_files_page Py.int Py.str]. by rewrite int_str.
Qed.

(** Every control of a pagination keyboard is the no-op of the current
    page or names a page of [1, total_pages] other than the current
    one. *)
Lemma keyboard_targets p tp pfx sid b :
  1 <= p <= tp ->
  In b (concat (create_pagination_keyboard p tp pfx sid)) ->
  callback_data b = with_share sid "noop"
  \/ exists q, 1 <= q <= tp /\ q <> p
               /\ callback_data b = with_share sid (pfx +:+ ":" +:+ Py.str q).
Proof.
  intros Hp Hb.
  destruct (Z.le_gt_cases 2 tp) as [Htp|Htp].
  2: { assert (p = 1 /\ tp = 1) as [-> ->] by lia. by cbn in Hb. }
  rewrite keyboard_controls in Hb by done.
  destruct (page_range_spec p tp Hp Htp) as (s & e & Hrange & Hs & He).
  rewrite Hrange in Hb. cbn [fst snd] in Hb.
  rewrite !in_app_iff in Hb. destruct Hb as [Hb|[Hb|[Hb|[Hb|Hb]]]].
  - apply list_elem_of_In, list_elem_of_fmap in Hb as (q & -> & Hq).
    unfold Py.range in Hq. apply elem_of_seqZ in Hq.
    cbn [callback_data page_button]. destruct (Z.eqb_spec q p) as [->|Hne]; [by left|].
    right. exists q. split; [lia|]. by split.
  - destruct (Z.ltb_spec 1 p); [|done]. destruct Hb as [<-|[]].
    right. exists (p - 1). split; [lia|]. split; [lia|done].
  - destruct (Z.ltb_spec p tp); [|done]. destruct Hb as [<-|[]].
    right. exists (p + 1). split; [lia|]. split; [lia|done].
  - destruct (Z.ltb_spec 1 p); [|done]. destruct Hb as [<-|[]].
    right. exists 1. split; [lia|]. split; [lia|done].
  - destruct (Z.ltb_spec p tp); [|done]. destruct Hb as [<-|[]].
    right. exists tp. split; [lia|]. split; [lia|done].
Qed.

(** X4: pressing a control of the keyboard under a share view either
    only answers the query (the control of the current page) or
    withdraws the previous view and shows a page q of the same share,
    with q in [1, total_pages] and other than the current page; a
    control of the keyboard under the upload list shows page q of the
    list in the same way.  The share id is read back whole whatever
    characters it holds. *)
Theorem page_controls_lead_to_their_page
    (p tp : Z) (sid : string) (b : InlineKeyboardButton)
    (user_id chat_id : Z) (w : World) :
  1 <= p <= tp ->
  sid <> "" ->
  (In b (concat (create_pagination_keyboard p tp "spage" (Some sid))) ->
   button_callback_handler env user_id chat_id (callback_data b) w
   = emit (Answer AlertNone) w
   \/ exists q,
        1 <= q <= tp /\ q <> p
        /\ button_callback_handler env user_id chat_id (callback_data b) w
           = show_shared_files_page env user_id chat_id sid q
               (retract_page_view env user_id chat_id (emit (Answer AlertNone) w)))
  /\ (In b (concat (create_pagination_keyboard p tp "page" None)) ->
      button_callback_handler env user_id chat_id (callback_data b) w
      = emit (Answer AlertNone) w
      \/ exists q,
           1 <= q <= tp /\ q <> p
           /\ button_callback_handler env user_id chat_id (callback_data b) w
              = show_my_files_page env user_id chat_id true q
                  (emit (Answer AlertNone) w)).
Proof.
  intros Hp Hsid. split; intros Hb.
  - destruct (keyboard_targets p tp "spage" (Some sid) b Hp Hb)
      as [->|(q & Hq & Hne & ->)].
    + left. apply noop_does_nothing.
    + right. exists q. split; [done|]. split; [done|]. rewrite press_spage.
      unfold Py.truthy. by destruct (String.eqb_spec sid "").
  - destruct (keyboard_targets p tp "page" None b Hp Hb)
      as [->|(q & Hq & Hne & ->)].
    + left. apply noop_does_nothing.
    + right. exists q. split; [done|]. split; [done|]. apply press_page.
Qed.

End Navigation.

(** On page 1 of 2 of the share "tok" the next control leads to page 2. *)
Lemma page_controls_witness :
  let env := demo_env storage_up in
  let b := next_button 1 "spage" (Some "tok") in
  1 <= 1 <= 2
  /\ "tok" <> ""
  /\ In b (concat (create_pagination_keyboard 1 2 "spage" (Some "tok")))
  /\ (button_callback_handler env 1 10 (callback_data b) shared_world
      = emit (Answer AlertNone) shared_world
      \/ exists q,
           1 <= q <= 2 /\ q <> 1
           /\ button_callback_handler env 1 10 (callback_data b) shared_world
              = show_shared_files_page env 1 10 "tok" q
                  (retract_page_view env 1 10 (emit (Answer AlertNone) shared_world))).
Proof.
  intros env b.
  assert (1 <= 1 <= 2) as Hp by lia.
  assert ("tok" <> "") as Hsid by discriminate.
  assert (In b (concat (create_pagination_keyboard 1 2 "spage" (Some "tok")))) as Hb.
  { simpl. tauto. }
  split; [exact Hp|]. split; [exact Hsid|]. split; [exact Hb|].
  exact (proj1 (page_controls_lead_to_their_page env 1 2 "tok" b 1 10 shared_world
                  Hp Hsid) Hb).
Defined.

(** ** The counter of a session *)

Section Counter.

Variable env : Env.

Lemma counted_ud u w : sessions_counted w -> session_counted (ud u w).
Proof.
  intros Hw. unfold ud. destruct (user_data w !! u) as [d|] eqn:Hd; [|done].
  by apply (Hw u).
Qed.

Lemma counted_set_ud u d w :
  session_counted d -> sessions_counted w -> sessions_counted (set_ud u d w).
Proof.
  intros Hd Hw v d'. unfold set_ud. cbn [user_data set_user_data].
  intros [[_ <-]|[_ Hv]]%lookup_insert_Some; [done|]. by apply (Hw v).
Qed.

(** The keys other than those of the session do not matter. *)
Lemma counted_other_keys u w (f : UserData -> UserData) :
  (forall d, session_message_ids (f d) = session_message_ids d) ->
  (forall d, session_file_count (f d) = session_file_count d) ->
  sessions_counted w -> sessions_counted (set_ud u (f (ud u w)) w).
Proof.
  intros Hids Hcount Hw. apply counted_set_ud; [|done].
  unfold session_counted. rewrite Hids, Hcount. by apply counted_ud.
Qed.

Ltac counted :=
  repeat first
    [ assumption
    | match goal with
      | |- sessions_counted (emit _ ?w) => change (sessions_counted w)
      | |- sessions_counted (set_files _ ?w) => change (sessions_counted w)
      | |- sessions_counted (set_store _ ?w) => change (sessions_counted w)
      | |- sessions_counted (set_bot_data _ ?w) => change (sessions_counted w)
      | |- sessions_counted (set_job_queue _ ?w) => change (sessions_counted w)
      | |- sessions_counted (set_now _ ?w) => change (sessions_counted w)
      | |- sessions_counted (run_once _ _ _ _ _ ?w) => change (sessions_counted w)
      | |- sessions_counted (remove_jobs_by_name _ ?w) => change (sessions_counted w)
      | |- sessions_counted (set_ud _ (set_state _ (ud _ _)) _) =>
          apply (counted_other_keys _ _ (set_state _)); [done|done|]
      | |- sessions_counted (set_ud _ (set_pending_share_id _ (ud _ _)) _) =>
          apply (counted_other_keys _ _ (set_pending_share_id _)); [done|done|]
      | |- sessions_counted (set_ud _ (set_last_page_file_ids _ (ud _ _)) _) =>
          apply (counted_other_keys _ _ (set_last_page_file_ids _)); [done|done|]
      | |- sessions_counted (set_ud _ (set_last_control_panel_id _ (ud _ _)) _) =>
          apply (counted_other_keys _ _ (set_last_control_panel_id _)); [done|done|]
      | |- sessions_counted (set_ud _ (set_session (Some []) (Some 0) _) _) =>
          apply counted_set_ud; [done|]
      | |- sessions_counted (set_ud _ (set_session None None _) _) =>
          apply counted_set_ud; [done|]
      | |- sessions_counted (set_ud _ empty_user_data _) =>
          apply counted_set_ud; [done|]
      end
    | case_match ].

Lemma counted_show_shared_files_page user_id chat_id sid page w :
  sessions_counted w ->
  sessions_counted (show_shared_files_page env user_id chat_id sid page w).
Proof. intros Hw. unfold show_shared_files_page. counted. Qed.

Lemma counted_show_my_files_page user_id chat_id cb page w :
  sessions_counted w ->
  sessions_counted (show_my_files_page env user_id chat_id cb page w).
Proof. intros Hw. unfold show_my_files_page. counted. Qed.

Lemma counted_is_user_in_group user_id w :
  sessions_counted w -> sessions_counted (is_user_in_group env user_id w).2.
Proof. intros Hw. unfold is_user_in_group. cbn [now emit]. counted. Qed.

Lemma counted_require_group_membership func user chat_id cb w :
  (forall u w0, sessions_counted w0 -> sessions_counted (func u w0)) ->
  sessions_counted w ->
  sessions_counted (require_group_membership env func user chat_id cb w).
Proof.
  intros Hfunc Hw. unfold require_group_membership.
  destruct user as [user_id|]; [|done].
  pose proof (counted_is_user_in_group user_id w Hw) as Hg.
  destruct (is_user_in_group env user_id w) as [ok w0]. cbn [snd] in Hg.
  destruct ok; [by apply Hfunc|]. destruct cb; counted.
Qed.

Lemma counted_start user chat_id chat_type args w :
  sessions_counted w -> sessions_counted (start env user chat_id chat_type args w).
Proof.
  intros Hw. unfold start. destruct user as [user_id|]; [|done].
  assert (sessions_counted (set_ud user_id empty_user_data w)) as Hw1 by counted.
  set (w1 := set_ud user_id empty_user_data w) in *. clearbody w1.
  cbv zeta.
  destruct (if Py.truthy (head args) then head args
            else pending_share_id (ud user_id w1)) as [sid|]; [|counted].
  destruct (negb (Py.truthy (Some sid))); [counted|].
  destruct (negb (is_private chat_type)); [counted|].
  pose proof (counted_is_user_in_group user_id w1 Hw1) as Hg.
  destruct (is_user_in_group env user_id w1) as [ok w2]. cbn [snd] in Hg.
  destruct ok; [|counted].
  change (sessions_counted
            (show_shared_files_page env user_id chat_id sid 1
               (set_ud user_id
                  (set_pending_share_id None
                     (ud user_id (emit (Send (ToChat chat_id) MsgVerified) w2)))
                  (emit (Send (ToChat chat_id) MsgVerified) w2)))).
  apply counted_show_shared_files_page. counted.
Qed.

Lemma counted_retract_page_view user_id chat_id w :
  sessions_counted w -> sessions_counted (retract_page_view env user_id chat_id w).
Proof. intros Hw. unfold retract_page_view. counted. Qed.

Lemma counted_delete_share user_id chat_id sid page w :
  sessions_counted w -> sessions_counted (delete_share env user_id chat_id sid page w).
Proof.
  intros Hw. unfold delete_share.
  destruct (db_fault env (now w) OpSelect); [counted|].
  destruct (lookup_row sid (files w)) as [row|]; [|counted].
  destruct (negb (uploader_id row =? user_id)); [counted|].
  destruct (db_fault env (now w) OpDelete); [counted|].
  cbv zeta.
  set (w1 := show_my_files_page env user_id chat_id true page _).
  assert (sessions_counted w1) as Hw1.
  { subst w1. apply counted_show_my_files_page. counted. }
  clearbody w1. counted.
Qed.

Lemma counted_button_callback_handler user_id chat_id data w :
  sessions_counted w ->
  sessions_counted (button_callback_handler env user_id chat_id data w).
Proof.
  intros Hw. unfold button_callback_handler.
  set (parts := Py.split ":" (Some 2%nat) data).
  set (action := default "" (head parts)).
  set (w1 := if String.eqb action "spage"
             then retract_page_view env user_id chat_id (emit (Answer AlertNone) w)
             else emit (Answer AlertNone) w).
  assert (sessions_counted w1) as Hw1.
  { subst w1. destruct (String.eqb action "spage"); [|counted].
    apply counted_retract_page_view. counted. }
  clearbody w1.
  destruct (String.eqb action "page").
  { destruct (parts !! 1%nat ≫= Py.int); [|counted].
    by apply counted_show_my_files_page. }
  destruct (String.eqb action "spage").
  { destruct (parts !! 2%nat); [|done].
    destruct (parts !! 1%nat ≫= Py.int); [|counted].
    by apply counted_show_shared_files_page. }
  destruct (String.eqb action "delete").
  { destruct (parts !! 2%nat) as [p|]; [|done].
    destruct (parts !! 1%nat) as [sid|]; [|counted].
    destruct (Py.int p) as [page|]; [|counted].
    by apply counted_delete_share. }
  destruct (String.eqb action "info"); [|done].
  destruct (parts !! 1%nat); counted.
Qed.

Lemma counted_button_handler_inner chat_id chat_type user_id w :
  sessions_counted w ->
  sessions_counted (button_handler_inner chat_id chat_type user_id w).
Proof. intros Hw. unfold button_handler_inner. counted. Qed.

Lemma counted_finish_upload_handler user chat_id chat_type w :
  sessions_counted w ->
  sessions_counted (finish_upload_handler env user chat_id chat_type w).
Proof.
  intros Hw. unfold finish_upload_handler.
  destruct user as [user_id|]; [|done].
  destruct (negb (is_private chat_type)); [done|].
  cbv zeta. counted.
Qed.

Lemma counted_cancel_command user chat_id chat_type w :
  sessions_counted w ->
  sessions_counted (cancel_command env user chat_id chat_type w).
Proof.
  intros Hw. unfold cancel_command. destruct user as [user_id|]; [|done].
  destruct (negb (is_private chat_type)); [counted|].
  apply counted_finish_upload_handler. counted.
Qed.

(** The job adds the relayed references and their number together. *)
Lemma counted_process_and_collect_files_job j w :
  sessions_counted w -> sessions_counted (process_and_collect_files_job env j w).
Proof.
  intros Hw. unfold process_and_collect_files_job. cbv zeta.
  set (w1 := emit _ w).
  assert (sessions_counted w1) as Hw1 by (subst w1; counted). clearbody w1.
  set (w2 := match forward_messages env (now w1) _ _ with Ok _ => _ | Raise _ => _ end).
  assert (sessions_counted w2) as Hw2.
  { subst w2. destruct (forward_messages env (now w1) _ _) as [refs|e]; [|counted].
    destruct (user_data (emit _ w1) !! job_user_id j) as [d|] eqn:Hd; [|counted].
    change (sessions_counted
              (set_ud (job_user_id j)
                 (set_session (Some (default [] (session_message_ids d) ++ refs))
                    (Some (default 0 (session_file_count d) + Z.of_nat (length refs)))
                    d)
                 (emit (Forwarded (job_chat_id j)
                          (default [] (store w !! job_message_ids j)) refs) w1))).
    apply counted_set_ud; [|counted].
    unfold session_counted.
    cbn [session_file_count session_message_ids set_session default from_option id].
    rewrite length_app, (Hw1 _ _ Hd). lia. }
  clearbody w2. counted.
Qed.

Lemma counted_file_handler_inner chat_id chat_type msg_id g user_id w :
  sessions_counted w ->
  sessions_counted (file_handler_inner chat_id chat_type msg_id g user_id w).
Proof. intros Hw. unfold file_handler_inner. counted; by simplify_eq. Qed.

Lemma counted_text_message_handler user chat_id chat_type body w :
  sessions_counted w ->
  sessions_counted (text_message_handler env user chat_id chat_type body w).
Proof.
  intros Hw. unfold text_message_handler.
  repeat first [ assumption | apply counted_start | progress counted | case_match ].
Qed.

Lemma counted_dispatch u w :
  sessions_counted w -> sessions_counted (dispatch env u w).
Proof.
  intros Hw. unfold dispatch.
  destruct (content u) as [cmd args|body|kind msg_id g|data].
  - repeat case_match; try done.
    + by apply counted_start.
    + unfold help_command. counted.
    + by apply counted_cancel_command.
    + unfold my_files_command. apply counted_require_group_membership; [|done].
      intros u0 w0 Hw0. unfold my_files_command_inner.
      case_match; [counted|]. by apply counted_show_my_files_page.
  - repeat case_match.
    + unfold button_handler. apply counted_require_group_membership; [|done].
      intros u0 w0 Hw0. by apply counted_button_handler_inner.
    + by apply counted_finish_upload_handler.
    + by apply counted_text_message_handler.
  - assert (sessions_counted
              (file_handler env (effective_user u) (effective_chat u)
                 (chat_type u) msg_id g w)) as Hfile.
    { unfold file_handler. apply counted_require_group_membership; [|done].
      intros u0 w0 Hw0. by apply counted_file_handler_inner. }
    repeat case_match; done.
  - destruct (effective_user u) as [user_id|]; [|done].
    by apply counted_button_callback_handler.
Qed.

Lemma counted_run_due t q w :
  sessions_counted w -> sessions_counted (run_due env t q w).
Proof.
  revert w. induction q as [|j q IH]; intros w Hw; cbn [run_due]; [done|].
  case_match.
  - apply IH, counted_process_and_collect_files_job. counted.
  - change (sessions_counted (run_due env t q w)). by apply IH.
Qed.

Lemma counted_advance t w :
  sessions_counted w -> sessions_counted (advance env t w).
Proof.
  intros Hw. unfold advance. case_match; [|done].
  change (sessions_counted (run_due env t (job_queue w) w)). by apply counted_run_due.
Qed.

(** The row [finish_upload_handler] writes is captioned with the
    counter of the session, which is the number of ids it stores. *)
Lemma caption_finish_upload_handler user chat_id chat_type w :
  sessions_counted w -> Forall caption_counts (files w) ->
  Forall caption_counts (files (finish_upload_handler env user chat_id chat_type w)).
Proof.
  intros Hw Hrows. unfold finish_upload_handler.
  destruct user as [user_id|]; [|done].
  destruct (negb (is_private chat_type)); [done|].
  rewrite !ud_emit. pose proof (counted_ud user_id w Hw) as Hd.
  unfold session_counted in Hd.
  destruct (session_message_ids (ud user_id w)) as [ids|] eqn:Hids; [|done].
  destruct ids as [|i ids]; [done|].
  cbn [default from_option id now set_ud set_user_data emit files] in *.
  destruct (db_fault env (now w) OpInsert || _); [done|].
  cbn [files set_files emit]. constructor; [|done].
  exists (i :: ids). split.
  - unfold item_refs. cbn [message_id]. by apply ints_split_join.
  - cbn [file_caption]. by rewrite Hd.
Qed.

Lemma caption_delete_row sid rows :
  Forall caption_counts rows -> Forall caption_counts (delete_row sid rows).
Proof.
  intros Hall. unfold delete_row. apply Forall_forall.
  intros r [Hr _]%list_elem_of_In%filter_In.
  rewrite Forall_forall in Hall. by apply Hall, list_elem_of_In.
Qed.

Lemma caption_dispatch u w :
  sessions_counted w -> Forall caption_counts (files w) ->
  Forall caption_counts (files (dispatch env u w)).
Proof.
  intros Hw Hrows. unfold dispatch.
  destruct (content u) as [cmd args|body|kind msg_id g|data].
  - repeat case_match; try done.
    + by rewrite files_start.
    + unfold help_command. by repeat case_match.
    + unfold cancel_command. repeat case_match; try done.
      apply caption_finish_upload_handler; [|done]. by apply counted_set_ud.
    + unfold my_files_command.
      apply (files_require_group_membership env
               (fun _ f => Forall caption_counts f)); [done|].
      intros u0 w0 Hw0. unfold my_files_command_inner.
      case_match; [by rewrite <- Hw0 in Hrows|].
      by rewrite files_show_my_files_page, Hw0.
  - repeat case_match.
    + unfold button_handler.
      apply (files_require_group_membership env
               (fun _ f => Forall caption_counts f)); [done|].
      intros u0 w0 Hw0. by rewrite files_button_handler_inner, Hw0.
    + by apply caption_finish_upload_handler.
    + by rewrite files_text_message_handler.
  - assert (Forall caption_counts
              (files (file_handler env (effective_user u) (effective_chat u)
                        (chat_type u) msg_id g w))) as Hfile.
    { unfold file_handler.
      apply (files_require_group_membership env
               (fun _ f => Forall caption_counts f)); [done|].
      intros u0 w0 Hw0. by rewrite files_file_handler_inner, Hw0. }
    repeat case_match; done.
  - destruct (effective_user u) as [user_id|]; [|done].
    destruct (files_button_callback_handler env user_id (effective_chat u) data w)
      as [->|[sid ->]]; [done|]. by apply caption_delete_row.
Qed.

(** X5: through any sequence of updates and timers the counter of every
    session is the number of references the session holds, and the
    caption of every row of the registry names the number of references
    the row stores: the number shown to the user and written to the log
    is the number of items of the share. *)
Theorem session_counter_is_exact (w : World) (events : list (Time * Update)) :
  sessions_counted w -> Forall caption_counts (files w) ->
  let w' := run env w events in
  sessions_counted w' /\ Forall caption_counts (files w').
Proof.
  revert w. induction events as [|[t u] events IH]; intros w Hw Hrows; [done|].
  cbn [run foldl]. apply IH; unfold deliver; cbn [fst snd].
  - apply counted_dispatch, counted_advance, Hw.
  - apply caption_dispatch; [by apply counted_advance|]. by rewrite files_advance.
Qed.

End Counter.

(** One upload of one file: the counter and the caption say one. *)
Lemma session_counter_witness :
  let w' := run (demo_env storage_up) idle_world demo_upload in
  sessions_counted idle_world
  /\ Forall caption_counts (files idle_world)
  /\ file_caption <$> files w' = [batch_caption 1]
  /\ sessions_counted w'
  /\ Forall caption_counts (files w').
Proof.
  intros w'.
  assert (sessions_counted idle_world) as H0 by (intros u d Hd; done).
  assert (Forall caption_counts (files idle_world)) as H1 by constructor.
  split; [exact H0|]. split; [exact H1|]. split; [reflexivity|].
  exact (session_counter_is_exact (demo_env storage_up) idle_world demo_upload H0 H1).
Defined.

(** ** What [/start] does to the data of the user *)

Section Start.

Variable env : Env.

Lemma set_ud_set_ud user_id d d' w :
  set_ud user_id d' (set_ud user_id d w) = set_ud user_id d' w.
Proof.
  unfold set_ud, set_user_data. cbn [user_data now bot_data store job_queue files trace].
  by rewrite insert_insert_eq.
Qed.

(** A share view touches only the two keys of the last page. *)
Lemma session_show_shared_files_page user_id chat_id sid page w :
  let w' := show_shared_files_page env user_id chat_id sid page w in
  state (ud user_id w') = state (ud user_id w)
  /\ session_message_ids (ud user_id w') = session_message_ids (ud user_id w)
  /\ session_file_count (ud user_id w') = session_file_count (ud user_id w)
  /\ pending_share_id (ud user_id w') = pending_share_id (ud user_id w).
Proof.
  intros w'. subst w'. unfold show_shared_files_page.
  repeat first
    [ done
    | rewrite ud_emit
    | rewrite ud_set_ud
    | progress cbn [state session_message_ids session_file_count pending_share_id
                    set_last_page_file_ids set_last_control_panel_id]
    | case_match ].
Qed.

(** X6: [/start] clears the data of the user before it reads the
    pending share, so what it does never depends on that data: a bare
    [/start] always ends in the welcome and the state ['default'], also
    for a user whose retrieval was refused before and whose pending
    share was stored for a retry.  Whatever its arguments, [/start]
    ends a running upload session without a word: the references and
    the counter of the session are gone and the state is no longer
    ['awaiting_file']. *)
Theorem start_forgets_the_user_data
    (user_id chat_id : Z) (ty : ChatType) (args : list string)
    (d : UserData) (w : World) :
  start env (Some user_id) chat_id ty args (set_ud user_id d w)
  = start env (Some user_id) chat_id ty args w
  /\ start env (Some user_id) chat_id ty [] (set_ud user_id d w)
     = emit (Send (ToChat chat_id) MsgWelcome) (set_ud user_id ended_session w)
  /\ (let w' := start env (Some user_id) chat_id ty args w in
      session_message_ids (ud user_id w') = None
      /\ session_file_count (ud user_id w') = None
      /\ state (ud user_id w') <> Some "awaiting_file").
Proof.
  split; [|split].
  - unfold start. by rewrite set_ud_set_ud.
  - unfold start. rewrite set_ud_set_ud. cbn [head Py.truthy].
    rewrite ud_set_ud. cbn [pending_share_id empty_user_data].
    by rewrite set_ud_set_ud.
  - unfold start. cbv zeta.
    set (w1 := set_ud user_id empty_user_data w).
    assert (ud user_id w1 = empty_user_data) as Hw1 by apply ud_set_ud.
    clearbody w1.
    destruct (if Py.truthy (head args) then head args
              else pending_share_id (ud user_id w1)) as [sid|].
    2: { rewrite ud_emit, ud_set_ud, Hw1. by cbn. }
    destruct (negb (Py.truthy (Some sid))).
    { rewrite ud_emit, ud_set_ud, Hw1. by cbn. }
    destruct (negb (is_private ty)); [by rewrite ud_emit, Hw1|].
    assert (ud user_id (is_user_in_group env user_id w1).2 = empty_user_data) as Hg.
    { rewrite <- Hw1. unfold is_user_in_group. cbn [now emit]. by case_match. }
    destruct (is_user_in_group env user_id w1) as [ok w2]. cbn [snd] in Hg.
    destruct ok.
    + rewrite ud_emit.
      destruct (session_show_shared_files_page user_id chat_id sid 1
                  (set_ud user_id
                     (set_pending_share_id None
                        (ud user_id (emit (Send (ToChat chat_id) MsgVerified) w2)))
                     (emit (Send (ToChat chat_id) MsgVerified) w2)))
        as (-> & -> & -> & _).
      rewrite ud_set_ud, ud_emit, Hg. by cbn.
    + rewrite ud_emit, ud_set_ud, Hg. by cbn.
Qed.

End Start.

(** ** Updates the handlers turn away *)

Section Routing.

Variable env : Env.

(** X7: an update without a user (a channel post) is ignored by every
    handler: the world after it is the world before it, whatever the
    command, text, file or button press it carries. *)
Theorem updates_without_user_are_ignored (u : Update) (w : World) :
  effective_user u = None -> dispatch env u w = w.
Proof.
  intros Hnone. unfold dispatch. rewrite Hnone.
  destruct (content u) as [cmd args|body|kind msg_id g|data]; [| | |done].
  - by repeat case_match.
  - unfold button_handler, finish_upload_handler, text_message_handler.
    by repeat case_match.
  - by repeat case_match.
Qed.

Lemma not_private (ty : ChatType) : ty <> PRIVATE -> is_private ty = false.
Proof. by destruct ty. Qed.

(** X8: outside the private chat nothing is uploaded, stored or
    scheduled.  An update of another chat type that is not a button
    press leaves the registry, the buffers, the list objects, the job
    queue and the clock as they are, and, unless it is [/start] (which
    clears the data of the user before it looks at the chat), also the
    data of every user. *)
Theorem other_chats_store_nothing (u : Update) (w : World) :
  chat_type u <> PRIVATE ->
  (forall data, content u <> CallbackQuery data) ->
  let w' := dispatch env u w in
  files w' = files w
  /\ store w' = store w
  /\ bot_data w' = bot_data w
  /\ job_queue w' = job_queue w
  /\ now w' = now w
  /\ ((forall args, content u <> Command "start" args) ->
      user_data w' = user_data w).
Proof.
  intros Hty%not_private Hcb w'. subst w'. unfold dispatch.
  destruct (content u) as [cmd args|body|kind msg_id g|data] eqn:Hcontent;
    [| | |by destruct (Hcb data)].
  - destruct (String.eqb_spec cmd "start") as [->|_].
    { unfold start. destruct (effective_user u) as [user_id|]; [|done]. cbv zeta.
      set (w1 := set_ud user_id empty_user_data w).
      destruct (if Py.truthy (head args) then head args
                else pending_share_id (ud user_id w1)) as [sid|].
      - rewrite Hty. cbn [negb]. destruct (negb (Py.truthy (Some sid)));
          (split; [done|]); (split; [done|]); (split; [done|]); (split; [done|]);
          (split; [done|]); intros Hstart; by destruct (Hstart args).
      - (split; [done|]); (split; [done|]); (split; [done|]); (split; [done|]);
          (split; [done|]); intros Hstart; by destruct (Hstart args). }
    unfold help_command, cancel_command, my_files_command, my_files_command_inner,
      require_group_membership, is_user_in_group.
    cbv zeta. rewrite ?Hty. cbn [negb now emit].
    repeat case_match; by simplify_eq.
  - unfold button_handler, button_handler_inner, finish_upload_handler,
      text_message_handler, require_group_membership, is_user_in_group.
    cbv zeta. rewrite ?Hty. cbn [negb now emit].
    repeat case_match; by simplify_eq.
  - unfold file_handler, file_handler_inner, require_group_membership,
      is_user_in_group.
    cbv zeta. rewrite ?Hty. cbn [negb now emit].
    repeat case_match; by simplify_eq.
Qed.

End Routing.

(** A channel post with a share link, and a file sent in a group by a
    member who is collecting. *)
Lemma updates_without_user_witness :
  let u := {| effective_user := None; effective_chat := 10; chat_type := CHANNEL;
              content := Command "start" ["tok"] |} in
  effective_user u = None
  /\ dispatch (demo_env storage_up) u shared_world = shared_world.
Proof.
  intros u. split; [reflexivity|].
  apply (updates_without_user_are_ignored (demo_env storage_up) u shared_world).
  reflexivity.
Defined.

Lemma other_chats_witness :
  let u := {| effective_user := Some 1; effective_chat := 10; chat_type := GROUP;
              content := Media Photo 21 (Some "album") |} in
  let w' := dispatch (demo_env storage_up) u collecting_world in
  chat_type u <> PRIVATE
  /\ trace w' = [GateCall 1]
  /\ files w' = files collecting_world
  /\ store w' = store collecting_world
  /\ bot_data w' = bot_data collecting_world
  /\ job_queue w' = job_queue collecting_world
  /\ now w' = now collecting_world
  /\ ((forall args, content u <> Command "start" args) ->
      user_data w' = user_data collecting_world).
Proof.
  intros u w'.
  assert (chat_type u <> PRIVATE) as Hty by discriminate.
  assert (forall data, content u <> CallbackQuery data) as Hcb by discriminate.
  split; [exact Hty|]. split; [reflexivity|].
  exact (other_chats_store_nothing (demo_env storage_up) u collecting_world Hty Hcb).
Defined.

(** ** Deleting a share *)

Section Deletion.

Variable env : Env.

Lemma lookup_delete_row sid rows : lookup_row sid (delete_row sid rows) = None.
Proof.
  unfold lookup_row, delete_row. induction rows as [|r rows IH]; [done|].
  cbn [List.filter]. destruct (String.eqb (share_id r) sid) eqn:Hr; [done|].
  cbn [negb List.find]. by rewrite Hr.
Qed.

Lemma lookup_delete_row_ne sid sid' rows :
  sid' <> sid -> lookup_row sid' (delete_row sid rows) = lookup_row sid' rows.
Proof.
  intros Hne. unfold lookup_row, delete_row. induction rows as [|r rows IH]; [done|].
  cbn [List.filter List.find].
  destruct (String.eqb_spec (share_id r) sid) as [Hr|Hr]; cbn [negb List.find].
  - destruct (String.eqb_spec (share_id r) sid'); [congruence|done].
  - by rewrite IH.
Qed.

Lemma now_show_my_files_page user_id chat_id cb page w :
  now (show_my_files_page env user_id chat_id cb page w) = now w.
Proof.
  unfold show_my_files_page.
  repeat first [ reflexivity | progress cbn [now emit] | case_match ].
Qed.

Lemma trace_show_my_files_page user_id chat_id cb page w :
  exists more, trace (show_my_files_page env user_id chat_id cb page w) = trace w ++ more.
Proof.
  unfold show_my_files_page.
  repeat first [ by eexists | progress cbn [trace emit] | case_match ].
Qed.

(** X9: the uploader presses the delete control of a share.  With the
    storage working the row of the share is removed and the other rows
    stay; the user is told so and the list is shown again; the relayed
    messages are retracted from the private channel afterwards, and
    whatever that retraction answers the row stays deleted.  From then
    on the link of the share is answered as invalid and nothing is
    copied. *)
Theorem delete_by_owner_removes_the_share
    (user_id chat_id : Z) (sid : string) (page : Z) (row : FileRow) (w : World) :
  string_forall (not_char ":") sid = true ->
  lookup_row sid (files w) = Some row ->
  uploader_id row = user_id ->
  db_fault env (now w) OpSelect = false ->
  db_fault env (now w) OpDelete = false ->
  let w' := button_callback_handler env user_id chat_id
              ("delete:" +:+ sid +:+ ":" +:+ Py.str page) w in
  files w' = delete_row sid (files w)
  /\ lookup_row sid (files w') = None
  /\ (forall sid', sid' <> sid -> lookup_row sid' (files w') = lookup_row sid' (files w))
  /\ Answer AlertDeleted ∈ trace w'
  /\ (forall ids,
        item_refs row = Some ids ->
        delete_messages env (now w) ToPrivateChannel ids = Ok tt ->
        Retracted ToPrivateChannel ids ∈ trace w')
  /\ (forall reader chat page' w2,
        files w2 = files w' -> db_fault env (now w2) OpSelect = false ->
        show_shared_files_page env reader chat sid page' w2
        = emit (Send (ToChat chat) MsgInvalidLink) w2).
Proof.
  intros Hsid Hrow Hown Hsel Hdel w'.
  assert (exists w1 more,
            files w1 = delete_row sid (files w)
            /\ now w1 = now w
            /\ trace w1 = trace w ++ [Answer AlertNone; Answer AlertDeleted] ++ more
            /\ w' = match item_refs row with
                    | None => emit (Log ERROR) w1
                    | Some message_ids =>
                        match delete_messages env (now w1) ToPrivateChannel message_ids with
                        | Ok _ => emit (Log INFO)
                                    (emit (Retracted ToPrivateChannel message_ids) w1)
                        | Raise (BadRequest message) =>
                            if Py.contains "message can't be deleted" message
                            then emit (Log WARNING) w1
                            else emit (Send (ToChat chat_id) MsgDeleteError)
                                   (emit (Log ERROR) w1)
                        | Raise _ => emit (Log ERROR) w1
                        end
                    end) as (w1 & more & Hfiles1 & Hnow1 & Htrace1 & Hw').
  { subst w'. unfold button_callback_handler.
    rewrite split_delete_data by done. cbn -[delete_share Py.int Py.str].
    rewrite int_str. unfold delete_share. cbn [now emit files].
    rewrite Hsel, Hrow, Hown, Z.eqb_refl, Hdel. cbn [negb]. cbv zeta.
    set (w0 := emit (Answer AlertDeleted)
                 (set_files (delete_row sid (files w)) (emit (Answer AlertNone) w))).
    destruct (trace_show_my_files_page user_id chat_id true page w0) as [more Hmore].
    exists (show_my_files_page env user_id chat_id true page w0), more.
    split; [by rewrite files_show_my_files_page|].
    split; [by rewrite now_show_my_files_page|].
    split; [|reflexivity].
    rewrite Hmore. subst w0. cbn [trace emit set_files]. by rewrite <- !app_assoc. }
  assert (files w' = delete_row sid (files w)) as Hfiles.
  { rewrite Hw', <- Hfiles1. by repeat case_match. }
  assert (forall e, e ∈ trace w1 -> e ∈ trace w') as Hkeep.
  { intros e He. rewrite Hw'.
    repeat case_match; cbn [trace emit]; rewrite ?elem_of_app; tauto. }
  split; [exact Hfiles|]. split; [rewrite Hfiles; apply lookup_delete_row|].
  split; [intros sid' Hne; rewrite Hfiles; by apply lookup_delete_row_ne|].
  split.
  { apply Hkeep. rewrite Htrace1, !elem_of_app. right. left.
    apply elem_of_cons. right. apply elem_of_cons. by left. }
  split.
  { intros ids Hids Hok. rewrite Hw', Hids, Hnow1, Hok. cbn [trace emit].
    rewrite !elem_of_app. left. right. apply elem_of_cons. by left. }
  intros reader chat page' w2 Hw2 Hsel2. unfold show_shared_files_page.
  rewrite Hsel2, Hw2, Hfiles. by rewrite lookup_delete_row.
Qed.

End Deletion.

(** User 1 deletes the share "tok"; the link then leads nowhere. *)
Lemma delete_by_owner_witness :
  let env := demo_env storage_up in
  let w' := button_callback_handler env 1 10
              ("delete:" +:+ "tok" +:+ ":" +:+ Py.str 1) shared_world in
  lookup_row "tok" (files shared_world) = Some demo_row
  /\ uploader_id demo_row = 1
  /\ files w' = []
  /\ trace (show_shared_files_page env 7 70 "tok" 1 w')
     = trace w' ++ [Send (ToChat 70) MsgInvalidLink].
Proof.
  intros env w'.
  destruct (delete_by_owner_removes_the_share env 1 10 "tok" 1 demo_row shared_world
              eq_refl eq_refl eq_refl eq_refl eq_refl)
    as (Hfiles & _ & _ & _ & _ & Hlater).
  split; [reflexivity|]. split; [reflexivity|]. split; [exact Hfiles|].
  fold env w' in Hlater. by rewrite (Hlater 7 70 1 w' eq_refl eq_refl).
Defined.

(** ** The list of one's own uploads *)

Section MyFiles.

Variable env : Env.

Lemma press_delete presser chat sid page w :
  string_forall (not_char ":") sid = true ->
  button_callback_handler env presser chat
    ("delete:" +:+ sid +:+ ":" +:+ Py.str page) w
  = delete_share env presser chat sid page (emit (Answer AlertNone) w).
Proof.
  intros Hsid. unfold button_callback_handler.
  rewrite split_delete_data by done. cbn -[delete_share Py.int Py.str].
  by rewrite int_str.
Qed.

Lemma press_info presser chat sid w :
  string_forall (not_char ":") sid = true ->
  button_callback_handler env presser chat ("info:" +:+ sid) w
  = emit (Send (ToChat chat) (MsgShareLink (share_link (bot_username env) sid)))
      (emit (Answer AlertNone) w).
Proof.
  intros Hsid. unfold button_callback_handler.
  change ("info:" +:+ sid) with ("info" +:+ String ":" sid).
  rewrite split_app by done. cbn [fmap option_fmap option_map Nat.pred].
  by rewrite split_free.
Qed.

(** X10: the upload list shows shares of the requester only.  With the
    storage working, a user without uploads is told so; otherwise the
    list holds between one and ten rows of the registry, each uploaded
    by the requester, followed by the pagination keyboard of a page
    within [1, total_pages]; and the two controls of a listed share
    lead back to that share: the delete control to the delete action
    for it and the page shown, the info control to its share link. *)
Theorem my_files_lists_own_shares
    (user_id chat_id : Z) (cb : bool) (page : Z) (w : World) :
  db_fault env (now w) OpCount = false ->
  db_fault env (now w) OpList = false ->
  let mine := List.filter (fun r => uploader_id r =? user_id) (files w) in
  let show m := if cb then Edit (ToChat chat_id) m else Send (ToChat chat_id) m in
  let w' := show_my_files_page env user_id chat_id cb page w in
  (mine = [] /\ w' = emit (show MsgNoUploads) w)
  \/ exists p tp rows,
       w' = emit (show (MsgFileList p tp
                          ((file_buttons p <$> rows)
                           ++ create_pagination_keyboard p tp "page" None))) w
       /\ 1 <= p <= tp
       /\ rows <> [] /\ (length rows <= 10)%nat
       /\ Forall (fun r => r ∈ files w /\ uploader_id r = user_id) rows
       /\ forall r presser chat w2,
            r ∈ rows -> string_forall (not_char ":") (share_id r) = true ->
            (callback_data <$> file_buttons p r)
            = ["info:" +:+ share_id r;
               "delete:" +:+ share_id r +:+ ":" +:+ Py.str p]
            /\ button_callback_handler env presser chat
                 ("delete:" +:+ share_id r +:+ ":" +:+ Py.str p) w2
               = delete_share env presser chat (share_id r) p
                   (emit (Answer AlertNone) w2)
            /\ button_callback_handler env presser chat ("info:" +:+ share_id r) w2
               = emit (Send (ToChat chat)
                         (MsgShareLink (share_link (bot_username env) (share_id r))))
                   (emit (Answer AlertNone) w2).
Proof.
  intros Hcount Hlist mine show w'. subst w'. unfold show_my_files_page.
  rewrite Hcount. fold mine. cbv zeta.
  destruct (decide (mine = [])) as [Hnone|Hsome].
  { left. split; [done|]. rewrite Hnone. cbn [length paginate Z.of_nat Z.eqb].
    subst show. by destruct cb. }
  right. unfold paginate.
  destruct (Z.eqb_spec (Z.of_nat (length mine)) 0) as [H0|Hpos].
  { destruct mine; [done|]. cbn [length] in H0. lia. }
  set (n := Z.of_nat (length mine)) in *.
  unfold page_bounds, FILES_PER_PAGE. rewrite total_pages_ceil by done.
  rewrite Hlist.
  pose proof (ceil_div_bounds n 10 ltac:(lia)) as Hc.
  assert (0 < n) as Hn by (subst n; lia).
  set (tp := ceil_div n 10) in *.
  set (p := Z.max 1 (Z.min page tp)).
  set (rows := take (Z.to_nat 10) (drop (Z.to_nat ((p - 1) * 10)) mine)).
  exists p, tp, rows.
  assert (1 <= p <= tp) as Hp by (subst p; nia).
  assert (0 <= (p - 1) * 10 < n) as Hoff by nia.
  assert (length rows = Z.to_nat (Z.min 10 (n - (p - 1) * 10))) as Hlen.
  { subst rows. rewrite length_take, length_drop. subst n. lia. }
  split; [subst show; by destruct cb|]. split; [exact Hp|].
  split; [intros Hnil; rewrite Hnil in Hlen; cbn [length] in Hlen; lia|].
  split; [lia|]. split.
  - apply Forall_forall. intros r Hr. subst rows.
    eapply elem_of_sublist in Hr; [|apply sublist_take].
    eapply elem_of_sublist in Hr; [|apply sublist_drop]. subst mine.
    apply list_elem_of_In, filter_In in Hr as [Hin Hown].
    split; [by apply list_elem_of_In|]. by apply Z.eqb_eq.
  - intros r presser chat w2 _ Hsid. split; [reflexivity|].
    split; [by apply press_delete|by apply press_info].
Qed.

End MyFiles.

(** User 1 asks for the upload list: the one share, and its controls. *)
Lemma my_files_witness :
  let env := demo_env storage_up in
  let w' := show_my_files_page env 1 10 false 1 shared_world in
  db_fault env (now shared_world) OpCount = false
  /\ trace w'
     = [Send (ToChat 10)
          (MsgFileList 1 1
             [[ {| text := "📄 " +:+ Py.take_chars 25 (batch_caption 11) +:+ "...";
                   callback_data := "info:tok" |};
                {| text := "🗑️ 删除"; callback_data := "delete:tok:1" |} ]])]
  /\ ((List.filter (fun r => uploader_id r =? 1) (files shared_world) = []
       /\ w' = emit (Send (ToChat 10) MsgNoUploads) shared_world)
      \/ exists p tp rows,
           w' = emit (Send (ToChat 10)
                        (MsgFileList p tp
                           ((file_buttons p <$> rows)
                            ++ create_pagination_keyboard p tp "page" None)))
                  shared_world
           /\ 1 <= p <= tp
           /\ rows <> [] /\ (length rows <= 10)%nat
           /\ Forall (fun r => r ∈ files shared_world /\ uploader_id r = 1) rows).
Proof.
  intros env w'. split; [reflexivity|]. split; [reflexivity|].
  destruct (my_files_lists_own_shares env 1 10 false 1 shared_world eq_refl eq_refl)
    as [Hnone|(p & tp & rows & Hw' & Hp & Hne & Hlen & Hown & _)].
  - by left.
  - right. by exists p, tp, rows.
Defined.

(** ** From an upload to its retrieval *)

Section Retrieve.

Variable env : Env.

(** A link made of a non-empty run of token characters is recognised
    and its token extracted. *)
Lemma link_is_matched (username token : string) :
  string_forall token_char token = true -> token <> "" ->
  Re.match_ (share_link_pattern username) (share_link username token)
  = Some [token].
Proof.
  intros Hchars Hne. unfold share_link_pattern, share_link.
  change ("https://t.me/" +:+ username +:+ "?start=" +:+ token)
    with ("http" +:+ String "s" ("://t.me/" +:+ username +:+ "?start=" +:+ token)).
  rewrite match_literal. cbn [app Re.match_]. rewrite Ascii.eqb_refl.
  rewrite !match_literal. by rewrite match_group_plus.
Qed.

(** A member asks for a share in the private chat: the first page. *)
Lemma start_delivers reader rchat sid row ids sent w :
  sid <> "" ->
  lookup_row sid (files w) = Some row ->
  item_refs row = Some ids -> ids <> [] ->
  member_at env reader (now w) ->
  db_fault env (now w) OpSelect = false ->
  copy_messages env (now w) rchat (take 10 ids) = Ok sent ->
  let n := Z.of_nat (length ids) in
  let tp := (n + FILES_PER_PAGE - 1) `div` FILES_PER_PAGE in
  let w' := start env (Some reader) rchat PRIVATE [sid] w in
  trace w'
  = trace w
    ++ [GateCall reader; Send (ToChat rchat) MsgVerified;
        Copied rchat (take 10 ids); Sleep 3;
        Send (ToChat rchat)
          (MsgPanel (file_caption row) 1 tp n
             (create_pagination_keyboard 1 tp "spage" (Some sid)));
        DeletedReply rchat]
  /\ last_page_file_ids (ud reader w') = Some sent.
Proof.
  intros Hsid Hrow Hrefs Hne (status & Hgate & Hmember) Hsel Hcopy n tp w'.
  assert (Py.truthy (Some sid) = true) as Htruthy.
  { unfold Py.truthy. by destruct (String.eqb_spec sid ""). }
  assert (0 < n) as Hn by (subst n; destruct ids; [done|cbn [length]; lia]).
  pose proof (ceil_div_bounds n 10 ltac:(lia)) as Hc.
  assert (tp = ceil_div n 10) as Htp.
  { subst tp. unfold FILES_PER_PAGE. by rewrite total_pages_ceil. }
  assert (paginate n FILES_PER_PAGE 1 = Some (1, tp, 0)) as Hpage.
  { unfold paginate. destruct (Z.eqb_spec n 0); [lia|].
    unfold page_bounds. fold tp. f_equal. f_equal; [|lia]. f_equal. lia. }
  assert (Py.slice ids 0 (0 + FILES_PER_PAGE) = take 10 ids) as Hslice.
  { by rewrite slice_take_drop. }
  subst w'. unfold start. cbv zeta. cbn [head]. rewrite Htruthy.
  cbn [negb is_private ChatType_eqb]. rewrite Htruthy.
  cbn [negb is_private ChatType_eqb].
  unfold is_user_in_group. cbn [now emit set_ud set_user_data].
  rewrite Hgate, Hmember.
  unfold show_shared_files_page. cbn [now emit set_ud set_user_data files].
  unfold item_refs in Hrefs. rewrite Hsel, Hrow, Hrefs. fold n. rewrite Hpage.
  rewrite Hslice, Hcopy.
  split.
  - cbn [trace emit set_ud set_user_data]. by rewrite <- !app_assoc.
  - rewrite ud_emit, ud_set_ud. cbn [last_page_file_ids set_last_control_panel_id].
    rewrite ud_emit, ud_emit, ud_set_ud. reflexivity.
Qed.

(** X11: an upload and its retrieval.  A session that holds references
    is finished with the storage working and a fresh token: the user
    is given the link of the new share.  When, in any later state in
    which the row of that share is still in the registry, a member of
    the group sends this link to the bot in a private chat, the text
    handler recognises it, the gate is asked once, and the first page
    of the share is delivered: the first ten references of the
    session, in order, then the control panel with the caption and the
    number of items of the upload. *)
Theorem uploaded_share_is_retrievable
    (uploader chat : Z) (ids : list Z) (w : World)
    (reader rchat : Z) (sent : list Z) (w2 : World) :
  valid_username (bot_username env) ->
  session_message_ids (ud uploader w) = Some ids -> ids <> [] ->
  db_fault env (now w) OpInsert = false ->
  lookup_row (Token.token_urlsafe (random_byte env (now w)) 8) (files w) = None ->
  let sid := Token.token_urlsafe (random_byte env (now w)) 8 in
  let link := share_link (bot_username env) sid in
  let total := default 0 (session_file_count (ud uploader w)) in
  let w1 := finish_upload_handler env (Some uploader) chat PRIVATE w in
  lookup_row sid (files w2) = lookup_row sid (files w1) ->
  member_at env reader (now w2) ->
  db_fault env (now w2) OpSelect = false ->
  copy_messages env (now w2) rchat (take 10 ids) = Ok sent ->
  let n := Z.of_nat (length ids) in
  let tp := (n + FILES_PER_PAGE - 1) `div` FILES_PER_PAGE in
  let w3 := text_message_handler env (Some reader) rchat PRIVATE link w2 in
  Edit (ToChat chat) (MsgUploadDone total link) ∈ trace w1
  /\ trace w3
     = trace w2
       ++ [GateCall reader; Send (ToChat rchat) MsgVerified;
           Copied rchat (take 10 ids); Sleep 3;
           Send (ToChat rchat)
             (MsgPanel (batch_caption total) 1 tp n
                (create_pagination_keyboard 1 tp "spage" (Some sid)));
           DeletedReply rchat]
  /\ last_page_file_ids (ud reader w3) = Some sent.
Proof.
  intros _ Hids Hne Hins Hfresh sid link total w1 Hkept Hgate Hsel Hcopy n tp w3.
  destruct (token_urlsafe_8 (random_byte env (now w))) as [Hchars Hlen].
  fold sid in Hchars, Hlen, Hfresh.
  assert (sid <> "") as Hsid by (by destruct sid).
  set (row := {| share_id := sid; message_id := Py.join "," (Py.str <$> ids);
                 uploader_id := uploader; file_caption := batch_caption total;
                 file_type := "合集"; timestamp := now w |}).
  assert (files w1 = row :: files w
          /\ Edit (ToChat chat) (MsgUploadDone total link) ∈ trace w1) as [Hfiles Hedit].
  { subst w1. unfold finish_upload_handler. cbn [is_private ChatType_eqb negb].
    rewrite !ud_emit, Hids. destruct ids as [|i ids]; [done|].
    cbn [default from_option id now set_ud set_user_data emit files].
    fold sid. rewrite Hins, Hfresh.
    rewrite bool_decide_eq_false_2 by (by intros [? ?]).
    cbn [orb files trace emit set_files set_ud set_user_data].
    split; [reflexivity|]. rewrite !elem_of_app. left. left. right.
    apply elem_of_cons. by left. }
  assert (lookup_row sid (files w2) = Some row) as Hrow.
  { rewrite Hkept, Hfiles. unfold lookup_row. cbn [List.find share_id row].
    by rewrite String.eqb_refl. }
  assert (item_refs row = Some ids) as Hrefs.
  { unfold item_refs. cbn [message_id row]. by apply ints_split_join. }
  split; [exact Hedit|].
  assert (w3 = start env (Some reader) rchat PRIVATE [sid] w2) as ->.
  { subst w3. unfold text_message_handler. cbn [ChatType_eqb is_private negb].
    subst link. by rewrite link_is_matched. }
  exact (start_delivers reader rchat sid row ids sent w2
           Hsid Hrow Hrefs Hne Hgate Hsel Hcopy).
Qed.

End Retrieve.

(** User 1 finishes the session of two items and sends the link back. *)
Lemma uploaded_share_witness :
  let env := demo_env storage_up in
  let w1 := finish_upload_handler env (Some 1) 10 PRIVATE collecting_world in
  let link := "https://t.me/share_bot?start=AAAAAAAAAAA" in
  let w3 := text_message_handler env (Some 1) 10 PRIVATE link w1 in
  session_message_ids (ud 1 collecting_world) = Some [501; 502]
  /\ member_at env 1 (now w1)
  /\ Edit (ToChat 10) (MsgUploadDone 2 link) ∈ trace w1
  /\ trace w3
     = trace w1
       ++ [GateCall 1; Send (ToChat 10) MsgVerified; Copied 10 [501; 502]; Sleep 3;
           Send (ToChat 10) (MsgPanel (batch_caption 2) 1 1 2 []);
           DeletedReply 10]
  /\ last_page_file_ids (ud 1 w3) = Some [5501; 5502].
Proof.
  intros env w1 link w3.
  assert (valid_username (bot_username env)) as Hname by (repeat constructor).
  assert ([501; 502] <> @nil Z) as Hne by discriminate.
  assert (member_at env 1 (now w1)) as Hgate by (exists MEMBER; split; reflexivity).
  split; [reflexivity|]. split; [exact Hgate|].
  exact (uploaded_share_is_retrievable env 1 10 [501; 502] collecting_world
           1 10 [5501; 5502] w1
           Hname eq_refl Hne eq_refl eq_refl eq_refl Hgate eq_refl eq_refl).
Defined.

(** ** A reply the share view never gives *)

Section NoFiles.

Variable env : Env.

(** What is read back from a stored text is never the empty list:
    [split] gives at least one piece. *)
Lemma ints_split_nonempty sep m s ids :
  Py.ints (Py.split sep m s) = Some ids -> ids <> [].
Proof.
  unfold Py.ints. intros Hids%length_mapM Hnil. subst ids.
  pose proof (split_nonempty sep m s). by destruct (Py.split sep m s).
Qed.

(** X12: the share view never answers that a share holds no files.
    The list read from a row is never empty, since splitting any text
    gives at least one piece, so the test of line 205 cannot succeed;
    a row whose text of ids is empty ends in the error reply instead,
    as its one piece is not a number. *)
Theorem no_files_reply_is_never_sent
    (user_id chat_id : Z) (sid : string) (page : Z) (w : World) :
  let w' := show_shared_files_page env user_id chat_id sid page w in
  (forall to caption,
      Send to (MsgNoFilesInShare caption) ∉ drop (length (trace w)) (trace w'))
  /\ (forall row,
        db_fault env (now w) OpSelect = false ->
        lookup_row sid (files w) = Some row -> message_id row = "" ->
        w' = emit (Send (ToChat chat_id) MsgPageError) (emit (Log ERROR) w)).
Proof.
  intros w'. split.
  - intros to caption Hin. subst w'. unfold show_shared_files_page in Hin.
    destruct (db_fault env (now w) OpSelect).
    { cbn [trace emit] in Hin. rewrite <- !app_assoc, drop_app_length in Hin.
      repeat (apply elem_of_cons in Hin as [Hin|Hin]; [discriminate Hin|]).
      by apply elem_of_nil in Hin. }
    destruct (lookup_row sid (files w)) as [row|].
    2: { cbn [trace emit] in Hin. rewrite drop_app_length in Hin.
         repeat (apply elem_of_cons in Hin as [Hin|Hin]; [discriminate Hin|]).
         by apply elem_of_nil in Hin. }
    destruct (Py.ints (Py.split "," None (message_id row))) as [ids|] eqn:Hids.
    2: { cbn [trace emit] in Hin. rewrite <- !app_assoc, drop_app_length in Hin.
         repeat (apply elem_of_cons in Hin as [Hin|Hin]; [discriminate Hin|]).
         by apply elem_of_nil in Hin. }
    apply ints_split_nonempty in Hids. unfold paginate in Hin.
    destruct (Z.eqb_spec (Z.of_nat (length ids)) 0) as [H0|_].
    { destruct ids; [done|]. cbn [length] in H0. lia. }
    destruct (page_bounds _ _ _) as [[p tp] off].
    destruct (copy_messages env (now w) chat_id _) as [sent|e].
    + cbn [trace emit set_ud set_user_data] in Hin.
      rewrite <- !app_assoc, drop_app_length in Hin.
      repeat (apply elem_of_cons in Hin as [Hin|Hin]; [discriminate Hin|]).
      by apply elem_of_nil in Hin.
    + cbn [trace emit] in Hin. rewrite <- !app_assoc, drop_app_length in Hin.
      repeat (apply elem_of_cons in Hin as [Hin|Hin]; [discriminate Hin|]).
      by apply elem_of_nil in Hin.
  - intros row Hsel Hrow Hempty. subst w'. unfold show_shared_files_page.
    by rewrite Hsel, Hrow, Hempty.
Qed.

End NoFiles.

(** ** The aggregator at concrete inputs *)

(** User 1, with two references in the session, sends an album of
    three items at times 1, 2 and 5/2; every answer takes its steady
    time.  One drain, of the three items, and their references join
    the session. *)
Lemma album_lands_witness :
  let env := demo_env storage_up in
  let s := settle env steady_answers 10
             (arriving collecting_world (album_items 1 10 "album" demo_album)) in
  in_time env steady_answers 1 (first_set steady_answers 1 10 0%Q 1%Q) (tail demo_album)
  /\ step env steady_answers s = None
  /\ drains_of "album" (trace (world s)) = [[21; 22; 23]]
  /\ session_message_ids (ud 1 (world s)) = Some [501; 502; 1021; 1022; 1023].
Proof.
  intros env s.
  assert ("album" <> "") as Hname by discriminate.
  assert (member_at env 1 (later (now collecting_world) 1%Q)) as Hgate.
  { exists MEMBER. by split. }
  assert (in_time env steady_answers 1 (first_set steady_answers 1 10 0%Q 1%Q)
            (tail demo_album)) as Htime.
  { repeat split; try (exists MEMBER; by split); vm_compute; reflexivity. }
  assert (2 * length demo_album + 4 <= 10)%nat as Hfuel by (simpl; lia).
  destruct (album_lands_in_the_session env steady_answers 1 10 "album" Hname
              collecting_world (1%Q, 21) (tail demo_album) 10
              eq_refl eq_refl eq_refl Hgate Htime Hfuel)
    as (Hidle & Hdr & _ & _ & Hrelay).
  split; [exact Htime|]. split; [exact Hidle|]. split; [exact Hdr|].
  exact (proj1 (proj2 Hrelay)).
Defined.

(** The same album, by the gaps between its items. *)
Lemma steady_gate_witness :
  let env := demo_env storage_up in
  let s := settle env steady_answers 10
             (arriving collecting_world (album_items 1 10 "album" demo_album)) in
  gaps_below 2 1%Q (fst <$> tail demo_album)
  /\ step env steady_answers s = None
  /\ drains_of "album" (trace (world s)) = [[21; 22; 23]].
Proof.
  intros env s.
  assert ("album" <> "") as Hname by discriminate.
  assert (gaps_below 2 1%Q (fst <$> tail demo_album)) as Hgaps.
  { simpl. unfold Qle, Qlt. simpl. lia. }
  assert (forall t, member_at env 1 t) as Hgate.
  { intros t. exists MEMBER. by split. }
  assert (2 * length demo_album + 4 <= 10)%nat as Hfuel by (simpl; lia).
  assert ((0 <= 1 # 10)%Q /\ (1 # 10 < 2)%Q /\ (now collecting_world <= 1)%Q)
    as (HL0 & HL2 & Hnow) by (unfold Qle, Qlt; simpl; lia).
  split; [exact Hgaps|].
  exact (steady_gate_single_drain env steady_answers 1 10 "album" Hname (1 # 10)%Q
           collecting_world (1%Q, 21) (tail demo_album) 10
           (fun _ => eq_refl) HL0 HL2 Hgate eq_refl eq_refl eq_refl Hnow Hgaps Hfuel).
Defined.

(** Item 22 of the album reaches the buffer at 24/10, while the relay
    of item 21 (from 22/10 to 32/10) is in flight. *)
Lemma item_during_the_relay_witness :
  let env := demo_env storage_up in
  let lat := slow_gate 1 in
  let s := settle env lat 3 (arriving collecting_world late_item) in
  let s' := settle env lat 7 s in
  inbox s = [((19 # 10)%Q, album_item 1 10 "album" 22)]
  /\ drains_of "album" (trace (world s')) = [[21]; [21; 22]]
  /\ session_message_ids (ud 1 (world s')) = Some [501; 502; 1021; 1021; 1022].
Proof.
  intros env lat s s'.
  assert ("album" <> "") as Hname by discriminate.
  assert (collecting_at 1 10 "album" collecting_world (now (world s)) [21] s) as Hc.
  { repeat split; try discriminate. exists 0%nat. repeat split. }
  assert (inbox s = [((19 # 10)%Q, album_item 1 10 "album" 22)]) as Hin by reflexivity.
  assert (member_at env 1 (later (now (world s)) (19 # 10))) as Hgate.
  { exists MEMBER. by split. }
  destruct (item_during_the_relay_is_relayed_twice env lat 1 10 "album" Hname
              collecting_world (now (world s)) [21] (19 # 10)%Q 22 [1021] s
              Hc Hin Hgate eq_refl)
    as (_ & Hdr & _ & _ & _ & Hrelay).
  - vm_compute. reflexivity.
  - vm_compute. reflexivity.
  - vm_compute. reflexivity.
  - split; [exact Hin|]. split; [exact Hdr|]. exact (proj1 (proj2 Hrelay)).
Defined.

(** User 1 sends two files on their own, at times 1 and 3. *)
Lemma lone_files_witness :
  let env := demo_env storage_up in
  let s := arriving collecting_world (lone_files 1 10 demo_files) in
  let s' := settle env steady_answers (5 * length demo_files) s in
  snd <$> one_by_one env steady_answers 1 10 0%Q demo_files = Some [1031; 1032]
  /\ session_message_ids (ud 1 (world s')) = Some [501; 502; 1031; 1032]
  /\ default 0 (session_file_count (ud 1 (world s'))) = 4.
Proof.
  intros env s s'.
  assert (at_rest 1 0%Q s) as Hrest by (by repeat split).
  destruct (lone_files_join_in_order env steady_answers 1 10 demo_files 0%Q _ _ s
              Hrest eq_refl eq_refl) as (_ & _ & _ & Hids & Hcount).
  split; [reflexivity|]. split; [|exact Hcount].
  change (session_message_ids (ud 1 (world s'))) with (Some [501; 502; 1031; 1032]).
  reflexivity.
Defined.

(** ** When the gate is asked *)

Section GateCensus.

Variable env : Env.

Lemma gate_calls_emit e w :
  gate_calls (trace (emit e w))
  = gate_calls (trace w) ++ match e with GateCall u => [u] | _ => [] end.
Proof.
  unfold gate_calls. cbn [trace emit]. rewrite omap_app. f_equal. by destruct e.
Qed.

Ltac no_gate :=
  repeat first
    [ reflexivity
    | progress cbn [trace emit set_ud set_user_data set_files set_store
                    set_bot_data set_job_queue set_now run_once remove_jobs_by_name]
    | rewrite gate_calls_snoc by done
    | case_match ].

Lemma gate_calls_is_user_in_group user_id w :
  gate_calls (trace (is_user_in_group env user_id w).2)
  = gate_calls (trace w) ++ [user_id].
Proof.
  unfold is_user_in_group. cbn [now emit].
  destruct (get_chat_member env (now w) user_id); cbn [snd].
  - by rewrite gate_calls_emit.
  - by rewrite gate_calls_emit, gate_calls_emit, !app_nil_r.
Qed.

Lemma gate_calls_require_group_membership func user_id chat_id cb w :
  (forall w0, gate_calls (trace (func user_id w0)) = gate_calls (trace w0)) ->
  gate_calls (trace (require_group_membership env func (Some user_id) chat_id cb w))
  = gate_calls (trace w) ++ [user_id].
Proof.
  intros Hfunc. unfold require_group_membership.
  pose proof (gate_calls_is_user_in_group user_id w) as Hg.
  destruct (is_user_in_group env user_id w) as [ok w0]. cbn [snd] in Hg.
  destruct ok; [by rewrite Hfunc|].
  destruct cb; by rewrite gate_calls_emit, !app_nil_r.
Qed.

Lemma gate_calls_start user_id chat_id ty args w :
  gate_calls (trace (start env (Some user_id) chat_id ty args w))
  = gate_calls (trace w)
    ++ (if Py.truthy (head args) && is_private ty then [user_id] else []).
Proof.
  unfold start. cbv zeta. rewrite ud_set_ud.
  cbn [pending_share_id empty_user_data].
  destruct (Py.truthy (head args)) eqn:Htruthy.
  2: { cbn [andb]. rewrite gate_calls_emit. by rewrite !app_nil_r. }
  destruct (head args) as [sid|]; [|done].
  rewrite Htruthy. cbn [negb andb].
  destruct (is_private ty); cbn [negb].
  2: { rewrite gate_calls_emit. by rewrite !app_nil_r. }
  pose proof (gate_calls_is_user_in_group user_id (set_ud user_id empty_user_data w))
    as Hg.
  destruct (is_user_in_group env user_id (set_ud user_id empty_user_data w))
    as [ok w0]. cbn [snd] in Hg.
  change (trace (set_ud user_id empty_user_data w)) with (trace w) in Hg.
  destruct ok.
  - rewrite gate_calls_emit, gate_calls_show_shared_files_page.
    change (gate_calls (trace (emit (Send (ToChat chat_id) MsgVerified) w0)) ++ []
            = gate_calls (trace w) ++ [user_id]).
    by rewrite gate_calls_emit, !app_nil_r.
  - rewrite gate_calls_emit.
    change (gate_calls (trace w0) ++ [] = gate_calls (trace w) ++ [user_id]).
    by rewrite app_nil_r.
Qed.

Lemma gate_calls_finish_upload_handler user chat_id ty w :
  gate_calls (trace (finish_upload_handler env user chat_id ty w))
  = gate_calls (trace w).
Proof. unfold finish_upload_handler. no_gate. Qed.

Lemma gate_calls_file_handler_inner chat_id ty msg_id g user_id w :
  gate_calls (trace (file_handler_inner chat_id ty msg_id g user_id w))
  = gate_calls (trace w).
Proof. unfold file_handler_inner. no_gate; by simplify_eq. Qed.

Lemma gate_calls_process_and_collect_files_job j w :
  gate_calls (trace (process_and_collect_files_job env j w)) = gate_calls (trace w).
Proof. unfold process_and_collect_files_job. no_gate. Qed.

Lemma gate_calls_run_due t q w :
  gate_calls (trace (run_due env t q w)) = gate_calls (trace w).
Proof.
  revert w. induction q as [|j q IH]; intros w; cbn [run_due]; [done|].
  case_match.
  - by rewrite IH, gate_calls_process_and_collect_files_job.
  - cbn [trace set_job_queue]. apply IH.
Qed.

Lemma gate_calls_advance t w :
  gate_calls (trace (advance env t w)) = gate_calls (trace w).
Proof.
  unfold advance. case_match; [|done]. cbn [trace set_now]. apply gate_calls_run_due.
Qed.

Lemma gate_calls_dispatch u w :
  gate_calls (trace (dispatch env u w))
  = gate_calls (trace w) ++ gate_calls_of env u.
Proof.
  unfold gate_calls_of, asks_gate, dispatch.
  destruct (effective_user u) as [user_id|] eqn:Huser.
  2: { rewrite app_nil_r.
       destruct (content u) as [cmd args|body|kind msg_id g|data]; [| | |done].
       - by repeat case_match.
       - unfold button_handler, finish_upload_handler, text_message_handler.
         by repeat case_match.
       - by repeat case_match. }
  cbn [option_list].
  destruct (content u) as [cmd args|body|kind msg_id g|data].
  - destruct (String.eqb cmd "start"); [apply gate_calls_start|].
    destruct (String.eqb cmd "help").
    { unfold help_command. by rewrite gate_calls_emit. }
    destruct (String.eqb cmd "cancel").
    { rewrite app_nil_r. unfold cancel_command.
      destruct (negb (is_private (chat_type u))).
      - by rewrite gate_calls_emit, !app_nil_r.
      - by rewrite gate_calls_finish_upload_handler. }
    destruct (String.eqb cmd "myfiles"); [|by rewrite app_nil_r].
    unfold my_files_command. apply gate_calls_require_group_membership.
    intros w0. unfold my_files_command_inner.
    destruct (negb (is_private (chat_type u))).
    + by rewrite gate_calls_emit, !app_nil_r.
    + apply gate_calls_show_my_files_page.
  - destruct (String.eqb body UPLOAD_BUTTON_TEXT).
    { unfold button_handler. apply gate_calls_require_group_membership.
      intros w0. unfold button_handler_inner. no_gate. }
    destruct (String.eqb body FINISH_UPLOAD_BUTTON_TEXT).
    { rewrite app_nil_r. apply gate_calls_finish_upload_handler. }
    unfold text_message_handler.
    destruct (chat_type u) eqn:Hty; cbn [ChatType_eqb is_private negb andb];
      try (by rewrite app_nil_r).
    destruct (Re.match_ (share_link_pattern (bot_username env)) body) as [groups|].
    + rewrite gate_calls_start. cbn [is_private ChatType_eqb]. by rewrite andb_true_r.
    + rewrite app_nil_r. by case_match; rewrite gate_calls_emit, !app_nil_r.
  - assert (gate_calls
              (trace (file_handler env (Some user_id) (effective_chat u)
                        (chat_type u) msg_id g w))
            = gate_calls (trace w) ++ [user_id]) as Hfile.
    { unfold file_handler. apply gate_calls_require_group_membership.
      intros w0. apply gate_calls_file_handler_inner. }
    destruct kind; try exact Hfile.
    destruct (ChatType_eqb (chat_type u) CHANNEL); cbn [negb];
      [by rewrite app_nil_r|exact Hfile].
  - rewrite app_nil_r. apply callback_never_asks_the_gate.
Qed.

(** X17: when the gate is asked.  Over any run of the event loop the
    membership gate is asked exactly once for each [/myfiles], each
    press of the upload button, each file message, and each retrieval
    in the private chat, by [/start] with a share id or by a share link
    sent as text, and for nothing else: not for finishing or
    cancelling an upload, not for [/help], not for any button press
    under a list or a share view, and never by a timer. *)
Theorem gate_is_asked_exactly_when (w : World) (events : list (Time * Update)) :
  gate_calls (trace (run env w events))
  = gate_calls (trace w) ++ concat ((fun e => gate_calls_of env e.2) <$> events).
Proof.
  revert w. induction events as [|[t u] events IH]; intros w.
  { cbn. by rewrite app_nil_r. }
  cbn [run foldl fmap list_fmap concat snd]. unfold run in IH. rewrite IH.
  unfold deliver. cbn [fst snd].
  by rewrite gate_calls_dispatch, gate_calls_advance, app_assoc.
Qed.

End GateCensus.

(** ** The keys of the registry and who may remove a share *)

Section Keys.

Variable env : Env.

(** What an update does to the table is what the finish handler or the
    callback handler does to it. *)
Lemma registry_dispatch (I : list FileRow -> Prop) u w :
  (forall user_id data,
      effective_user u = Some user_id ->
      I (files (button_callback_handler env user_id (effective_chat u) data w))) ->
  (forall user chat ty w0,
      files w0 = files w -> I (files (finish_upload_handler env user chat ty w0))) ->
  I (files w) -> I (files (dispatch env u w)).
Proof.
  intros Hcallback Hfinish Hw. unfold dispatch.
  destruct (content u) as [cmd args|body|kind msg_id g|data].
  - repeat case_match; try done.
    + by rewrite files_start.
    + unfold help_command. by repeat case_match.
    + unfold cancel_command. repeat case_match; try done. by apply Hfinish.
    + unfold my_files_command.
      apply (files_require_group_membership env (fun _ f => I f)); [done|].
      intros u0 w0 Hw0. unfold my_files_command_inner.
      case_match; [by rewrite <- Hw0 in Hw|].
      by rewrite files_show_my_files_page, Hw0.
  - repeat case_match.
    + unfold button_handler.
      apply (files_require_group_membership env (fun _ f => I f)); [done|].
      intros u0 w0 Hw0. by rewrite files_button_handler_inner, Hw0.
    + by apply Hfinish.
    + by rewrite files_text_message_handler.
  - assert (I (files (file_handler env (effective_user u) (effective_chat u)
                        (chat_type u) msg_id g w))) as Hfile.
    { unfold file_handler.
      apply (files_require_group_membership env (fun _ f => I f)); [done|].
      intros u0 w0 Hw0. by rewrite files_file_handler_inner, Hw0. }
    repeat case_match; done.
  - destruct (effective_user u) as [user_id|]; [|done]. by apply Hcallback.
Qed.

(** An invariant of the table that finishing and deleting keep is kept
    by every update and every timer. *)
Lemma registry_run (I : list FileRow -> Prop) events w :
  (forall sid rows, I rows -> I (delete_row sid rows)) ->
  (forall user chat ty w0,
      I (files w0) -> I (files (finish_upload_handler env user chat ty w0))) ->
  I (files w) -> I (files (run env w events)).
Proof.
  intros Hdelete Hfinish. revert w.
  induction events as [|[t u] events IH]; intros w Hw; [done|].
  cbn [run foldl]. apply IH. unfold deliver. cbn [fst snd].
  rewrite <- (files_advance env t w) in Hw.
  apply registry_dispatch; [| |done].
  - intros user_id data _.
    destruct (files_button_callback_handler env user_id (effective_chat u) data
                (advance env t w)) as [->|[sid ->]]; [done|]. by apply Hdelete.
  - intros user chat ty w0 Hw0. apply Hfinish. by rewrite Hw0.
Qed.

Lemma lookup_row_None sid rows :
  lookup_row sid rows = None -> sid ∉ share_id <$> rows.
Proof.
  unfold lookup_row. induction rows as [|r rows IH]; cbn [List.find fmap list_fmap].
  - intros _. apply not_elem_of_nil.
  - destruct (String.eqb_spec (share_id r) sid) as [|Hne]; [done|].
    intros Hnone%IH. apply not_elem_of_cons. by split.
Qed.

Lemma lookup_row_Some sid row rows :
  lookup_row sid rows = Some row -> row ∈ rows /\ share_id row = sid.
Proof.
  unfold lookup_row. intros [Hin Heq]%find_some.
  split; [by apply list_elem_of_In|]. by apply String.eqb_eq.
Qed.

Lemma keyed_delete_row sid rows :
  registry_keyed rows -> registry_keyed (delete_row sid rows).
Proof.
  intros [Hdup Hshape]. unfold delete_row. split.
  - induction rows as [|r rows IH]; [done|].
    cbn [fmap list_fmap] in Hdup. apply NoDup_cons in Hdup as [Hr Hdup].
    apply Forall_cons in Hshape as [_ Hshape].
    cbn [List.filter]. destruct (negb (String.eqb (share_id r) sid)); [|by apply IH].
    cbn [fmap list_fmap]. apply NoDup_cons. split; [|by apply IH].
    intros (r' & Heq & Hin)%list_elem_of_fmap.
    apply list_elem_of_In, filter_In in Hin as [Hin _].
    apply Hr, list_elem_of_fmap. exists r'. split; [done|]. by apply list_elem_of_In.
  - apply Forall_forall. intros r [Hr _]%list_elem_of_In%filter_In.
    rewrite Forall_forall in Hshape. by apply Hshape, list_elem_of_In.
Qed.

Lemma keyed_finish_upload_handler user chat ty w :
  registry_keyed (files w) ->
  registry_keyed (files (finish_upload_handler env user chat ty w)).
Proof.
  intros [Hdup Hshape]. unfold finish_upload_handler.
  destruct user as [user_id|]; [|done].
  destruct (negb (is_private ty)); [done|].
  rewrite !ud_emit.
  destruct (default [] (session_message_ids (ud user_id w))) as [|i ids]; [done|].
  cbn [now set_ud set_user_data emit files].
  destruct (db_fault env (now w) OpInsert); [done|]. cbn [orb].
  destruct (lookup_row _ (files w)) as [row|] eqn:Hfresh.
  { by rewrite bool_decide_eq_true_2. }
  rewrite bool_decide_eq_false_2 by (by intros [? ?]).
  cbn [files set_files emit fmap list_fmap share_id]. split.
  - cbn [fmap list_fmap share_id]. apply NoDup_cons. split; [|done].
    by apply lookup_row_None.
  - constructor; [|done]. cbn [share_id]. apply token_urlsafe_8.
Qed.

Lemma token_char_no_colon c : token_char c = true -> not_char ":" c = true.
Proof. destruct c as [[] [] [] [] [] [] [] []]; (done || discriminate). Qed.

(** X18: the share ids of the registry are unique tokens.  Through any
    sequence of updates and timers no two rows share a share id and
    every share id is a run of eleven characters of [A-Za-z0-9_-]: a
    row is written only under a token that is not taken, and deleting
    removes rows only.  So no share id holds a colon, and the data of
    every delete and info control is read back as it was written. *)
Theorem share_ids_are_unique_tokens (w : World) (events : list (Time * Update)) :
  registry_keyed (files w) ->
  let w' := run env w events in
  registry_keyed (files w')
  /\ (forall r, r ∈ files w' -> string_forall (not_char ":") (share_id r) = true)
  /\ (forall r, r ∈ files w' -> lookup_row (share_id r) (files w') = Some r).
Proof.
  intros Hw w'.
  assert (registry_keyed (files w')) as [Hdup Hshape].
  { subst w'. apply registry_run; [apply keyed_delete_row| |done].
    intros user chat ty w0. apply keyed_finish_upload_handler. }
  split; [by split|]. split.
  - intros r Hr. rewrite Forall_forall in Hshape. destruct (Hshape r Hr) as [Hchars _].
    eapply string_forall_impl; [|exact Hchars]. apply token_char_no_colon.
  - intros r Hr. clear Hshape. unfold lookup_row.
    induction (files w') as [|r0 rows IH]; [by apply elem_of_nil in Hr|].
    cbn [fmap list_fmap] in Hdup. apply NoDup_cons in Hdup as [Hr0 Hdup].
    cbn [List.find]. apply elem_of_cons in Hr as [->|Hr].
    + by rewrite String.eqb_refl.
    + destruct (String.eqb_spec (share_id r0) (share_id r)) as [Heq|_]; [|by apply IH].
      exfalso. apply Hr0. rewrite Heq. apply list_elem_of_fmap. by exists r.
Qed.

(** The delete action removes the rows of a share id only when the row
    found under it was uploaded by the presser. *)
Lemma delete_share_removes user_id chat_id sid page w :
  files (delete_share env user_id chat_id sid page w) = files w
  \/ exists row0,
       lookup_row sid (files w) = Some row0 /\ uploader_id row0 = user_id
       /\ files (delete_share env user_id chat_id sid page w) = delete_row sid (files w).
Proof.
  unfold delete_share.
  destruct (db_fault env (now w) OpSelect); [by left|].
  destruct (lookup_row sid (files w)) as [row|]; [|by left].
  destruct (Z.eqb_spec (uploader_id row) user_id) as [Hown|_]; [|by left].
  cbn [negb]. destruct (db_fault env (now w) OpDelete); [by left|].
  right. exists row. split; [done|]. split; [done|].
  repeat first
    [ reflexivity
    | progress cbn [files emit set_files]
    | rewrite files_show_my_files_page
    | case_match ].
Qed.

Lemma callback_removes user_id chat_id data w :
  files (button_callback_handler env user_id chat_id data w) = files w
  \/ exists sid row0,
       lookup_row sid (files w) = Some row0 /\ uploader_id row0 = user_id
       /\ files (button_callback_handler env user_id chat_id data w)
          = delete_row sid (files w).
Proof.
  unfold button_callback_handler.
  set (parts := Py.split ":" (Some 2%nat) data).
  set (action := default "" (head parts)).
  set (w1 := if String.eqb action "spage"
             then retract_page_view env user_id chat_id (emit (Answer AlertNone) w)
             else emit (Answer AlertNone) w).
  assert (files w1 = files w) as Hw1.
  { subst w1. destruct (String.eqb action "spage"); [|done].
    by rewrite files_retract_page_view. }
  rewrite <- Hw1. clearbody w1. clear Hw1.
  destruct (String.eqb action "page").
  { left. destruct (parts !! 1%nat ≫= Py.int); [|done].
    apply files_show_my_files_page. }
  destruct (String.eqb action "spage").
  { left. destruct (parts !! 2%nat); [|done].
    destruct (parts !! 1%nat ≫= Py.int); [|done].
    apply files_show_shared_files_page. }
  destruct (String.eqb action "delete").
  { destruct (parts !! 2%nat) as [p|]; [|by left].
    destruct (parts !! 1%nat) as [sid|]; [|by left].
    destruct (Py.int p) as [page|]; [|by left].
    destruct (delete_share_removes user_id chat_id sid page w1)
      as [->|(row0 & Hrow0 & Hown & ->)]; [by left|right]. by exists sid, row0. }
  left. destruct (String.eqb action "info"); [|done].
  by destruct (parts !! 1%nat).
Qed.

Lemma keyed_lookup rows r :
  NoDup (share_id <$> rows) -> r ∈ rows -> lookup_row (share_id r) rows = Some r.
Proof.
  intros Hdup Hr. unfold lookup_row.
  induction rows as [|r0 rows IH]; [by apply elem_of_nil in Hr|].
  cbn [fmap list_fmap] in Hdup. apply NoDup_cons in Hdup as [Hr0 Hdup].
  cbn [List.find]. apply elem_of_cons in Hr as [->|Hr].
  - by rewrite String.eqb_refl.
  - destruct (String.eqb_spec (share_id r0) (share_id r)) as [Heq|_]; [|by apply IH].
    exfalso. apply Hr0. rewrite Heq. apply list_elem_of_fmap. by exists r.
Qed.

Lemma kept_dispatch row u w :
  registry_keyed (files w) -> row ∈ files w ->
  effective_user u <> Some (uploader_id row) ->
  row ∈ files (dispatch env u w).
Proof.
  intros [Hdup _] Hrow Hother. apply (registry_dispatch (fun f => row ∈ f)); [| |done].
  - intros user_id data Huser.
    destruct (callback_removes user_id (effective_chat u) data w)
      as [->|(sid & row0 & Hrow0 & Hown & ->)]; [done|].
    unfold delete_row. apply list_elem_of_In, filter_In.
    split; [by apply list_elem_of_In|].
    destruct (String.eqb_spec (share_id row) sid) as [Hsid|]; [|done].
    exfalso. apply Hother. rewrite Huser. f_equal.
    rewrite <- Hsid, (keyed_lookup _ row Hdup Hrow) in Hrow0. by injection Hrow0 as <-.
  - intros user chat ty w0 Hw0.
    destruct (finish_upload_row env user chat ty w0)
      as [->|(u0 & new & ids & _ & -> & _)]; rewrite Hw0; [done|].
    apply elem_of_cons. by right.
Qed.

(** X19: only its uploader can remove a share.  In a registry whose
    share ids are unique, a row stays in the registry, as it is,
    through any sequence of timers and of updates sent by anybody but
    its uploader: commands, texts, files and button presses with any
    callback data, made up or not. *)
Theorem only_the_uploader_removes_a_share
    (row : FileRow) (w : World) (events : list (Time * Update)) :
  registry_keyed (files w) -> row ∈ files w ->
  Forall (fun e => effective_user e.2 <> Some (uploader_id row)) events ->
  let w' := run env w events in
  row ∈ files w' /\ lookup_row (share_id row) (files w') = Some row.
Proof.
  intros Hkeyed Hrow Hothers w'.
  assert (registry_keyed (files w')) as [Hdup' _].
  { subst w'. apply registry_run; [apply keyed_delete_row| |done].
    intros user chat ty w0. apply keyed_finish_upload_handler. }
  assert (row ∈ files w') as Hrow'.
  { subst w'. clear Hdup'. revert w Hkeyed Hrow.
    induction Hothers as [|[t u] events Hu _ IH]; intros w Hkeyed Hrow; [done|].
    cbn [run foldl]. unfold deliver at 2. cbn [fst snd] in *.
    rewrite <- (files_advance env t w) in Hkeyed, Hrow. apply IH.
    - apply (registry_run registry_keyed [(t, u)] w);
        [apply keyed_delete_row| |by rewrite <- (files_advance env t w)].
      intros user chat ty w0. apply keyed_finish_upload_handler.
    - by apply kept_dispatch. }
  split; [exact Hrow'|]. by apply keyed_lookup.
Qed.

End Keys.

Lemma share_ids_witness :
  let w' := run (demo_env storage_up) idle_world demo_upload in
  registry_keyed (files idle_world)
  /\ share_id <$> files w' = ["AAAAAAAAAAA"]
  /\ registry_keyed (files w')
  /\ (forall r, r ∈ files w' -> string_forall (not_char ":") (share_id r) = true)
  /\ (forall r, r ∈ files w' -> lookup_row (share_id r) (files w') = Some r).
Proof.
  intros w'.
  assert (registry_keyed (files idle_world)) as H0.
  { split; [apply NoDup_nil_2|constructor]. }
  split; [exact H0|]. split; [reflexivity|].
  exact (share_ids_are_unique_tokens (demo_env storage_up) idle_world demo_upload H0).
Defined.

(** User 1 has uploaded one share; user 7 sends the data of its delete
    control: the row stays. *)
Lemma only_the_uploader_witness :
  let env := demo_env storage_up in
  let w := run env idle_world demo_upload in
  let row := {| share_id := "AAAAAAAAAAA"; message_id := "1021"; uploader_id := 1;
                file_caption := batch_caption 1; file_type := "合集";
                timestamp := 2%Q |} in
  let press := {| effective_user := Some 7; effective_chat := 70;
                  chat_type := PRIVATE;
                  content := CallbackQuery "delete:AAAAAAAAAAA:1" |} in
  files w = [row]
  /\ trace (run env w [(3%Q, press)])
     = trace w ++ [Answer AlertNone; Answer AlertForbidden]
  /\ row ∈ files (run env w [(3%Q, press)])
  /\ lookup_row "AAAAAAAAAAA" (files (run env w [(3%Q, press)])) = Some row.
Proof.
  intros env w row press.
  assert (files w = [row]) as Hfiles by reflexivity.
  assert (registry_keyed (files w)) as Hkeyed.
  { rewrite Hfiles. split; [apply NoDup_singleton|].
    constructor; [by split|constructor]. }
  assert (row ∈ files w) as Hrow by (rewrite Hfiles; apply elem_of_cons; by left).
  assert (Forall (fun e : Time * Update => effective_user e.2 <> Some (uploader_id row))
            [(3%Q, press)]) as Hothers.
  { constructor; [discriminate|constructor]. }
  split; [exact Hfiles|]. split; [reflexivity|].
  exact (only_the_uploader_removes_a_share env row w [(3%Q, press)]
           Hkeyed Hrow Hothers).
Defined.

(** ** Turning the page of a share *)

Section View.

Variable env : Env.

(** X20: turning the page replaces the view.  A user who has a page of
    a share in front of them presses a page control of that share.
    The messages of the old page and then the old panel are withdrawn
    first, each attempt that fails being logged and nothing more; then
    the requested page, clamped into the pages of the share, is
    copied and a new panel sent, and the new copies and the new panel
    are what the next press will withdraw. *)
Theorem turning_the_page_replaces_the_view
    (user_id chat_id : Z) (sid : string) (q : Z) (row : FileRow)
    (ids old_ids sent : list Z) (old_panel : Z) (w : World) :
  sid <> "" ->
  last_page_file_ids (ud user_id w) = Some old_ids -> old_ids <> [] ->
  last_control_panel_id (ud user_id w) = Some old_panel -> old_panel <> 0 ->
  db_fault env (now w) OpSelect = false ->
  lookup_row sid (files w) = Some row ->
  item_refs row = Some ids ->
  let n := Z.of_nat (length ids) in
  let tp := (n + FILES_PER_PAGE - 1) `div` FILES_PER_PAGE in
  let p := Z.max 1 (Z.min q tp) in
  let page_ids := take 10 (drop (Z.to_nat ((p - 1) * 10)) ids) in
  copy_messages env (now w) chat_id page_ids = Ok sent ->
  let w' := button_callback_handler env user_id chat_id
              (with_share (Some sid) ("spage" +:+ ":" +:+ Py.str q)) w in
  trace w'
  = trace w
    ++ [Answer AlertNone;
        match delete_messages env (now w) (ToChat chat_id) old_ids with
        | Ok _ => Retracted (ToChat chat_id) old_ids
        | Raise _ => Log WARNING
        end;
        match delete_message env (now w) (ToChat chat_id) old_panel with
        | Ok _ => RetractedOne (ToChat chat_id) old_panel
        | Raise _ => Log WARNING
        end;
        Copied chat_id page_ids; Sleep 3;
        Send (ToChat chat_id)
          (MsgPanel (file_caption row) p tp n
             (create_pagination_keyboard p tp "spage" (Some sid)))]
  /\ page_ids <> []
  /\ last_page_file_ids (ud user_id w') = Some sent
  /\ last_control_panel_id (ud user_id w') = Some (sent_message_id env (now w) chat_id).
Proof.
  intros Hsid Hold Hold_ne Hpanel Hpanel_ne Hsel Hrow Hrefs n tp p page_ids Hcopy w'.
  assert (Py.truthy (Some sid) = true) as Htruthy.
  { unfold Py.truthy. by destruct (String.eqb_spec sid ""). }
  pose proof (ints_split_nonempty _ _ _ _ Hrefs) as Hne.
  assert (0 < n) as Hn by (subst n; destruct ids; [done|cbn [length]; lia]).
  pose proof (ceil_div_bounds n 10 ltac:(lia)) as Hc.
  assert (tp = ceil_div n 10) as Htp.
  { subst tp. unfold FILES_PER_PAGE. by rewrite total_pages_ceil. }
  assert (1 <= p <= tp) as Hp by (subst p; nia).
  assert (0 <= (p - 1) * 10 < n) as Hoff by nia.
  assert (paginate n FILES_PER_PAGE q = Some (p, tp, (p - 1) * 10)) as Hpage.
  { unfold paginate. destruct (Z.eqb_spec n 0); [lia|]. reflexivity. }
  assert (Py.slice ids ((p - 1) * 10) ((p - 1) * 10 + FILES_PER_PAGE) = page_ids)
    as Hslice by (rewrite slice_take_drop; [done|lia|done]).
  assert (page_ids <> []) as Hpage_ne.
  { intros Hnil. apply (f_equal length) in Hnil. subst page_ids.
    rewrite length_take, length_drop in Hnil. cbn [length] in Hnil. subst n. lia. }
  set (w1 := retract_page_view env user_id chat_id (emit (Answer AlertNone) w)).
  assert (trace w1
          = trace w
            ++ [Answer AlertNone;
                match delete_messages env (now w) (ToChat chat_id) old_ids with
                | Ok _ => Retracted (ToChat chat_id) old_ids
                | Raise _ => Log WARNING
                end;
                match delete_message env (now w) (ToChat chat_id) old_panel with
                | Ok _ => RetractedOne (ToChat chat_id) old_panel
                | Raise _ => Log WARNING
                end]
          /\ now w1 = now w /\ files w1 = files w) as (Htr1 & Hnow1 & Hf1).
  { subst w1. unfold retract_page_view. rewrite ud_emit, Hold.
    cbn [default from_option id]. destruct old_ids as [|i old_ids]; [done|].
    cbn [now emit set_ud set_user_data].
    destruct (delete_messages env (now w) (ToChat chat_id) (i :: old_ids)) as [[]|e1].
    - rewrite !ud_emit, !ud_set_ud. cbn [last_control_panel_id set_last_page_file_ids].
      rewrite ?ud_emit, Hpanel.
      destruct (Z.eqb_spec old_panel 0) as [|_]; [done|].
      cbn [now emit set_ud set_user_data].
      destruct (delete_message env (now w) (ToChat chat_id) old_panel) as [[]|e2];
        cbn [trace now files emit set_ud set_user_data];
        by rewrite <- !app_assoc.
    - rewrite !ud_emit, !ud_set_ud. cbn [last_control_panel_id set_last_page_file_ids].
      rewrite ?ud_emit, Hpanel.
      destruct (Z.eqb_spec old_panel 0) as [|_]; [done|].
      cbn [now emit set_ud set_user_data].
      destruct (delete_message env (now w) (ToChat chat_id) old_panel) as [[]|e2];
        cbn [trace now files emit set_ud set_user_data];
        by rewrite <- !app_assoc. }
  assert (w' = show_shared_files_page env user_id chat_id sid q w1) as ->.
  { subst w' w1. by rewrite press_spage, Htruthy. }
  clearbody w1. unfold show_shared_files_page.
  unfold item_refs in Hrefs. rewrite Hnow1, Hf1, Hsel, Hrow, Hrefs.
  fold n. rewrite Hpage, Hslice, Hcopy.
  split; [|split; [exact Hpage_ne|split]].
  - cbn [trace emit set_ud set_user_data]. rewrite Htr1. by rewrite <- !app_assoc.
  - rewrite ud_set_ud. cbn [last_page_file_ids set_last_control_panel_id].
    rewrite !ud_emit, ud_set_ud. reflexivity.
  - rewrite ud_set_ud. cbn [last_control_panel_id set_last_control_panel_id].
    cbn [now emit set_ud set_user_data]. by rewrite Hnow1.
Qed.

End View.

(** User 1 looks at page 1 of the share "tok" and presses the control
    of page 2: the ten copies and the panel go, the eleventh item
    comes. *)
Lemma turning_the_page_witness :
  let env := demo_env storage_up in
  let w := start env (Some 1) 10 PRIVATE ["tok"] shared_world in
  let w' := button_callback_handler env 1 10
              (with_share (Some "tok") ("spage" +:+ ":" +:+ Py.str 2)) w in
  let old_ids := [5101; 5102; 5103; 5104; 5105; 5106; 5107; 5108; 5109; 5110] in
  last_page_file_ids (ud 1 w) = Some old_ids
  /\ last_control_panel_id (ud 1 w) = Some 900
  /\ trace w'
     = trace w
       ++ [Answer AlertNone; Retracted (ToChat 10) old_ids; RetractedOne (ToChat 10) 900;
           Copied 10 [111]; Sleep 3;
           Send (ToChat 10)
             (MsgPanel (batch_caption 11) 2 2 11
                (create_pagination_keyboard 2 2 "spage" (Some "tok")))]
  /\ last_page_file_ids (ud 1 w') = Some [5111].
Proof.
  intros env w w' old_ids.
  assert ("tok" <> "") as Hsid by discriminate.
  assert (old_ids <> []) as Hold_ne by discriminate.
  assert (900 <> 0) as Hpanel_ne by lia.
  destruct (turning_the_page_replaces_the_view env 1 10 "tok" 2 demo_row
              [101; 102; 103; 104; 105; 106; 107; 108; 109; 110; 111]
              old_ids [5111] 900 w
              Hsid eq_refl Hold_ne eq_refl Hpanel_ne eq_refl eq_refl eq_refl eq_refl)
    as (Htrace & _ & Hlast & _).
  split; [reflexivity|]. split; [reflexivity|]. split; [exact Htrace|exact Hlast].
Defined.

(** ** Replies that are never given *)

Section DeadReplies.

Variable env : Env.

Lemma dead_replies_snoc tr e :
  dead_reply e = false -> dead_replies (tr ++ [e]) = dead_replies tr.
Proof.
  intros He. unfold dead_replies. rewrite List.filter_app. cbn [List.filter].
  by rewrite He, app_nil_r.
Qed.

Ltac alive :=
  repeat first
    [ reflexivity
    | progress cbn [trace emit set_ud set_user_data set_files set_store
                    set_bot_data set_job_queue set_now run_once remove_jobs_by_name]
    | rewrite dead_replies_snoc by done
    | case_match ].

Lemma dead_show_shared_files_page user_id chat_id sid page w :
  dead_replies (trace (show_shared_files_page env user_id chat_id sid page w))
  = dead_replies (trace w).
Proof.
  unfold show_shared_files_page.
  destruct (db_fault env (now w) OpSelect); [alive|].
  destruct (lookup_row sid (files w)) as [row|]; [|alive].
  destruct (Py.ints (Py.split "," None (message_id row))) as [ids|] eqn:Hids; [|alive].
  apply ints_split_nonempty in Hids. unfold paginate.
  destruct (Z.eqb_spec (Z.of_nat (length ids)) 0) as [H0|_].
  { destruct ids; [done|]. cbn [length] in H0. lia. }
  alive.
Qed.

Lemma dead_show_my_files_page user_id chat_id cb page w :
  dead_replies (trace (show_my_files_page env user_id chat_id cb page w))
  = dead_replies (trace w).
Proof. unfold show_my_files_page. alive. Qed.

Lemma dead_is_user_in_group user_id w :
  dead_replies (trace (is_user_in_group env user_id w).2) = dead_replies (trace w).
Proof.
  unfold is_user_in_group. cbn [now emit].
  destruct (get_chat_member env (now w) user_id); cbn [snd]; alive.
Qed.

(** The decorator as [main] uses it: on message handlers only. *)
Lemma dead_require_group_membership func user chat_id w :
  (forall u w0, dead_replies (trace (func u w0)) = dead_replies (trace w0)) ->
  dead_replies (trace (require_group_membership env func user chat_id false w))
  = dead_replies (trace w).
Proof.
  intros Hfunc. unfold require_group_membership.
  destruct user as [user_id|]; [|done].
  pose proof (dead_is_user_in_group user_id w) as Hg.
  destruct (is_user_in_group env user_id w) as [ok w0]. cbn [snd] in Hg.
  destruct ok; [by rewrite Hfunc|]. cbn [trace emit].
  by rewrite dead_replies_snoc.
Qed.

Lemma dead_start user chat_id ty args w :
  dead_replies (trace (start env user chat_id ty args w)) = dead_replies (trace w).
Proof.
  unfold start. destruct user as [user_id|]; [|done]. cbv zeta.
  destruct (if Py.truthy (head args) then head args else _) as [sid|]; [|alive].
  destruct (negb (Py.truthy (Some sid))); [alive|].
  destruct (negb (is_private ty)); [alive|].
  pose proof (dead_is_user_in_group user_id (set_ud user_id empty_user_data w)) as Hg.
  destruct (is_user_in_group env user_id (set_ud user_id empty_user_data w))
    as [ok w0]. cbn [snd] in Hg.
  change (trace (set_ud user_id empty_user_data w)) with (trace w) in Hg.
  destruct ok; [|alive; exact Hg].
  cbn [trace emit]. rewrite dead_replies_snoc by done.
  rewrite dead_show_shared_files_page. alive. exact Hg.
Qed.

Lemma dead_retract_page_view user_id chat_id w :
  dead_replies (trace (retract_page_view env user_id chat_id w))
  = dead_replies (trace w).
Proof. unfold retract_page_view. alive. Qed.

Lemma dead_delete_share user_id chat_id sid page w :
  dead_replies (trace (delete_share env user_id chat_id sid page w))
  = dead_replies (trace w).
Proof.
  unfold delete_share.
  repeat first
    [ reflexivity
    | progress cbn [trace emit set_ud set_user_data set_files]
    | rewrite dead_replies_snoc by done
    | rewrite dead_show_my_files_page
    | case_match ].
Qed.

Lemma dead_button_callback_handler user_id chat_id data w :
  dead_replies (trace (button_callback_handler env user_id chat_id data w))
  = dead_replies (trace w).
Proof.
  unfold button_callback_handler.
  set (parts := Py.split ":" (Some 2%nat) data).
  set (action := default "" (head parts)).
  set (w1 := if String.eqb action "spage"
             then retract_page_view env user_id chat_id (emit (Answer AlertNone) w)
             else emit (Answer AlertNone) w).
  assert (dead_replies (trace w1) = dead_replies (trace w)) as Hw1.
  { subst w1. destruct (String.eqb action "spage").
    - rewrite dead_retract_page_view. cbn [trace emit]. by rewrite dead_replies_snoc.
    - cbn [trace emit]. by rewrite dead_replies_snoc. }
  rewrite <- Hw1. clearbody w1. clear Hw1.
  repeat first
    [ reflexivity
    | progress cbn [trace emit]
    | rewrite dead_replies_snoc by done
    | rewrite dead_show_my_files_page
    | rewrite dead_show_shared_files_page
    | rewrite dead_delete_share
    | case_match ].
Qed.

Lemma dead_finish_upload_handler user chat_id ty w :
  dead_replies (trace (finish_upload_handler env user chat_id ty w))
  = dead_replies (trace w).
Proof. unfold finish_upload_handler. alive. Qed.

Lemma dead_process_and_collect_files_job j w :
  dead_replies (trace (process_and_collect_files_job env j w))
  = dead_replies (trace w).
Proof. unfold process_and_collect_files_job. alive. Qed.

Lemma dead_file_handler_inner chat_id ty msg_id g user_id w :
  dead_replies (trace (file_handler_inner chat_id ty msg_id g user_id w))
  = dead_replies (trace w).
Proof. unfold file_handler_inner. alive; by simplify_eq. Qed.

Lemma dead_dispatch u w :
  dead_replies (trace (dispatch env u w)) = dead_replies (trace w).
Proof.
  unfold dispatch. destruct (content u) as [cmd args|body|kind msg_id g|data].
  - repeat case_match; try done.
    + apply dead_start.
    + unfold help_command. alive.
    + unfold cancel_command. repeat case_match; try done.
      * cbn [trace emit]. by rewrite dead_replies_snoc.
      * by rewrite dead_finish_upload_handler.
    + unfold my_files_command. apply dead_require_group_membership.
      intros u0 w0. unfold my_files_command_inner. case_match.
      * cbn [trace emit]. by rewrite dead_replies_snoc.
      * apply dead_show_my_files_page.
  - repeat case_match.
    + unfold button_handler. apply dead_require_group_membership.
      intros u0 w0. unfold button_handler_inner. alive.
    + apply dead_finish_upload_handler.
    + unfold text_message_handler.
      repeat first
        [ reflexivity
        | rewrite dead_start
        | progress cbn [trace emit]
        | rewrite dead_replies_snoc by done
        | case_match ].
  - assert (dead_replies
              (trace (file_handler env (effective_user u) (effective_chat u)
                        (chat_type u) msg_id g w))
            = dead_replies (trace w)) as Hfile.
    { unfold file_handler. apply dead_require_group_membership.
      intros u0 w0. apply dead_file_handler_inner. }
    repeat case_match; done.
  - destruct (effective_user u) as [user_id|]; [|done].
    apply dead_button_callback_handler.
Qed.

Lemma dead_run_due t q w :
  dead_replies (trace (run_due env t q w)) = dead_replies (trace w).
Proof.
  revert w. induction q as [|j q IH]; intros w; cbn [run_due]; [done|].
  case_match.
  - by rewrite IH, dead_process_and_collect_files_job.
  - cbn [trace set_job_queue]. apply IH.
Qed.

(** X22: two replies of the source are never given.  Over any run of
    the event loop no button press is answered with the alert of the
    membership decorator, which [main] puts on message handlers only,
    and nobody is told that a share holds no files, since the list read
    from a row is never empty. *)
Theorem dead_replies_are_never_given (w : World) (events : list (Time * Update)) :
  dead_replies (trace (run env w events)) = dead_replies (trace w).
Proof.
  revert w. induction events as [|[t u] events IH]; intros w; [done|].
  cbn [run foldl]. unfold run in IH. rewrite IH. unfold deliver. cbn [fst snd].
  rewrite dead_dispatch. unfold advance. case_match; [|done].
  cbn [trace set_now]. apply dead_run_due.
Qed.

End DeadReplies.

(** ** Timers and what they refer to *)

Section Backed.

Variable env : Env.

Lemma step_refl w : step_ok w w.
Proof. split; [by split|]. split; [intros j Hj|intros g c Hc]; by left. Qed.

Lemma backed_grows w w' j : grows w w' -> job_backed w j -> job_backed w' j.
Proof. intros [Hu Hs] [Hju Hjs]. split; [by apply Hu|by apply Hs]. Qed.

Lemma step_trans w1 w2 w3 : step_ok w1 w2 -> step_ok w2 w3 -> step_ok w1 w3.
Proof.
  intros ([Hu1 Hs1] & Hq1 & Hb1) ([Hu2 Hs2] & Hq2 & Hb2). split; [|split].
  - split; [intros u Hu; by apply Hu2, Hu1|intros c Hc; by apply Hs2, Hs1].
  - intros j Hj. destruct (Hq2 j Hj) as [Hj2|Hb]; [|by right].
    destruct (Hq1 j Hj2) as [Hj1|Hb]; [by left|right].
    by apply (backed_grows w2 w3).
  - intros g c Hc. destruct (Hb2 g c Hc) as [Hc2|Hc3]; [|by right].
    destruct (Hb1 g c Hc2) as [Hc1|Hc2']; [by left|right]. by apply Hs2.
Qed.

Lemma step_backed w w' :
  step_ok w w' -> jobs_backed w -> cells_backed w ->
  jobs_backed w' /\ cells_backed w'.
Proof.
  intros (Hgrows & Hq & Hb) Hjobs Hcells. split.
  - apply Forall_forall. intros j Hj. destruct (Hq j Hj) as [Hold|Hnew]; [|done].
    apply (backed_grows w w'); [done|]. unfold jobs_backed in Hjobs.
    rewrite Forall_forall in Hjobs. by apply Hjobs.
  - intros g c Hc. destruct (Hb g c Hc) as [Hold|Hnew]; [|done].
    destruct Hgrows as [_ Hs]. by apply Hs, (Hcells g).
Qed.

(** Changes that touch neither entries, lists, group entries nor the
    queue. *)
Lemma step_same w w' :
  user_data w' = user_data w -> store w' = store w ->
  job_queue w' = job_queue w -> bot_data w' = bot_data w ->
  step_ok w w'.
Proof.
  intros Hu Hs Hq Hb. split; [split|split].
  - intros u. by rewrite Hu.
  - intros c. by rewrite Hs.
  - intros j. rewrite Hq. by left.
  - intros g c. rewrite Hb. by left.
Qed.

Lemma step_emit e w0 w : step_ok w0 w -> step_ok w0 (emit e w).
Proof. intros H. eapply step_trans; [exact H|]. by apply step_same. Qed.

Lemma step_set_files f w0 w : step_ok w0 w -> step_ok w0 (set_files f w).
Proof. intros H. eapply step_trans; [exact H|]. by apply step_same. Qed.

Lemma step_drop_group g w0 w :
  step_ok w0 w -> step_ok w0 (set_bot_data (delete g (bot_data w)) w).
Proof.
  intros H. eapply step_trans; [exact H|]. split; [by split|].
  split; [intros j Hj; by left|].
  intros g' c. cbn [bot_data set_bot_data]. intros [_ Hc]%lookup_delete_Some. by left.
Qed.

Lemma step_set_ud u d w0 w : step_ok w0 w -> step_ok w0 (set_ud u d w).
Proof.
  intros H. eapply step_trans; [exact H|]. split; [split|split].
  - intros v Hv. unfold set_ud. cbn [user_data set_user_data].
    destruct (decide (u = v)) as [->|Hne].
    + rewrite lookup_insert_eq. by eexists.
    + by rewrite lookup_insert_ne.
  - done.
  - intros j Hj. by left.
  - intros g c Hc. by left.
Qed.

Ltac stepping :=
  repeat first
    [ apply step_refl
    | assumption
    | apply step_emit
    | apply step_set_files
    | apply step_drop_group
    | apply step_set_ud
    | case_match ].

Lemma step_show_shared_files_page user_id chat_id sid page w :
  step_ok w (show_shared_files_page env user_id chat_id sid page w).
Proof. unfold show_shared_files_page. stepping. Qed.

Lemma step_show_my_files_page user_id chat_id cb page w :
  step_ok w (show_my_files_page env user_id chat_id cb page w).
Proof. unfold show_my_files_page. stepping. Qed.

Lemma step_is_user_in_group user_id w :
  step_ok w (is_user_in_group env user_id w).2.
Proof.
  unfold is_user_in_group. cbn [now emit].
  destruct (get_chat_member env (now w) user_id); cbn [snd]; stepping.
Qed.

Lemma step_require_group_membership func user chat_id cb w :
  cells_backed w ->
  (forall u w0, cells_backed w0 -> step_ok w0 (func u w0)) ->
  step_ok w (require_group_membership env func user chat_id cb w).
Proof.
  intros Hcells Hfunc. unfold require_group_membership.
  destruct user as [user_id|]; [|apply step_refl].
  pose proof (step_is_user_in_group user_id w) as Hg.
  assert (cells_backed (is_user_in_group env user_id w).2) as Hcells0.
  { unfold is_user_in_group. cbn [now emit].
    by destruct (get_chat_member env (now w) user_id). }
  destruct (is_user_in_group env user_id w) as [ok w0]. cbn [snd] in Hg, Hcells0.
  destruct ok.
  - eapply step_trans; [exact Hg|]. by apply Hfunc.
  - destruct cb; by apply step_emit.
Qed.

Lemma step_start user chat_id ty args w :
  step_ok w (start env user chat_id ty args w).
Proof.
  unfold start. destruct user as [user_id|]; [|apply step_refl]. cbv zeta.
  set (w1 := set_ud user_id empty_user_data w).
  assert (step_ok w w1) as H1 by (subst w1; stepping). clearbody w1.
  destruct (if Py.truthy (head args) then head args else _) as [sid|]; [|stepping].
  destruct (negb (Py.truthy (Some sid))); [stepping|].
  destruct (negb (is_private ty)); [stepping|].
  pose proof (step_is_user_in_group user_id w1) as Hg.
  destruct (is_user_in_group env user_id w1) as [ok w2]. cbn [snd] in Hg.
  assert (step_ok w w2) as H2 by (by eapply step_trans).
  destruct ok; [|stepping].
  apply step_emit. eapply step_trans; [|apply step_show_shared_files_page].
  stepping.
Qed.

Lemma step_retract_page_view user_id chat_id w :
  step_ok w (retract_page_view env user_id chat_id w).
Proof. unfold retract_page_view. stepping. Qed.

Lemma step_delete_share user_id chat_id sid page w :
  step_ok w (delete_share env user_id chat_id sid page w).
Proof.
  unfold delete_share.
  destruct (db_fault env (now w) OpSelect); [stepping|].
  destruct (lookup_row sid (files w)) as [row|]; [|stepping].
  destruct (negb (uploader_id row =? user_id)); [stepping|].
  destruct (db_fault env (now w) OpDelete); [stepping|].
  cbv zeta.
  set (w1 := show_my_files_page env user_id chat_id true page _).
  assert (step_ok w w1) as H1.
  { subst w1. eapply step_trans; [|apply step_show_my_files_page]. stepping. }
  clearbody w1. stepping.
Qed.

Lemma step_button_callback_handler user_id chat_id data w :
  step_ok w (button_callback_handler env user_id chat_id data w).
Proof.
  unfold button_callback_handler.
  set (parts := Py.split ":" (Some 2%nat) data).
  set (action := default "" (head parts)).
  set (w1 := if String.eqb action "spage"
             then retract_page_view env user_id chat_id (emit (Answer AlertNone) w)
             else emit (Answer AlertNone) w).
  assert (step_ok w w1) as H1.
  { subst w1. destruct (String.eqb action "spage"); [|stepping].
    eapply step_trans; [|apply step_retract_page_view]. stepping. }
  clearbody w1.
  destruct (String.eqb action "page").
  { destruct (parts !! 1%nat ≫= Py.int); [|stepping].
    eapply step_trans; [exact H1|apply step_show_my_files_page]. }
  destruct (String.eqb action "spage").
  { destruct (parts !! 2%nat); [|done].
    destruct (parts !! 1%nat ≫= Py.int); [|stepping].
    eapply step_trans; [exact H1|apply step_show_shared_files_page]. }
  destruct (String.eqb action "delete").
  { destruct (parts !! 2%nat) as [p|]; [|done].
    destruct (parts !! 1%nat) as [sid|]; [|stepping].
    destruct (Py.int p) as [page|]; [|stepping].
    eapply step_trans; [exact H1|apply step_delete_share]. }
  destruct (String.eqb action "info"); [|done].
  destruct (parts !! 1%nat); stepping.
Qed.

Lemma step_finish_upload_handler user chat_id ty w :
  step_ok w (finish_upload_handler env user chat_id ty w).
Proof. unfold finish_upload_handler. cbv zeta. stepping. Qed.

Lemma step_process_and_collect_files_job j w :
  step_ok w (process_and_collect_files_job env j w).
Proof. unfold process_and_collect_files_job. cbv zeta. stepping. Qed.

Lemma elem_of_enqueue j k q : j ∈ enqueue k q -> j = k \/ j ∈ q.
Proof.
  induction q as [|k0 q IH]; cbn [enqueue].
  - intros ->%list_elem_of_singleton. by left.
  - destruct (Qle_bool (fire_at k0) (fire_at k)).
    + intros [->|Hj]%elem_of_cons; [right; apply elem_of_cons; by left|].
      destruct (IH Hj) as [->|Hq]; [by left|right]. apply elem_of_cons. by right.
    + intros [->|Hj]%elem_of_cons; [by left|by right].
Qed.

Lemma is_Some_insert (l : list (list Z)) c c' x :
  is_Some (l !! c') -> is_Some (<[c := x]> l !! c').
Proof.
  intros Hc. apply lookup_lt_is_Some. rewrite length_insert.
  by apply lookup_lt_is_Some.
Qed.

Lemma is_Some_app (l : list (list Z)) x c :
  is_Some (l !! c) -> is_Some ((l ++ [x]) !! c).
Proof.
  intros Hc. apply lookup_lt_is_Some. rewrite length_app.
  apply lookup_lt_is_Some in Hc. lia.
Qed.

Lemma is_Some_last (l : list (list Z)) x : is_Some ((l ++ [x]) !! length l).
Proof. apply lookup_lt_is_Some. rewrite length_app. cbn [length]. lia. Qed.

(** Setting a timer over a list that is in the store, for a user who
    has an entry. *)
Lemma step_run_once delay user_id chat_id cell name0 w w1 :
  is_Some (user_data w !! user_id) ->
  user_data w1 = user_data w ->
  (forall c, is_Some (store w !! c) -> is_Some (store w1 !! c)) ->
  is_Some (store w1 !! cell) ->
  (forall j, j ∈ job_queue w1 -> j ∈ job_queue w) ->
  (forall g c, bot_data w1 !! g = Some c ->
               bot_data w !! g = Some c \/ is_Some (store w1 !! c)) ->
  step_ok w (run_once delay user_id chat_id cell name0 w1).
Proof.
  intros Huser Hu Hs Hcell Hq Hb. split; [split|split].
  - intros u. cbn [run_once user_data set_job_queue]. by rewrite Hu.
  - exact Hs.
  - intros j [->|Hj]%elem_of_enqueue; [right|left; by apply Hq].
    split; cbn [job_user_id job_message_ids run_once user_data store set_job_queue];
      [by rewrite Hu|exact Hcell].
  - exact Hb.
Qed.

(** The one handler that sets timers: the job it puts in the queue
    names the entry of a user who is collecting and a list that is in
    the store. *)
Lemma step_file_handler_inner chat_id ty msg_id g user_id w :
  cells_backed w ->
  step_ok w (file_handler_inner chat_id ty msg_id g user_id w).
Proof.
  intros Hcells. unfold file_handler_inner.
  destruct (negb (is_private ty)); [apply step_refl|].
  destruct (bool_decide (state (ud user_id w) = Some "awaiting_file")) eqn:Hst;
    cbn [negb]; [|stepping].
  apply bool_decide_eq_true in Hst.
  assert (is_Some (user_data w !! user_id)) as Huser.
  { unfold ud in Hst. destruct (user_data w !! user_id); [by eexists|done]. }
  assert (forall name0 (q : list Job) j,
             j ∈ List.filter (fun k => negb (named name0 k)) q -> j ∈ q) as Hfilter.
  { intros name0 q j Hj. apply list_elem_of_In, filter_In in Hj as [Hj _].
    by apply list_elem_of_In. }
  assert (forall m : Z,
             step_ok w
               (run_once 0 user_id chat_id (length (store w)) None
                  (set_store (store w ++ [[m]])
                     (emit (Send (ToChat chat_id) MsgFileReceived) w)))) as Hlone.
  { intros m. apply step_run_once; [done|done| | |done|].
    - intros c Hc. cbn. by apply is_Some_app.
    - cbn. apply is_Some_last.
    - intros g0 c Hc. by left. }
  destruct g as [job_name|]; [|by apply (Hlone msg_id)].
  destruct (Py.truthy (Some job_name)); [|by apply (Hlone msg_id)].
  destruct (bot_data w !! job_name) as [cell|] eqn:Hcell.
  - cbv zeta. pose proof (Hcells job_name cell Hcell) as Hthere.
    apply step_run_once; [done|by repeat case_match| | | |].
    + intros c Hc. repeat case_match; cbn -[insert]; by apply is_Some_insert.
    + repeat case_match; cbn -[insert]; by apply is_Some_insert.
    + intros j Hj. repeat case_match; cbn -[insert List.filter] in Hj;
        by eapply Hfilter.
    + intros g0 c Hc. left. by repeat case_match.
  - cbv zeta.
    apply step_run_once; [done|by repeat case_match| | | |].
    + intros c Hc. repeat case_match; cbn -[insert];
        by apply is_Some_insert, is_Some_app.
    + repeat case_match; cbn -[insert]; apply is_Some_insert, is_Some_last.
    + intros j Hj. repeat case_match; cbn -[insert List.filter] in Hj;
        by eapply Hfilter.
    + intros g0 c Hc.
      assert (bot_data w !! g0 = Some c
              \/ (g0 = job_name /\ c = length (store w))) as [Hold|[-> ->]].
      { repeat case_match; cbn -[insert] in Hc;
          apply lookup_insert_Some in Hc as [[-> <-]|[_ Hc]]; auto. }
      * by left.
      * right. repeat case_match; cbn -[insert]; apply is_Some_insert, is_Some_last.
Qed.

Lemma step_text_message_handler user chat_id ty body w :
  step_ok w (text_message_handler env user chat_id ty body w).
Proof.
  unfold text_message_handler.
  repeat first [ apply step_refl | apply step_start | apply step_emit | case_match ].
Qed.

Lemma step_dispatch u w : cells_backed w -> step_ok w (dispatch env u w).
Proof.
  intros Hcells. unfold dispatch.
  destruct (content u) as [cmd args|body|kind msg_id g|data].
  - repeat case_match; try apply step_refl.
    + apply step_start.
    + unfold help_command. stepping.
    + unfold cancel_command. repeat case_match; try apply step_refl.
      * stepping.
      * eapply step_trans; [|apply step_finish_upload_handler]. stepping.
    + unfold my_files_command. apply step_require_group_membership; [done|].
      intros u0 w0 _. unfold my_files_command_inner.
      case_match; [stepping|apply step_show_my_files_page].
  - repeat case_match.
    + unfold button_handler. apply step_require_group_membership; [done|].
      intros u0 w0 _. unfold button_handler_inner. stepping.
    + apply step_finish_upload_handler.
    + apply step_text_message_handler.
  - assert (step_ok w (file_handler env (effective_user u) (effective_chat u)
                         (chat_type u) msg_id g w)) as Hfile.
    { unfold file_handler. apply step_require_group_membership; [done|].
      intros u0 w0 Hw0. by apply step_file_handler_inner. }
    repeat case_match; done || apply step_refl.
  - destruct (effective_user u) as [user_id|]; [|apply step_refl].
    apply step_button_callback_handler.
Qed.

(** Running the jobs that are due takes jobs out of the queue only. *)
Lemma step_run_due t q w :
  (forall j, j ∈ q -> j ∈ job_queue w) -> step_ok w (run_due env t q w).
Proof.
  revert w. induction q as [|j q IH]; intros w Hq; cbn [run_due].
  - split; [by split|]. split; [|intros g c Hc; by left].
    intros j Hj. by apply elem_of_nil in Hj.
  - destruct (Qle_bool (fire_at j) t).
    + set (w1 := process_and_collect_files_job env j (set_now (fire_at j) w)).
      assert (step_ok w w1) as H1.
      { subst w1. eapply step_trans; [|apply step_process_and_collect_files_job].
        by apply step_same. }
      assert (job_queue w1 = job_queue w) as Hq1.
      { subst w1. unfold process_and_collect_files_job. by repeat case_match. }
      eapply step_trans; [exact H1|]. apply IH. intros k Hk. rewrite Hq1.
      apply Hq. apply elem_of_cons. by right.
    + assert (step_ok w (run_due env t q w)) as (Hgrows & Hjobs & Hb).
      { apply IH. intros k Hk. apply Hq. apply elem_of_cons. by right. }
      split; [exact Hgrows|]. split; [|exact Hb].
      intros k. cbn [job_queue set_job_queue].
      intros [->|Hk]%elem_of_cons; [left; apply Hq, elem_of_cons; by left|].
      by apply Hjobs.
Qed.

Lemma step_advance t w : step_ok w (advance env t w).
Proof.
  unfold advance. case_match; [|apply step_refl].
  eapply step_trans; [by apply step_run_due|]. by apply step_same.
Qed.

(** X23: a waiting timer always finds what it refers to.  Through any
    sequence of updates and timers every job of the queue names a user
    who has an entry in the user data and a list that is in the store,
    and every group entry refers to a list that is in the store: the
    entry was there when the timer was set, and nothing ever takes an
    entry or a list away.  So when such a job runs and the relay works,
    its references are added to that entry: the branch of the job that
    would drop them for an unknown user is never taken. *)
Theorem waiting_timers_find_their_data (w : World) (events : list (Time * Update)) :
  jobs_backed w -> cells_backed w ->
  let w' := run env w events in
  jobs_backed w' /\ cells_backed w'
  /\ forall j,
       j ∈ job_queue w' ->
       exists d ms,
         user_data w' !! job_user_id j = Some d
         /\ store w' !! job_message_ids j = Some ms
         /\ forall refs,
              forward_messages env (fire_at j) (job_chat_id j) ms = Ok refs ->
              ud (job_user_id j)
                (process_and_collect_files_job env j (set_now (fire_at j) w'))
              = drained_into d refs.
Proof.
  intros Hjobs Hcells w'.
  assert (jobs_backed w' /\ cells_backed w') as [Hjobs' Hcells'].
  { subst w'. revert w Hjobs Hcells.
    induction events as [|[t u] events IH]; intros w Hjobs Hcells; [done|].
    cbn [run foldl]. unfold deliver. cbn [fst snd].
    destruct (step_backed w (advance env t w) (step_advance t w) Hjobs Hcells)
      as [Hjobs1 Hcells1].
    destruct (step_backed _ _ (step_dispatch u (advance env t w) Hcells1)
                Hjobs1 Hcells1) as [Hjobs2 Hcells2].
    by apply IH. }
  split; [exact Hjobs'|]. split; [exact Hcells'|].
  intros j Hj. unfold jobs_backed in Hjobs'. rewrite Forall_forall in Hjobs'.
  destruct (Hjobs' j Hj) as [[d Hd] [ms Hms]].
  exists d, ms. split; [exact Hd|]. split; [exact Hms|].
  intros refs Hrelay. unfold process_and_collect_files_job.
  cbn [store set_now now emit]. rewrite Hms. cbn [default from_option id].
  rewrite Hrelay. cbn [user_data emit set_now]. rewrite Hd.
  unfold drained_into.
  repeat case_match; unfold ud;
    cbn [user_data set_bot_data set_ud set_user_data emit set_now];
    by rewrite lookup_insert_eq.
Qed.

End Backed.

(** User 1 presses the upload button and sends the first item of an
    album: the timer that waits is backed. *)
Lemma waiting_timers_witness :
  let env := demo_env storage_up in
  let w' := run env idle_world
              [(0%Q, upload_update 1 10);
               (1%Q, album_update 1 10 "album" (Photo, 21))] in
  jobs_backed idle_world /\ cells_backed idle_world
  /\ job_queue w' = [pending 1 10 "album" 1%Q 0%nat]
  /\ jobs_backed w' /\ cells_backed w'.
Proof.
  intros env w'.
  assert (jobs_backed idle_world) as Hjobs by constructor.
  assert (cells_backed idle_world) as Hcells by (intros g c Hc; done).
  destruct (waiting_timers_find_their_data env idle_world
              [(0%Q, upload_update 1 10);
               (1%Q, album_update 1 10 "album" (Photo, 21))] Hjobs Hcells)
    as (Hjobs' & Hcells' & _).
  split; [exact Hjobs|]. split; [exact Hcells|]. split; [reflexivity|].
  split; [exact Hjobs'|exact Hcells'].
Defined.
